(** * arq-langchain-fastapi: a shallow embedding of the gateway

    The development follows the layout of the repository:

    - [Py]       the fragment of Python's data and control flow that the
                 sources use: values, exceptions and their [str] rendering,
                 outcomes of calls, a small state-and-exception monad;
    - [Config]   [app/core/config.py]: the [Settings] class and [get_settings];
    - [Worker]   [app/worker.py]: [process_langchain_request], [WorkerSettings]
                 and [create_worker];
    - [Pool]     the retry loop of the worker pool that consumes
                 [WorkerSettings];
    - [Main]     [app/main.py]: the [chat] handler of [POST /chat];
    - [Monitor]  [tools/monitor_queue.py]: [get_queue_stats] and [print_stats];
    - [Health]   [app/worker.py]: [health_check];
    - [Lifespan] [app/main.py]: [lifespan];
    - [LoadTest] [tests/test_client.py]: the batches of [run_load_test];
    - [TextNormalizer] [app/common/utils/text_normalizer.py]:
                 [normalize_line_breaks].

    Definitions come first; the properties of the specification follow. *)

From Stdlib Require Import String Ascii List ZArith QArith Qround Lia Lqa Bool.
From Stdlib Require Import DecimalString.
Import ListNotations.
Open Scope string_scope.
Open Scope Z_scope.

(* ================================================================== *)
(** * Python fragment *)
(* ================================================================== *)

Module Py.

(** Values that cross the interfaces of the program (JSON-like data). *)
#[warnings="-register-all"]
Inductive value : Type :=
| VNone
| VBool (b : bool)
| VInt (z : Z)
| VFloat (q : Q)
| VStr (s : string)
| VList (l : list value)
| VDict (d : list (string * value)).

(** [x is None] *)
Definition is_None (v : value) : bool :=
  match v with VNone => true | _ => false end.

(** [d.get(k)] on a dict given by its items: a missing key gives [None]. *)
Fixpoint items_get (k : string) (d : list (string * value)) : value :=
  match d with
  | [] => VNone
  | (k', v) :: r => if String.eqb k k' then v else items_get k r
  end.

Definition dict_get (d : value) (k : string) : value :=
  match d with VDict items => items_get k items | _ => VNone end.

(** [str(n)] for an [int]. *)
Definition str_int (z : Z) : string := NilZero.string_of_int (Z.to_int z).

(** Exceptions.  The handlers of this program observe two things of an
    exception: whether it is an instance of [Exception] (what
    [except Exception] catches; [KeyboardInterrupt], [SystemExit] and
    [asyncio.CancelledError] are not) and its [str] rendering.  An
    [HTTPException] also carries the status code and the detail that FastAPI
    turns into the response. *)
Inductive exn : Type :=
| HTTPException (status_code : Z) (detail : string)
| Foreign (cls : string) (derives_Exception : bool) (rendering : string).

(** [isinstance(e, Exception)] *)
Definition is_Exception (e : exn) : bool :=
  match e with
  | HTTPException _ _ => true
  | Foreign _ b _ => b
  end.

(** [str(e)].  Starlette's [HTTPException.__str__] is
    [f"{self.status_code}: {self.detail}"]. *)
Definition str (e : exn) : string :=
  match e with
  | HTTPException c d => str_int c ++ ": " ++ d
  | Foreign _ _ r => r
  end.

(** [asyncio.TimeoutError()], raised without arguments. *)
Definition TimeoutError : exn := Foreign "TimeoutError" true "".

(** [KeyboardInterrupt()], delivered on an interrupt signal. *)
Definition KeyboardInterrupt : exn := Foreign "KeyboardInterrupt" false "".

(** [isinstance(e, KeyboardInterrupt)] *)
Definition is_KeyboardInterrupt (e : exn) : bool :=
  match e with
  | Foreign cls _ _ => String.eqb cls "KeyboardInterrupt"
  | HTTPException _ _ => false
  end.

(** [AttributeError], as raised by an attribute access on [None]. *)
Definition AttributeError (msg : string) : exn := Foreign "AttributeError" true msg.

(** How a call ends: it returns, it raises, or it never comes back. *)
Inductive outcome (A : Type) : Type :=
| Return (a : A)
| Raise (e : exn)
| Hang.
Arguments Return {A} a.
Arguments Raise {A} e.
Arguments Hang {A}.

(** The world a coroutine of this program acts on: the wall clock (seconds),
    the records it sent to the logger and the lines it printed, each line
    with the time at which it was printed. *)
Record world : Type := mkWorld {
  clock : Q;
  log : list (string * string);
  stdout : list (Q * string)
}.

(** Computations over a state [S]; [IO] is the case of the bare world. *)
Definition M (S A : Type) : Type := S -> outcome A * S.
Definition IO (A : Type) : Type := M world A.

Section Monad.
Context {S : Type}.

Definition ret {A} (a : A) : M S A := fun s => (Return a, s).
Definition raise {A} (e : exn) : M S A := fun s => (Raise e, s).
Definition hang {A} : M S A := fun s => (Hang, s).

Definition bind {A B} (m : M S A) (k : A -> M S B) : M S B :=
  fun s =>
    match m s with
    | (Return a, s') => k a s'
    | (Raise e, s') => (Raise e, s')
    | (Hang, s') => (Hang, s')
    end.

(** What an [except C as e: handler(e)] clause does to the way its [try]
    block ended; [catches e] is [isinstance(e, C)]. *)
Definition except_ {A} (catches : exn -> bool) (handler : exn -> M S A)
    (r : outcome A * S) : outcome A * S :=
  match r with
  | (Raise e, s') => if catches e then handler e s' else (Raise e, s')
  | _ => r
  end.

(** What a [finally: cleanup] clause does: the cleanup runs however the
    block ended, unless it never ended; an exception of the cleanup replaces
    the pending outcome. *)
Definition finally_ {A} (cleanup : M S unit) (r : outcome A * S) : outcome A * S :=
  match r with
  | (Hang, s') => (Hang, s')
  | (o, s') =>
      match cleanup s' with
      | (Return _, s'') => (o, s'')
      | (Raise e, s'') => (Raise e, s'')
      | (Hang, s'') => (Hang, s'')
      end
  end.

(** [try: body  except Exception as e: handler(e)].  Exceptions outside
    [Exception] pass through. *)
Definition try_except_Exception {A} (body : M S A) (handler : exn -> M S A) : M S A :=
  fun s => except_ is_Exception handler (body s).

End Monad.

(** [logger.info(msg)], [logger.error(msg)] *)
Definition logger (level msg : string) : IO unit :=
  fun w => (Return tt, mkWorld (clock w) (log w ++ [(level, msg)]) (stdout w)).

(** [print(line)] *)
Definition print (line : string) : IO unit :=
  fun w => (Return tt, mkWorld (clock w) (log w) (stdout w ++ [(clock w, line)])).

(** The clock moves on by [d] seconds. *)
Definition elapse (d : Q) : IO unit :=
  fun w => (Return tt, mkWorld (clock w + d)%Q (log w) (stdout w)).

(** [time.time()] *)
Definition time_time : IO Q := fun w => (Return (clock w), w).

(** A computation on the world, run by code that also holds an object [T]. *)
Definition lift {T A} (m : IO A) : M (T * world) A :=
  fun s => let (o, w') := m (snd s) in (o, (fst s, w')).

(** [" " * n] and the like. *)
Fixpoint repeat_string (s : string) (n : nat) : string :=
  match n with
  | O => EmptyString
  | S n' => s ++ repeat_string s n'
  end.

(** [format(s, "^10")] and its other widths: [s] centred in [width] columns;
    of an odd padding the extra blank goes to the right; a longer [s] is
    left as it is. *)
Definition center (width : nat) (s : string) : string :=
  let pad := (width - String.length s)%nat in
  let left := Nat.div pad 2 in
  repeat_string " " left ++ s ++ repeat_string " " (pad - left).

End Py.

Declare Scope py_scope.
Delimit Scope py_scope with py.
Notation "x <- c1 ;; c2" := (Py.bind c1 (fun x => c2))
  (at level 61, c1 at next level, right associativity) : py_scope.
Notation "c1 ;;; c2" := (Py.bind c1 (fun _ => c2))
  (at level 61, right associativity) : py_scope.

(* ================================================================== *)
(** * app/core/config.py *)
(* ================================================================== *)

Module Config.

(** [os.environ] and the entries of the [.env] file, as items in iteration
    order.  Built into a dict, a later item wins over an earlier one with the
    same key. *)
Definition environ : Type := list (string * string).

Fixpoint lookup (k : string) (d : environ) : option string :=
  match d with
  | [] => None
  | (k', v) :: r =>
      match lookup k r with
      | Some x => Some x
      | None => if String.eqb k k' then Some v else None
      end
  end.

(** [os.getenv(k)]: the name is matched as it is written. *)
Definition getenv (env : environ) (k : string) : option string := lookup k env.

(** [k.lower()] on ASCII names. *)
Definition lower_ascii (c : ascii) : ascii :=
  let n := nat_of_ascii c in
  if (Nat.leb 65 n && Nat.leb n 90)%bool then ascii_of_nat (n + 32) else c.

Fixpoint lower (s : string) : string :=
  match s with
  | EmptyString => EmptyString
  | String c r => String (lower_ascii c) (lower r)
  end.

(** pydantic-settings reads a source through [{k.lower(): v for k, v in
    source.items()}] and asks it for the lower-cased field name
    ([case_sensitive] is off by default). *)
Definition env_vars (src : environ) : environ :=
  map (fun kv => (lower (fst kv), snd kv)) src.

(** The value pydantic-settings finds for a field: the process environment
    first, the [.env] file ([Config.env_file]) second. *)
Definition source_value (env dotenv : environ) (field : string) : option string :=
  match lookup (lower field) (env_vars env) with
  | Some v => Some v
  | None => lookup (lower field) (env_vars dotenv)
  end.

(** The fields of [Settings]. *)
Definition field_names : list string :=
  ["GOOGLE_API_KEY"; "MODEL_NAME"; "OUTPUT_FOLDER"; "MAX_CONCURRENCY";
   "MAX_OUTPUT_TOKENS"; "API_BASE_URL"; "FASTAPI_KEY"; "MAX_TASK_RUNTIME";
   "REDIS_HOST"; "REDIS_PORT"; "API_CONCURRENCY_LIMIT"].

(** Whether a lower-cased name is that of a field. *)
Definition names_field (k : string) : bool :=
  existsb (fun f => String.eqb k (lower f)) field_names.

Definition is_empty (v : string) : bool :=
  match v with EmptyString => true | String _ _ => false end.

(** The source of the [.env] file hands on, besides the fields, every
    variable of the file that names no field and has a value that is not
    empty (the source skips a variable when [not env_value]); the model
    forbids extra inputs ([extra='forbid'] is the default of [BaseSettings]).
    The process environment is only asked for the fields.  Each name counts
    once, with the value the dict has for it; [seen] are the names met so
    far. *)
Fixpoint extra_inputs_from (seen : list string) (vars all : environ) : list string :=
  match vars with
  | [] => []
  | (k, _) :: rest =>
      if existsb (String.eqb k) seen then extra_inputs_from seen rest all
      else
        match lookup k all with
        | Some v =>
            if (is_empty v || names_field k)%bool
            then extra_inputs_from (k :: seen) rest all
            else k :: extra_inputs_from (k :: seen) rest all
        | None => extra_inputs_from (k :: seen) rest all
        end
  end.

Definition extra_inputs (dotenv : environ) : list string :=
  extra_inputs_from [] (env_vars dotenv) (env_vars dotenv).

Record Settings : Type := mkSettings {
  GOOGLE_API_KEY : string;
  MODEL_NAME : string;
  OUTPUT_FOLDER : string;
  MAX_CONCURRENCY : Z;
  MAX_OUTPUT_TOKENS : Z;
  FASTAPI_KEY : string;
  API_BASE_URL : option string;
  MAX_TASK_RUNTIME : Py.value;
  REDIS_HOST : string;
  REDIS_PORT : Z;
  API_CONCURRENCY_LIMIT : Z
}.

(** What can end the import of the module. *)
Inductive field_error : Type := missing | int_parsing | extra_forbidden.

Inductive config_error : Type :=
| ValueError_int (literal : string)
| ValidationError (errors : list (string * field_error)).

Section Loading.

(** Python's [int(s)] on a string and pydantic's validation of a string as an
    [int] are library code; [None] stands for their rejecting the string. *)
Variable py_int : string -> option Z.
Variable pydantic_int : string -> option Z.

(** The defaults that the class body computes when the module is imported. *)
Record class_defaults : Type := mkDefaults {
  d_API_BASE_URL : option string;
  d_MAX_TASK_RUNTIME : Py.value;
  d_REDIS_HOST : string;
  d_REDIS_PORT : Z;
  d_API_CONCURRENCY_LIMIT : Z
}.

(** [int(os.getenv(name, dflt))] *)
Definition int_getenv (env : environ) (name : string) (dflt : Z) : config_error + Z :=
  match getenv env name with
  | None => inr dflt
  | Some s => match py_int s with
              | Some z => inr z
              | None => inl (ValueError_int s)
              end
  end.

Definition class_body (env : environ) : config_error + class_defaults :=
  let api_base_url :=
    match getenv env "API_BASE_URL" with
    | Some s => Some s
    | None => Some "https://api-dev.maverickcosts.com"
    end in
  let max_task_runtime :=
    match getenv env "MAX_TASK_RUNTIME" with
    | Some s => Py.VStr s
    | None => Py.VInt 3600
    end in
  let redis_host :=
    match getenv env "REDIS_HOST" with
    | Some s => s
    | None => "redis"
    end in
  match int_getenv env "REDIS_PORT" 6379 with
  | inl e => inl e
  | inr redis_port =>
      match int_getenv env "API_CONCURRENCY_LIMIT" 10 with
      | inl e => inl e
      | inr limit =>
          inr (mkDefaults api_base_url max_task_runtime redis_host redis_port limit)
      end
  end.

(** One field of the model: the value of its source if there is one
    (validated against the annotation), else its default, else [missing]. *)
Definition str_field (env dotenv : environ) (name : string) (dflt : option string)
  : field_error + string :=
  match source_value env dotenv name with
  | Some v => inr v
  | None => match dflt with Some d => inr d | None => inl missing end
  end.

Definition int_field (env dotenv : environ) (name : string) (dflt : Z)
  : field_error + Z :=
  match source_value env dotenv name with
  | Some v => match pydantic_int v with
              | Some z => inr z
              | None => inl int_parsing
              end
  | None => inr dflt
  end.

Definition opt_str_field (env dotenv : environ) (name : string) (dflt : option string)
  : field_error + option string :=
  match source_value env dotenv name with
  | Some v => inr (Some v)
  | None => inr dflt
  end.

(** A default is not validated: it is stored as the class body computed it. *)
Definition int_field_raw_default (env dotenv : environ) (name : string) (dflt : Py.value)
  : field_error + Py.value :=
  match source_value env dotenv name with
  | Some v => match pydantic_int v with
              | Some z => inr (Py.VInt z)
              | None => inl int_parsing
              end
  | None => inr dflt
  end.

Definition errors_of {A} (name : string) (r : field_error + A) : list (string * field_error) :=
  match r with inl e => [(name, e)] | inr _ => [] end.

(** [Settings()]: every field is read and validated, and the extra inputs
    of the [.env] file are refused; the errors are reported together, those
    of the fields first. *)
Definition Settings_new (d : class_defaults) (env dotenv : environ)
  : config_error + Settings :=
  let f1 := str_field env dotenv "GOOGLE_API_KEY" None in
  let f2 := str_field env dotenv "MODEL_NAME" (Some "gemini-2.0-flash") in
  let f3 := str_field env dotenv "OUTPUT_FOLDER" (Some "output_1") in
  let f4 := int_field env dotenv "MAX_CONCURRENCY" 10 in
  let f5 := int_field env dotenv "MAX_OUTPUT_TOKENS" 8192 in
  let f6 := opt_str_field env dotenv "API_BASE_URL" (d_API_BASE_URL d) in
  let f7 := str_field env dotenv "FASTAPI_KEY" (Some "your-api-key-here") in
  let f8 := int_field_raw_default env dotenv "MAX_TASK_RUNTIME" (d_MAX_TASK_RUNTIME d) in
  let f9 := str_field env dotenv "REDIS_HOST" (Some (d_REDIS_HOST d)) in
  let f10 := int_field env dotenv "REDIS_PORT" (d_REDIS_PORT d) in
  let f11 := int_field env dotenv "API_CONCURRENCY_LIMIT" (d_API_CONCURRENCY_LIMIT d) in
  let extras := map (fun k => (k, extra_forbidden)) (extra_inputs dotenv) in
  match f1, f2, f3, f4, f5, f6, f7, f8, f9, f10, f11, extras with
  | inr v1, inr v2, inr v3, inr v4, inr v5, inr v6, inr v7, inr v8, inr v9, inr v10, inr v11,
    [] =>
      inr (mkSettings v1 v2 v3 v4 v5 v7 v6 v8 v9 v10 v11)
  | _, _, _, _, _, _, _, _, _, _, _, _ =>
      inl (ValidationError
             (errors_of "GOOGLE_API_KEY" f1 ++ errors_of "MODEL_NAME" f2
              ++ errors_of "OUTPUT_FOLDER" f3 ++ errors_of "MAX_CONCURRENCY" f4
              ++ errors_of "MAX_OUTPUT_TOKENS" f5 ++ errors_of "API_BASE_URL" f6
              ++ errors_of "FASTAPI_KEY" f7 ++ errors_of "MAX_TASK_RUNTIME" f8
              ++ errors_of "REDIS_HOST" f9 ++ errors_of "REDIS_PORT" f10
              ++ errors_of "API_CONCURRENCY_LIMIT" f11 ++ extras))
  end.

(** Importing [app.core.config] runs the class body; [get_settings()] then
    builds the settings ([lru_cache] hands the same object to every later
    call).  [app/main.py], [app/worker.py] and [tools/monitor_queue.py] all
    run [settings = get_settings()] at their top level, when they are
    imported. *)
Definition get_settings (env dotenv : environ) : config_error + Settings :=
  match class_body env with
  | inl e => inl e
  | inr d => Settings_new d env dotenv
  end.

End Loading.

(** A reader of decimal literals ([-]digits), for concrete environments. *)
Definition digit_of (c : ascii) : option Z :=
  let n := nat_of_ascii c in
  if (Nat.leb 48 n && Nat.leb n 57)%bool then Some (Z.of_nat (n - 48)) else None.

Fixpoint digits (acc : Z) (s : string) : option Z :=
  match s with
  | EmptyString => Some acc
  | String c r => match digit_of c with
                  | Some d => digits (10 * acc + d) r
                  | None => None
                  end
  end.

Definition decimal (s : string) : option Z :=
  match s with
  | EmptyString => None
  | String "-" (String c r) => option_map Z.opp (digits 0 (String c r))
  | _ => digits 0 s
  end.

End Config.

(* ================================================================== *)
(** * app/worker.py *)
(* ================================================================== *)

Module Worker.
Import Py.
Local Open Scope py_scope.

(** The keyword arguments of [ChatGoogleGenerativeAI(...)]. *)
Record llm_kwargs : Type := mkKwargs {
  model : string;
  api_key : string;
  temperature : Q;
  max_tokens : Z
}.

(** [response = await llm.ainvoke(messages)]: the code reads [response.content]. *)
Record AIMessage : Type := mkAIMessage { content : value }.

(** The LangChain calls of the function: the model constructor,
    [convert_to_messages] and [llm.ainvoke].  Each may return, raise or never
    come back. *)
Record LangChain (LLM Msgs : Type) : Type := mkLangChain {
  ChatGoogleGenerativeAI : llm_kwargs -> IO LLM;
  convert_to_messages : list value -> IO Msgs;
  ainvoke : LLM -> Msgs -> IO AIMessage
}.
Arguments ChatGoogleGenerativeAI {LLM Msgs}.
Arguments convert_to_messages {LLM Msgs}.
Arguments ainvoke {LLM Msgs}.

(** The arguments of the call [ChatGoogleGenerativeAI(model=settings.MODEL_NAME,
    api_key=settings.GOOGLE_API_KEY, temperature=0.0,
    max_tokens=settings.MAX_OUTPUT_TOKENS)]. *)
Definition llm_arguments (settings : Config.Settings) : llm_kwargs :=
  {| model := Config.MODEL_NAME settings;
     api_key := Config.GOOGLE_API_KEY settings;
     temperature := 0;
     max_tokens := Config.MAX_OUTPUT_TOKENS settings |}.

Section Functions.
Variable settings : Config.Settings.
Context {LLM Msgs : Type}.
Variable langchain : LangChain LLM Msgs.

(** [except Exception as e: logger.error(...); raise] *)
Definition log_and_reraise {A} (e : exn) : IO A :=
  logger "ERROR" ("Error in LangChain processing: " ++ str e) ;;;
  raise e.

Definition process_langchain_request (messages : list value) : IO value :=
  logger "INFO" ("Processing LangChain request with "
                 ++ str_int (Z.of_nat (length messages)) ++ " messages") ;;;
  try_except_Exception
    (llm <- ChatGoogleGenerativeAI langchain (llm_arguments settings) ;;
     messages' <- convert_to_messages langchain messages ;;
     response <- ainvoke langchain llm messages' ;;
     logger "INFO" "LangChain processing completed" ;;;
     ret (content response))
    log_and_reraise.

End Functions.

Definition startup : IO unit := logger "INFO" "Worker starting up".
Definition shutdown : IO unit := logger "INFO" "Worker shutting down".

Record RedisSettings : Type := mkRedisSettings { host : string; port : Z }.

(** The attributes of the class [WorkerSettings]; [functions] lists the job
    functions by name. *)
Record WorkerSettings_attrs : Type := mkWorkerSettings {
  functions : list string;
  on_startup : IO unit;
  on_shutdown : IO unit;
  redis_settings : RedisSettings;
  max_jobs : Z;
  job_timeout : Z;
  keep_result : Z;
  max_tries : Z
}.

Definition WorkerSettings (settings : Config.Settings) : WorkerSettings_attrs :=
  {| functions := ["process_langchain_request"];
     on_startup := startup;
     on_shutdown := shutdown;
     redis_settings := {| host := Config.REDIS_HOST settings;
                          port := Config.REDIS_PORT settings |};
     max_jobs := Config.API_CONCURRENCY_LIMIT settings;
     job_timeout := 60;
     keep_result := 300;
     max_tries := 3 |}.

(** [create_worker()]: the same settings as a dict, with the serializer. *)
Record worker_dict : Type := mkWorkerDict {
  wd_functions : list string;
  wd_startup : IO unit;
  wd_shutdown : IO unit;
  wd_redis_settings : RedisSettings;
  wd_max_jobs : Z;
  wd_job_timeout : Z;
  wd_keep_result : Z;
  wd_max_tries : Z;
  wd_job_serializer : string
}.

Definition create_worker (settings : Config.Settings) : IO worker_dict :=
  logger "INFO" "Creating ARQ worker using legacy dictionary approach" ;;;
  ret {| wd_functions := ["process_langchain_request"];
         wd_startup := startup;
         wd_shutdown := shutdown;
         wd_redis_settings := {| host := Config.REDIS_HOST settings;
                                 port := Config.REDIS_PORT settings |};
         wd_max_jobs := Config.API_CONCURRENCY_LIMIT settings;
         wd_job_timeout := 60;
         wd_keep_result := 300;
         wd_max_tries := 3;
         wd_job_serializer := "json" |}.

(** Importing [app.worker]: [settings = get_settings()] runs first, the class
    [WorkerSettings] is built from it. *)
Definition import_worker (py_int pydantic_int : string -> option Z)
    (env dotenv : Config.environ) : Config.config_error + WorkerSettings_attrs :=
  match Config.get_settings py_int pydantic_int env dotenv with
  | inl e => inl e
  | inr settings => inr (WorkerSettings settings)
  end.

(** A stand-in for LangChain that shows how the model was configured: the
    model object is its keyword arguments, and the response reports them. *)
Definition echo : LangChain llm_kwargs (list value) :=
  {| ChatGoogleGenerativeAI := fun kw => ret kw;
     convert_to_messages := fun ms => ret ms;
     ainvoke := fun llm _ =>
       ret (mkAIMessage (VDict [("model", VStr (model llm));
                                ("temperature", VFloat (temperature llm));
                                ("max_tokens", VInt (max_tokens llm))])) |}.

End Worker.

(* ================================================================== *)
(** * The worker pool's handling of one job *)
(* ================================================================== *)

Module Pool.

Inductive status : Type := queued | running | succeeded | failed | timed_out.

Definition terminal (s : status) : bool :=
  match s with
  | succeeded | failed | timed_out => true
  | queued | running => false
  end.

Record Job : Type := mkJob {
  job_status : status;
  attempts : Z;
  result : option Py.value;
  error : option string
}.

(** What one invocation of the task executor gives. *)
Inductive attempt_result : Type :=
| Done (v : Py.value)
| Failed (err : string)
| TimedOut.

(** A job as [enqueue] creates it. *)
Definition new_job : Job := mkJob queued 0 None None.

Section Slot.
(** The pool-wide default, [WorkerSettings.max_tries]. *)
Variable max_attempts : Z.

(** Modelled from the spec: the loop of a worker slot is the queue library's
    and is not part of the sources.  Section 4.2: on receiving a job the slot
    "transitions status queued -> running, records attempt increment". *)
Definition claim (j : Job) : Job :=
  mkJob running (attempts j + 1) (result j) (error j).

(** Modelled from the spec: the slot's decision after the executor came back,
    which is not part of the sources.  Section 4.2: "on success stores the
    result and transitions to succeeded; on executor failure, if attempt
    count < max-attempts, transitions back to queued and calls Queue.requeue,
    else transitions to failed and stores the error; on executor timeout,
    transitions to timed_out if attempts exhausted, otherwise requeues". *)
Definition settle (j : Job) (r : attempt_result) : Job :=
  match r with
  | Done v => mkJob succeeded (attempts j) (Some v) (error j)
  | Failed err =>
      if attempts j <? max_attempts
      then mkJob queued (attempts j) (result j) (error j)
      else mkJob failed (attempts j) (result j) (Some err)
  | TimedOut =>
      if attempts j <? max_attempts
      then mkJob queued (attempts j) (result j) (error j)
      else mkJob timed_out (attempts j) (result j) (Some "timeout")
  end.

(** One pass of a job through a slot; [executor n] is what the [n]-th
    invocation of the executor on this job gives. *)
Definition attempt (executor : Z -> attempt_result) (j : Job) : Job :=
  let j' := claim j in settle j' (executor (attempts j')).

(** Modelled from the spec: the life of a job in the pool, which is not part
    of the sources: it is popped, run and requeued until it is terminal.
    The second component counts the invocations of the executor. *)
Fixpoint run (fuel : nat) (executor : Z -> attempt_result) (j : Job) (calls : nat)
  : option (Job * nat) :=
  if terminal (job_status j) then Some (j, calls)
  else match fuel with
       | O => None
       | S fuel' => run fuel' executor (attempt executor j) (S calls)
       end.

(** The states a job goes through, as a step relation. *)
Inductive step (executor : Z -> attempt_result) : Job -> Job -> Prop :=
| step_attempt j :
    terminal (job_status j) = false ->
    step executor j (attempt executor j).

Inductive reachable (executor : Z -> attempt_result) : Job -> Prop :=
| reach_new : reachable executor new_job
| reach_step j j' :
    reachable executor j -> step executor j j' -> reachable executor j'.

End Slot.

End Pool.

(* ================================================================== *)
(** * app/main.py *)
(* ================================================================== *)

Module Main.
Import Py.
Local Open Scope py_scope.

Record Message : Type := mkMessage { role : string; content : string }.
Record ChatRequest : Type := mkChatRequest { messages : list Message }.

(** [request.model_dump()] *)
Definition dump_message (m : Message) : value :=
  VDict [("role", VStr (role m)); ("content", VStr (content m))].

Definition model_dump (request : ChatRequest) : value :=
  VDict [("messages", VList (map dump_message (messages request)))].

(** What the job record store holds for a job once the pool is done with it. *)
Inductive terminal_state : Type :=
| Succeeded (result : value)
| ExecutionFailed (error : exn)
| TimedOut.

(** The handle that [enqueue_job] returns.  [finishes_after] is when, in
    seconds after the wait began, the job reaches its terminal state;
    [None] if it never does. *)
Record Job : Type := mkJob {
  job_id : string;
  finishes_after : option Q;
  final : terminal_state
}.

(** How a terminal state comes out of the wait. *)
Definition deliver (t : terminal_state) : IO value :=
  match t with
  | Succeeded v => ret v
  | ExecutionFailed e => raise e
  | TimedOut => raise TimeoutError
  end.

(** Modelled from the spec: [job.result(timeout=...)] is the queue library's
    and is not part of the sources.  Section 4.4: [handle.wait(timeout)]
    "polls or blocks until status is terminal or timeout elapses; returns the
    result on succeeded, signals ExecutionFailed(error) on failed, signals
    Timeout on timed_out or on its own timeout elapsing".  The timeout signal
    is [asyncio.TimeoutError()]; without a timeout the wait for a job that
    never finishes does not come back. *)
Definition Job_result (job : Job) (timeout : option Q) : IO value :=
  match finishes_after job, timeout with
  | Some t, Some bound =>
      if Qle_bool t bound
      then elapse t ;;; deliver (final job)
      else elapse bound ;;; raise TimeoutError
  | Some t, None => elapse t ;;; deliver (final job)
  | None, Some bound => elapse bound ;;; raise TimeoutError
  | None, None => hang
  end.

(** [app.state.redis]: the pool that [lifespan] stores at startup.
    [enqueue_job(function, **kwargs)] gives a handle, or [None] when a job
    with the same id exists already. *)
Record ArqRedis : Type := mkArqRedis {
  enqueue_job : string -> list (string * value) -> IO (option Job)
}.

Section Handler.
Variable redis : ArqRedis.

(** [job.result(timeout=30)] on what [enqueue_job] returned. *)
Definition await_result (job : option Job) : IO value :=
  match job with
  | Some j => Job_result j (Some 30%Q)
  | None => raise (AttributeError "'NoneType' object has no attribute 'result'")
  end.

(** [except Exception as e:] of [chat]. *)
Definition chat_handler (e : exn) : IO value :=
  logger "ERROR" ("Error processing request: " ++ str e) ;;;
  raise (HTTPException 500 (str e)).

(** The [try] block of [chat]. *)
Definition chat_body (request : ChatRequest) : IO value :=
  job <- enqueue_job redis "process_langchain_request"
           [("messages", dict_get (model_dump request) "messages")] ;;
  result <- await_result job ;;
  if is_None result
  then raise (HTTPException 500 "Processing timed out")
  else ret (VDict [("result", result)]).

Definition chat (request : ChatRequest) : IO value :=
  try_except_Exception (chat_body request) chat_handler.

End Handler.

(** A pool whose [enqueue_job] hands out the given handle at once. *)
Definition redis_with (job : Job) : ArqRedis :=
  {| enqueue_job := fun _ _ => ret (Some job) |}.

End Main.

(* ================================================================== *)
(** * tools/monitor_queue.py *)
(* ================================================================== *)

Module Monitor.
Import Py.
Local Open Scope py_scope.

(** The connection that [create_pool] gives; the monitor uses these calls. *)
Record Redis : Type := mkRedis {
  llen : string -> IO Z;
  hlen : string -> IO Z;
  keys : string -> IO (list string);
  zcard : string -> IO Z;
  close : IO unit
}.

Record ArqMonitor : Type := mkArqMonitor {
  queue_name : string;
  redis_settings : Worker.RedisSettings;
  redis : option Redis
}.

(** The dict that [get_queue_stats] returns. *)
Record Stats : Type := mkStats {
  enqueued : Z;
  processing : Z;
  completed : Z;
  failed : Z;
  timestamp : string
}.

(** [ArqMonitor(queue_name=..., redis_settings=...)] *)
Definition ArqMonitor_init (settings : Config.Settings) (queue_name : option string)
    (redis_settings : option Worker.RedisSettings) : ArqMonitor :=
  {| queue_name := match queue_name with Some q => q | None => "arq:queue" end;
     redis_settings :=
       match redis_settings with
       | Some r => r
       | None => {| Worker.host := Config.REDIS_HOST settings;
                    Worker.port := Config.REDIS_PORT settings |}
       end;
     redis := None |}.

(** [strftime("%H:%M:%S")] of a time of day given in seconds. *)
Definition two_digits (n : Z) : string :=
  String (ascii_of_nat (48 + Z.to_nat ((n / 10) mod 10)))
    (String (ascii_of_nat (48 + Z.to_nat (n mod 10))) EmptyString).

Definition strftime_HMS (t : Z) : string :=
  let s := t mod 86400 in
  two_digits (s / 3600) ++ ":" ++ two_digits ((s / 60) mod 60) ++ ":" ++ two_digits (s mod 60).

(** The two lines printed before the loop. *)
Definition header : string :=
  center 10 "Time" ++ " | " ++ center 10 "Enqueued" ++ " | "
  ++ center 10 "Processing" ++ " | " ++ center 10 "Completed" ++ " | "
  ++ center 10 "Failed".

Definition rule : string := repeat_string "-" 60.

(** The line printed for one reading. *)
Definition row (st : Stats) : string :=
  center 10 (timestamp st) ++ " | " ++ center 10 (str_int (enqueued st)) ++ " | "
  ++ center 10 (str_int (processing st)) ++ " | "
  ++ center 10 (str_int (completed st)) ++ " | " ++ center 10 (str_int (failed st)).

Definition newline : string := String (ascii_of_nat 10) EmptyString.

Section Tool.

(** [arq.connections.create_pool], [asyncio.sleep] and the offset of local
    time from the clock, which [datetime.now()] applies. *)
Variable create_pool : Worker.RedisSettings -> IO Redis.
Variable sleep : Q -> IO unit.
Variable utc_offset : Z.

(** The methods act on the monitor object and on the world. *)
Definition Self (A : Type) : Type := M (ArqMonitor * world) A.

(** [datetime.now().strftime("%H:%M:%S")] *)
Definition now_HMS : IO string :=
  fun w => (Return (strftime_HMS (Qfloor (clock w) + utc_offset)), w).

(** [self.redis = await create_pool(self.redis_settings)] *)
Definition connect : Self unit :=
  fun s =>
    let (self, w) := s in
    match create_pool (redis_settings self) w with
    | (Return r, w') => (Return tt, (mkArqMonitor (queue_name self) (redis_settings self) (Some r), w'))
    | (Raise e, w') => (Raise e, (self, w'))
    | (Hang, w') => (Hang, (self, w'))
    end.

(** A call [await self.redis.f(...)] *)
Definition on_redis {A} (f : Redis -> IO A) : Self A :=
  fun s =>
    match redis (fst s) with
    | Some r => lift (f r) s
    | None => (Raise (AttributeError "'NoneType' object has no attribute"), s)
    end.

Definition get_queue_stats : Self Stats :=
  (fun s => match redis (fst s) with
            | None => connect s
            | Some _ => (Return tt, s)
            end) ;;;
  name <- (fun s => (Return (queue_name (fst s)), s)) ;;
  queue_length <- on_redis (fun r => llen r name) ;;
  processing_jobs <- on_redis (fun r => hlen r (name ++ ":processing")) ;;
  complete_keys <- on_redis (fun r => keys r (name ++ ":result:*")) ;;
  failed_jobs <- on_redis (fun r => zcard r (name ++ ":failed")) ;;
  ts <- lift now_HMS ;;
  ret {| enqueued := queue_length;
         processing := processing_jobs;
         completed := Z.of_nat (length complete_keys);
         failed := failed_jobs;
         timestamp := ts |}.

Section Loop.
Variable interval : Q.
Variable duration : option Z.
Variable start_time : Q.

(** [duration and time.time() - start_time > duration] *)
Definition expired : Self bool :=
  match duration with
  | None => ret false
  | Some d =>
      if d =? 0 then ret false
      else now <- lift time_time ;;
           ret (negb (Qle_bool (now - start_time) (inject_Z d)))
  end.

(** One turn of [while True]; [true] stands for [break]. *)
Definition turn : Self bool :=
  stop <- expired ;;
  if stop then ret true
  else
    stats <- get_queue_stats ;;
    lift (print (row stats)) ;;;
    lift (sleep interval) ;;;
    ret false.

(** [while True: ...], with the counter [iteration] of the turns taken.
    [None] when [fuel] turns did not end the loop. *)
Fixpoint while_True (fuel : nat) (iteration : Z) (s : ArqMonitor * world)
  : option (outcome Z * (ArqMonitor * world)) :=
  match fuel with
  | O => None
  | S fuel' =>
      match turn s with
      | (Return true, s') => Some (Return iteration, s')
      | (Return false, s') => while_True fuel' (iteration + 1) s'
      | (Raise e, s') => Some (Raise e, s')
      | (Hang, s') => Some (Hang, s')
      end
  end.

End Loop.

(** [except KeyboardInterrupt:] *)
Definition stopped (e : exn) : Self unit :=
  lift (print (newline ++ "Monitoring stopped.")).

(** [finally: if self.redis: await self.redis.close()] *)
Definition cleanup : Self unit :=
  fun s =>
    match redis (fst s) with
    | Some r => lift (close r) s
    | None => (Return tt, s)
    end.

(** The body of the [try]: the two lines of the header, then the loop. *)
Definition print_table (fuel : nat) (interval : Q) (duration : option Z)
    (start_time : Q) (s : ArqMonitor * world)
  : option (outcome unit * (ArqMonitor * world)) :=
  match (lift (print header) ;;; lift (print rule)) s with
  | (Return _, s') =>
      match while_True interval duration start_time fuel 0 s' with
      | Some (Return _, s'') => Some (Return tt, s'')
      | Some (Raise e, s'') => Some (Raise e, s'')
      | Some (Hang, s'') => Some (Hang, s'')
      | None => None
      end
  | (Raise e, s') => Some (Raise e, s')
  | (Hang, s') => Some (Hang, s')
  end.

(** [print_stats(interval, duration)]; [None] when [fuel] turns of the loop
    did not end it. *)
Definition print_stats (fuel : nat) (interval : Q) (duration : option Z)
    (s : ArqMonitor * world) : option (outcome unit * (ArqMonitor * world)) :=
  let start_time := clock (snd s) in
  option_map (finally_ cleanup)
    (option_map (except_ is_KeyboardInterrupt stopped)
       (print_table fuel interval duration start_time s)).

End Tool.

End Monitor.


(* ================================================================== *)
(** * app/worker.py: the health check *)
(* ================================================================== *)

Module Health.
Import Py.
Local Open Scope py_scope.

(** The connection as [health_check] uses it. *)
Record Redis : Type := mkRedis {
  ping : IO bool;
  close : IO unit
}.

Section Check.
Variable create_pool : Worker.RedisSettings -> IO Redis.
Variable settings : Config.Settings.

(** The [try] block: connect, ping, close, [return True]. *)
Definition probe : IO bool :=
  redis <- create_pool {| Worker.host := Config.REDIS_HOST settings;
                          Worker.port := Config.REDIS_PORT settings |} ;;
  _ <- ping redis ;;
  close redis ;;;
  ret true.

(** [except Exception as e: logger.error(...); return False] *)
Definition failed (e : exn) : IO bool :=
  logger "ERROR" ("Health check failed: " ++ str e) ;;;
  ret false.

Definition health_check : IO bool := try_except_Exception probe failed.

End Check.

End Health.

(* ================================================================== *)
(** * app/main.py: the lifespan of the application *)
(* ================================================================== *)

Module Lifespan.
Import Py.
Local Open Scope py_scope.

(** What [create_pool] gives to [lifespan]: the pool that the handlers
    enqueue on, and its [close]. *)
Record Pool : Type := mkPool {
  commands : Main.ArqRedis;
  close : IO unit
}.

Section App.
Variable create_pool : Worker.RedisSettings -> IO Pool.
Variable settings : Config.Settings.

(** The part of [lifespan] before [yield]; its value is [app.state.redis]. *)
Definition startup : IO Pool :=
  pool <- create_pool {| Worker.host := Config.REDIS_HOST settings;
                         Worker.port := Config.REDIS_PORT settings |} ;;
  logger "INFO" "Connected to Redis" ;;;
  ret pool.

(** The part of [lifespan] after [yield]. *)
Definition shutdown (pool : Pool) : IO unit :=
  close pool ;;;
  logger "INFO" "Disconnected from Redis".

(** [async with lifespan(app): serve].  The generator has no [try] around
    its [yield]: an exception of [serve] is thrown into it there and leaves
    it at once. *)
Definition lifespan {A : Type} (serve : Pool -> IO A) : IO A :=
  pool <- startup ;;
  result <- serve pool ;;
  shutdown pool ;;;
  ret result.

End App.

End Lifespan.

(* ================================================================== *)
(** * tests/test_client.py: the load test *)
(* ================================================================== *)

Module LoadTest.

(** The loop of [run_load_test]: request [i + 1] joins [tasks]; when
    [len(tasks) >= concurrency or i == total_requests - 1] the tasks are
    gathered and the list starts anew.  The result is the list of the
    gathered batches, each the ids of its requests. *)
Fixpoint batches_from (concurrency total_requests : Z) (remaining : nat) (i : Z)
    (tasks : list Z) : list (list Z) :=
  match remaining with
  | O => []
  | S remaining' =>
      let tasks' := (tasks ++ [i + 1])%list in
      if ((concurrency <=? Z.of_nat (length tasks')) || (i =? total_requests - 1))%bool
      then tasks' :: batches_from concurrency total_requests remaining' (i + 1) []
      else batches_from concurrency total_requests remaining' (i + 1) tasks'
  end.

(** [for i in range(total_requests)], from an empty list of tasks. *)
Definition run_load_test (concurrency total_requests : Z) : list (list Z) :=
  batches_from concurrency total_requests (Z.to_nat total_requests) 0 [].

End LoadTest.

(* ================================================================== *)
(** * app/common/utils/text_normalizer.py: line breaks *)
(* ================================================================== *)

Module TextNormalizer.
Import Py.
Local Open Scope py_scope.

Definition is_newline (c : ascii) : bool := Ascii.eqb c (ascii_of_nat 10).

Definition newlines (n : nat) : string :=
  repeat_string (String (ascii_of_nat 10) EmptyString) n.

(** What [re.sub] writes for a run of [run] line breaks that has ended:
    the replacement, ['\n' * max_consecutive], when the pattern
    [\n{max_consecutive + 1,}] matches it, else the run itself. *)
Definition written (max_consecutive run : nat) : string :=
  if Nat.leb (max_consecutive + 1) run
  then newlines max_consecutive
  else newlines run.

(** [re.sub(pattern, replacement, text)] for
    [pattern = r'\n{' + str(max_consecutive + 1) + r',}'] and
    [replacement = '\n' * max_consecutive]: the text is read from the left;
    [run] counts the line breaks of the run being read, which the pattern,
    being greedy, takes as a whole. *)
Fixpoint sub_runs (max_consecutive run : nat) (text : string) : string :=
  match text with
  | EmptyString => written max_consecutive run
  | String c rest =>
      if is_newline c
      then sub_runs max_consecutive (S run) rest
      else written max_consecutive run ++ String c (sub_runs max_consecutive 0 rest)
  end.

(** [normalize_line_breaks(text, max_consecutive)], for a [max_consecutive]
    that is not negative. *)
Definition normalize_line_breaks (text : string) (max_consecutive : nat) : IO string :=
  match text with
  | EmptyString => ret EmptyString
  | _ =>
      logger "DEBUG" ("Normalizing line breaks (max "
                      ++ str_int (Z.of_nat max_consecutive) ++ ")") ;;;
      ret (sub_runs max_consecutive 0 text)
  end.

End TextNormalizer.
(* ================================================================== *)
(** * Vocabulary of the properties, and concrete inputs *)
(* ================================================================== *)

Import Py.

(** The world after [logger.error] took one more record. *)
Definition logged (w : world) (level msg : string) : world :=
  mkWorld (clock w) (log w ++ [(level, msg)]) (stdout w).

(** The world [d] seconds later. *)
Definition later (w : world) (d : Q) : world :=
  mkWorld (clock w + d)%Q (log w) (stdout w).

(** A job that is not done within the bound: the wait raises the timeout
    after 30 seconds. *)
Definition not_within (bound : Q) (job : Main.Job) : Prop :=
  match Main.finishes_after job with
  | Some t => (bound < t)%Q
  | None => True
  end.

(** ** Concrete requests *)

Definition hello : Main.ChatRequest :=
  Main.mkChatRequest [Main.mkMessage "user" "hello"].

Definition midnight : world := mkWorld 0 [] [].

(** A job done after 2 seconds with the text "world"; one that takes 45
    seconds; one that never ends; one whose function returned [None]; one
    that failed with a [RuntimeError] without a message. *)
Definition quick_job : Main.Job :=
  Main.mkJob "job-1" (Some 2%Q) (Main.Succeeded (VStr "world")).
Definition slow_job : Main.Job :=
  Main.mkJob "job-2" (Some 45%Q) (Main.Succeeded (VStr "world")).
Definition stuck_job : Main.Job :=
  Main.mkJob "job-3" None (Main.Succeeded (VStr "world")).
Definition none_job : Main.Job :=
  Main.mkJob "job-4" (Some 2%Q) (Main.Succeeded VNone).
Definition silent_failure : Main.Job :=
  Main.mkJob "job-5" (Some 2%Q) (Main.ExecutionFailed (Foreign "RuntimeError" true "")).
Definition loud_failure : Main.Job :=
  Main.mkJob "job-6" (Some 2%Q)
    (Main.ExecutionFailed (Foreign "ValueError" true "quota exceeded")).


(** ** Concrete environments *)

(** No variable of a source has the name, in any spelling of its case. *)
Definition absent (name : string) (src : Config.environ) : Prop :=
  forall k v, In (k, v) src -> Config.lower k <> Config.lower name.

(** An environment that names the model, caps the output and asks for a
    temperature. *)
Definition tuned_env : Config.environ :=
  [("GOOGLE_API_KEY", "secret"); ("MODEL_NAME", "gemini-pro");
   ("MAX_OUTPUT_TOKENS", "256"); ("TEMPERATURE", "0.7")].

(** An environment that places the queue backend and asks for other limits
    of the worker. *)
Definition queue_env : Config.environ :=
  [("GOOGLE_API_KEY", "secret"); ("REDIS_HOST", "queue.internal");
   ("REDIS_PORT", "6380"); ("API_CONCURRENCY_LIMIT", "4");
   ("JOB_TIMEOUT", "120"); ("MAX_TRIES", "5"); ("KEEP_RESULT", "600")].

(** An environment without the credentials. *)
Definition bare_env : Config.environ := [("REDIS_HOST", "localhost")].

Definition one_message : list value :=
  [VDict [("role", VStr "user"); ("content", VStr "hello")]].

(** A LangChain whose model call fails with the given exception. *)
Definition failing (e : exn) : Worker.LangChain unit (list value) :=
  {| Worker.ChatGoogleGenerativeAI := fun _ => ret tt;
     Worker.convert_to_messages := fun ms => ret ms;
     Worker.ainvoke := fun _ _ => raise e |}.

(** An executor that fails at every invocation. *)
Definition always_fails (err : string) : Z -> Pool.attempt_result :=
  fun _ => Pool.Failed err.

(** ** The surroundings of the monitor *)

(** A call of a library that comes back (it returns or raises), does not turn
    the clock back and prints nothing. *)
Definition well_behaved {A : Type} (m : IO A) : Prop :=
  forall w,
    fst (m w) <> Hang
    /\ (clock w <= clock (snd (m w)))%Q
    /\ stdout (snd (m w)) = stdout w.

Definition redis_behaves (r : Monitor.Redis) : Prop :=
  (forall k, well_behaved (Monitor.llen r k))
  /\ (forall k, well_behaved (Monitor.hlen r k))
  /\ (forall k, well_behaved (Monitor.keys r k))
  /\ (forall k, well_behaved (Monitor.zcard r k))
  /\ well_behaved (Monitor.close r).

(** The connection that the monitor holds, if it holds one, behaves. *)
Definition monitor_behaves (self : Monitor.ArqMonitor) : Prop :=
  match Monitor.redis self with
  | Some r => redis_behaves r
  | None => True
  end.

(** [create_pool] gives connections that behave, and [asyncio.sleep(d)], when
    it returns, has let [d] seconds pass. *)
Definition surroundings_behave
    (create_pool : Worker.RedisSettings -> IO Monitor.Redis)
    (sleep : Q -> IO unit) : Prop :=
  (forall rs, well_behaved (create_pool rs))
  /\ (forall rs w r w', create_pool rs w = (Return r, w') -> redis_behaves r)
  /\ (forall d, well_behaved (sleep d))
  /\ (forall d w u w', sleep d w = (Return u, w') -> (clock w + d <= clock w')%Q).

(** A line of the table with the time of its printing. *)
Definition row_line (r : Q * Monitor.Stats) : Q * string :=
  (fst r, Monitor.row (snd r)).

(** [st] is what the connection [r] answers about the queue [name]: the
    length of the list [name], the size of the hash [name:processing], the
    number of keys [name:result:*] and the size of the sorted set
    [name:failed], asked one after the other from the world [w0] on, and the
    time of day once the last answer is there, in the world [w4]. *)
Definition reading (utc_offset : Z) (r : Monitor.Redis) (name : string)
    (w0 w4 : world) (st : Monitor.Stats) : Prop :=
  exists w1 w2 w3 complete_keys,
    Monitor.llen r name w0 = (Return (Monitor.enqueued st), w1)
    /\ Monitor.hlen r (name ++ ":processing") w1 = (Return (Monitor.processing st), w2)
    /\ Monitor.keys r (name ++ ":result:*") w2 = (Return complete_keys, w3)
    /\ Monitor.completed st = Z.of_nat (length complete_keys)
    /\ Monitor.zcard r (name ++ ":failed") w3 = (Return (Monitor.failed st), w4)
    /\ Monitor.timestamp st = Monitor.strftime_HMS (Qfloor (clock w4) + utc_offset).

(** The row shows a reading of the queue [name] on the connection that the
    monitor holds, and it was printed when the reading was over. *)
Definition shows_reading (utc_offset : Z) (name : string)
    (self : Monitor.ArqMonitor) (r : Q * Monitor.Stats) : Prop :=
  exists redis w0 w4,
    Monitor.redis self = Some redis
    /\ reading utc_offset redis name w0 w4 (snd r)
    /\ fst r = clock w4.

(** The readings were taken at least [interval] seconds apart, the first not
    before [from]. *)
Fixpoint spaced (interval from : Q) (times : list Q) : Prop :=
  match times with
  | [] => True
  | t :: rest => (from <= t)%Q /\ spaced interval (t + interval) rest
  end.

(** The counts of a reading fit their columns of ten characters. *)
Definition fits (st : Monitor.Stats) : Prop :=
  (String.length (str_int (Monitor.enqueued st)) <= 10)%nat
  /\ (String.length (str_int (Monitor.processing st)) <= 10)%nat
  /\ (String.length (str_int (Monitor.completed st)) <= 10)%nat
  /\ (String.length (str_int (Monitor.failed st)) <= 10)%nat.

(** The line that the interrupt branch prints. *)
Definition stopped_line : string := Monitor.newline ++ "Monitoring stopped.".

(** A Redis with a steady queue: 3 waiting, 1 in progress, 2 results, none
    failed; every call takes a tenth of a second. *)
Definition steady_redis : Monitor.Redis :=
  {| Monitor.llen := fun _ => elapse (1 # 10) ;;; ret 3;
     Monitor.hlen := fun _ => elapse (1 # 10) ;;; ret 1;
     Monitor.keys := fun _ => elapse (1 # 10) ;;; ret ["arq:queue:result:a"; "arq:queue:result:b"];
     Monitor.zcard := fun _ => elapse (1 # 10) ;;; ret 0;
     Monitor.close := ret tt |}%py.

Definition steady_pool (rs : Worker.RedisSettings) : IO Monitor.Redis :=
  ret steady_redis.

(** A sleep that takes as long as asked, and no time for a negative delay. *)
Definition exact_sleep (d : Q) : IO unit :=
  if Qle_bool 0 d then elapse d else ret tt.

(** A sleep that is interrupted once the clock has passed [at_]. *)
Definition interrupted_sleep (at_ : Q) (d : Q) : IO unit :=
  fun w => if Qle_bool at_ (clock w) then (Raise KeyboardInterrupt, w) else exact_sleep d w.

Definition fresh_monitor : Monitor.ArqMonitor :=
  Monitor.mkArqMonitor "arq:queue" (Worker.mkRedisSettings "redis" 6379) None.

(** A method of the monitor that comes back, keeps the connection behaving,
    does not turn the clock back, prints nothing, and returns what [post]
    allows. *)
Definition tame {A : Type} (post : A -> Prop) (m : Monitor.Self A) : Prop :=
  forall s,
    monitor_behaves (fst s) ->
    fst (m s) <> Hang
    /\ monitor_behaves (fst (snd (m s)))
    /\ (clock (snd s) <= clock (snd (snd (m s))))%Q
    /\ stdout (snd (snd (m s))) = stdout (snd s)
    /\ (forall a, fst (m s) = Return a -> post a).

(** The state in which the loop starts: the two lines of the header are
    out. *)
Definition with_header (s : Monitor.ArqMonitor * world) : Monitor.ArqMonitor * world :=
  (fst s,
   mkWorld (clock (snd s)) (log (snd s))
     ((stdout (snd s) ++ [(clock (snd s), Monitor.header)])
        ++ [(clock (snd s), Monitor.rule)])).


(* ================================================================== *)
(** * Further vocabulary *)
(* ================================================================== *)

(** The call that [chat] makes on the pool. *)
Definition chat_call (redis : Main.ArqRedis) (request : Main.ChatRequest) : IO (option Main.Job) :=
  Main.enqueue_job redis "process_langchain_request"
    [("messages", VList (map Main.dump_message (Main.messages request)))].

(** A job that the worker aborted: its result is a cancellation, which is
    not an [Exception]. *)
Definition CancelledError : exn := Foreign "CancelledError" false "".

Definition aborted_job : Main.Job :=
  Main.mkJob "job-7" (Some 2%Q) (Main.ExecutionFailed CancelledError).

(** A pool that is down, and one that knows the job id already. *)
Definition redis_down : Main.ArqRedis :=
  {| Main.enqueue_job := fun _ _ =>
       raise (Foreign "ConnectionError" true "Connection refused") |}.

Definition redis_duplicate : Main.ArqRedis :=
  {| Main.enqueue_job := fun _ _ => ret None |}.

Definition default_settings : Config.Settings :=
  Config.mkSettings "secret" "gemini-2.0-flash" "output_1" 10 8192
    "your-api-key-here" (Some "https://api-dev.maverickcosts.com")
    (VInt 3600) "redis" 6379 10.

(** The record that [process_langchain_request] logs first. *)
Definition announced (w : world) (messages : list value) : world :=
  logged w "INFO"
    ("Processing LangChain request with "
     ++ str_int (Z.of_nat (length messages)) ++ " messages").

(** A LangChain whose model cannot be built, for want of a valid key. *)
Definition unbuildable (e : exn) : Worker.LangChain unit (list value) :=
  {| Worker.ChatGoogleGenerativeAI := fun _ => raise e;
     Worker.convert_to_messages := fun ms => ret ms;
     Worker.ainvoke := fun _ _ => ret (Worker.mkAIMessage (VStr "never")) |}.

(** The settings of the queue backend in a settings object. *)
Definition backend (settings : Config.Settings) : Worker.RedisSettings :=
  {| Worker.host := Config.REDIS_HOST settings;
     Worker.port := Config.REDIS_PORT settings |}.

(** A backend that answers the ping, one whose ping fails, and none. *)
Definition healthy_pool (rs : Worker.RedisSettings) : IO Health.Redis :=
  ret {| Health.ping := ret true; Health.close := ret tt |}.

Definition mute_pool (rs : Worker.RedisSettings) : IO Health.Redis :=
  ret {| Health.ping := raise (Foreign "TimeoutError" true "Timeout reading from socket");
         Health.close := logger "INFO" "closed" |}.

Definition no_pool (rs : Worker.RedisSettings) : IO Health.Redis :=
  raise (Foreign "ConnectionError" true "Connection refused").

(** The fields of [Settings] that have a default. *)
Definition optional_fields : list string :=
  ["MODEL_NAME"; "OUTPUT_FOLDER"; "MAX_CONCURRENCY"; "MAX_OUTPUT_TOKENS";
   "API_BASE_URL"; "FASTAPI_KEY"; "MAX_TASK_RUNTIME"; "REDIS_HOST";
   "REDIS_PORT"; "API_CONCURRENCY_LIMIT"].

(** An environment whose port is not a number, with the credentials. *)
Definition bad_port_env : Config.environ :=
  [("GOOGLE_API_KEY", "secret"); ("REDIS_PORT", "six")].

(** An environment that spells the host in lower case, and a [.env] file
    that names another host. *)
Definition lower_case_env : Config.environ :=
  [("GOOGLE_API_KEY", "secret"); ("redis_host", "queue.internal")].

Definition host_dotenv : Config.environ := [("REDIS_HOST", "localhost")].

(** A [.env] file with a variable that names no field. *)
Definition stray_dotenv : Config.environ := [("TEMPERATURE", "0.7")].

(** A source that gives a value that reads as an integer, or none. *)
Definition reads_as_int (parse : string -> option Z) (v : option string) : bool :=
  match v with
  | Some s => match parse s with Some _ => true | None => false end
  | None => true
  end.

(** The [.env] file hands on no variable but those of the fields. *)
Definition no_extra_inputs (dotenv : Config.environ) : bool :=
  match Config.extra_inputs dotenv with
  | [] => true
  | _ :: _ => false
  end.

(** What the environment must give for the settings to be built: the
    credentials, integers wherever it sets an integer field, both for the
    [int(...)] of the class body and for the validation, and a [.env] file
    without extra inputs. *)
Definition loadable (py_int pydantic_int : string -> option Z)
    (env dotenv : Config.environ) : bool :=
  (match Config.source_value env dotenv "GOOGLE_API_KEY" with
   | Some _ => true
   | None => false
   end
   && reads_as_int py_int (Config.getenv env "REDIS_PORT")
   && reads_as_int py_int (Config.getenv env "API_CONCURRENCY_LIMIT")
   && reads_as_int pydantic_int (Config.source_value env dotenv "MAX_CONCURRENCY")
   && reads_as_int pydantic_int (Config.source_value env dotenv "MAX_OUTPUT_TOKENS")
   && reads_as_int pydantic_int (Config.source_value env dotenv "MAX_TASK_RUNTIME")
   && reads_as_int pydantic_int (Config.source_value env dotenv "REDIS_PORT")
   && reads_as_int pydantic_int (Config.source_value env dotenv "API_CONCURRENCY_LIMIT")
   && no_extra_inputs dotenv)%bool.

(** A pool that cannot be reached. *)
Definition unreachable_pool (rs : Worker.RedisSettings) : IO Monitor.Redis :=
  raise (Foreign "ConnectionError" true "Connection refused").

(** A monitor that holds a connection to the steady Redis. *)
Definition connected_monitor : Monitor.ArqMonitor :=
  Monitor.mkArqMonitor "arq:queue" (Worker.mkRedisSettings "redis" 6379)
    (Some steady_redis).

(** The first check of the loop lets it go on: there is no duration, or it
    is not negative. *)
Definition starts (duration : option Z) : Prop :=
  match duration with
  | Some d => 0 <= d
  | None => True
  end.

(** The run of the monitor on the steady Redis for two seconds, a reading
    every second. *)
Definition steady_run : outcome unit * (Monitor.ArqMonitor * world) :=
  match Monitor.print_stats steady_pool exact_sleep 0 10 1 (Some 2)
          (fresh_monitor, midnight) with
  | Some r => r
  | None => (Hang, (fresh_monitor, midnight))
  end.

(** The monitor object later in a run: it watches the same queue, and a
    connection that it held it still holds. *)
Definition same_monitor (self self' : Monitor.ArqMonitor) : Prop :=
  Monitor.queue_name self' = Monitor.queue_name self
  /\ forall r, Monitor.redis self = Some r -> Monitor.redis self' = Some r.

(** A method that leaves the monitor object as it is. *)
Definition keeps_self {A : Type} (m : Monitor.Self A) : Prop :=
  forall s, fst (snd (m s)) = fst s.

(** The request ids [i + 1, ..., i + n]. *)
Fixpoint ids (i : Z) (n : nat) : list Z :=
  match n with
  | O => []
  | S n' => (i + 1) :: ids (i + 1) n'
  end.

(** A pool for the application that can be created, and one that cannot. *)
Definition app_pool (job : Main.Job) (rs : Worker.RedisSettings) : IO Lifespan.Pool :=
  ret {| Lifespan.commands := Main.redis_with job;
         Lifespan.close := logger "DEBUG" "pool closed" |}.

Definition no_app_pool (rs : Worker.RedisSettings) : IO Lifespan.Pool :=
  raise (Foreign "ConnectionError" true "Connection refused").

(** ** Runs of line breaks *)

(** The text, read after [seen] line breaks, has no run of more than [k]. *)
Fixpoint runs_within (k seen : nat) (text : string) : bool :=
  match text with
  | EmptyString => true
  | String c rest =>
      if TextNormalizer.is_newline c
      then (Nat.leb (S seen) k && runs_within k (S seen) rest)%bool
      else runs_within k 0 rest
  end.

(** The text without its line breaks. *)
Fixpoint without_newlines (text : string) : string :=
  match text with
  | EmptyString => EmptyString
  | String c rest =>
      if TextNormalizer.is_newline c then without_newlines rest
      else String c (without_newlines rest)
  end.

(** The text with every line break beyond the [k]-th of its run left out,
    read after [seen] line breaks. *)
Fixpoint cut_runs (k seen : nat) (text : string) : string :=
  match text with
  | EmptyString => EmptyString
  | String c rest =>
      if TextNormalizer.is_newline c
      then if Nat.ltb seen k
           then String c (cut_runs k (S seen) rest)
           else cut_runs k (S seen) rest
      else String c (cut_runs k 0 rest)
  end.

(** Two paragraphs with five line breaks between them. *)
Definition spaced_out : string :=
  "one" ++ TextNormalizer.newlines 5 ++ "two" ++ TextNormalizer.newlines 1.
(* ================================================================== *)
(** * Properties of [chat] *)
(* ================================================================== *)

(** The generic branch of [chat]: an [Exception] that leaves the [try] block
    is logged and replaced by an [HTTPException] with status 500. *)
Lemma chat_catches (redis : Main.ArqRedis) (request : Main.ChatRequest)
    (w w' : world) (e : exn) :
  Main.chat_body redis request w = (Raise e, w') ->
  is_Exception e = true ->
  Main.chat redis request w
  = (Raise (HTTPException 500 (str e)),
     logged w' "ERROR" ("Error processing request: " ++ str e)).
Proof.
  intros Hbody Hexc.
  unfold Main.chat, try_except_Exception, except_.
  rewrite Hbody, Hexc.
  reflexivity.
Qed.

(** What is not an [Exception] leaves [chat] as it left the block. *)
Lemma chat_passes (redis : Main.ArqRedis) (request : Main.ChatRequest)
    (w w' : world) (e : exn) :
  Main.chat_body redis request w = (Raise e, w') ->
  is_Exception e = false ->
  Main.chat redis request w = (Raise e, w').
Proof.
  intros Hbody Hexc.
  unfold Main.chat, try_except_Exception, except_.
  rewrite Hbody, Hexc.
  reflexivity.
Qed.

(** A block that returns makes [chat] return the same. *)
Lemma chat_returns (redis : Main.ArqRedis) (request : Main.ChatRequest)
    (w w' : world) (v : value) :
  Main.chat_body redis request w = (Return v, w') ->
  Main.chat redis request w = (Return v, w').
Proof.
  intros Hbody.
  unfold Main.chat, try_except_Exception, except_.
  now rewrite Hbody.
Qed.

(** The argument that [chat] gives to [enqueue_job]. *)
Lemma messages_argument (request : Main.ChatRequest) :
  dict_get (Main.model_dump request) "messages"
  = VList (map Main.dump_message (Main.messages request)).
Proof. reflexivity. Qed.

(** The block of [chat] once [enqueue_job] has returned a handle: the wait
    with its bound of 30 seconds decides. *)
Lemma chat_body_after_enqueue (redis : Main.ArqRedis) (request : Main.ChatRequest)
    (w w1 : world) (job : Main.Job) :
  Main.enqueue_job redis "process_langchain_request"
    [("messages", VList (map Main.dump_message (Main.messages request)))] w
  = (Return (Some job), w1) ->
  Main.chat_body redis request w
  = match Main.Job_result job (Some 30%Q) w1 with
    | (Return result, w2) =>
        if is_None result
        then (Raise (HTTPException 500 "Processing timed out"), w2)
        else (Return (VDict [("result", result)]), w2)
    | (Raise e, w2) => (Raise e, w2)
    | (Hang, w2) => (Hang, w2)
    end.
Proof.
  intros Henq.
  unfold Main.chat_body, bind.
  rewrite messages_argument, Henq.
  unfold Main.await_result.
  destruct (Main.Job_result job (Some 30%Q) w1) as [[result|e|] w2]; try reflexivity.
  destruct (is_None result); reflexivity.
Qed.

Lemma wait_times_out (job : Main.Job) (w : world) :
  not_within 30 job ->
  Main.Job_result job (Some 30%Q) w = (Raise TimeoutError, later w 30).
Proof.
  unfold not_within, Main.Job_result.
  destruct (Main.finishes_after job) as [t|]; intros H.
  - destruct (Qle_bool t 30) eqn:Hle.
    + apply Qle_bool_iff in Hle. exfalso. apply (Qlt_not_le _ _ H Hle).
    + reflexivity.
  - reflexivity.
Qed.

Lemma wait_delivers (job : Main.Job) (w : world) (t : Q) :
  Main.finishes_after job = Some t ->
  (t <= 30)%Q ->
  Main.Job_result job (Some 30%Q) w = Main.deliver (Main.final job) (later w t).
Proof.
  intros Hfin Hle.
  unfold Main.Job_result. rewrite Hfin.
  apply Qle_bool_iff in Hle. rewrite Hle.
  reflexivity.
Qed.

(** The block of [chat] for a job that is done in time. *)
Lemma chat_body_in_time (redis : Main.ArqRedis) (request : Main.ChatRequest)
    (w w1 : world) (job : Main.Job) (t : Q) :
  Main.enqueue_job redis "process_langchain_request"
    [("messages", VList (map Main.dump_message (Main.messages request)))] w
  = (Return (Some job), w1) ->
  Main.finishes_after job = Some t ->
  (t <= 30)%Q ->
  Main.chat_body redis request w
  = match Main.final job with
    | Main.Succeeded result =>
        if is_None result
        then (Raise (HTTPException 500 "Processing timed out"), later w1 t)
        else (Return (VDict [("result", result)]), later w1 t)
    | Main.ExecutionFailed e => (Raise e, later w1 t)
    | Main.TimedOut => (Raise TimeoutError, later w1 t)
    end.
Proof.
  intros Henq Hfin Hle.
  rewrite (chat_body_after_enqueue _ _ _ _ _ Henq).
  rewrite (wait_delivers _ _ _ Hfin Hle).
  destruct (Main.final job) as [result|e|]; reflexivity.
Qed.

(** The block of [chat] for a job that is not done in time. *)
Lemma chat_body_too_late (redis : Main.ArqRedis) (request : Main.ChatRequest)
    (w w1 : world) (job : Main.Job) :
  Main.enqueue_job redis "process_langchain_request"
    [("messages", VList (map Main.dump_message (Main.messages request)))] w
  = (Return (Some job), w1) ->
  not_within 30 job ->
  Main.chat_body redis request w = (Raise TimeoutError, later w1 30).
Proof.
  intros Henq Hlate.
  rewrite (chat_body_after_enqueue _ _ _ _ _ Henq).
  now rewrite (wait_times_out _ _ Hlate).
Qed.

(** The handler does not touch the clock. *)
Lemma chat_clock (redis : Main.ArqRedis) (request : Main.ChatRequest) (w : world) :
  clock (snd (Main.chat redis request w)) = clock (snd (Main.chat_body redis request w)).
Proof.
  unfold Main.chat, try_except_Exception, except_.
  destruct (Main.chat_body redis request w) as [[v|e|] w']; try reflexivity.
  destruct (is_Exception e); reflexivity.
Qed.

(** C1.  When the job that [chat] enqueued has no result within 30 seconds
    (it finishes later, or never), [chat] does not block: it comes back with
    an error response, an [HTTPException] with status 500, and it does so
    exactly 30 seconds after the wait began.  The bound is 30 seconds and not
    less: a job that is done after [t <= 30] seconds makes [chat] come back
    after [t] seconds. *)
Theorem chat_timeout_at_30_seconds
    (redis : Main.ArqRedis) (request : Main.ChatRequest)
    (w w1 : world) (job : Main.Job) :
  Main.enqueue_job redis "process_langchain_request"
    [("messages", VList (map Main.dump_message (Main.messages request)))] w
  = (Return (Some job), w1) ->
  (not_within 30 job ->
     Main.chat redis request w
     = (Raise (HTTPException 500 ""),
        logged (later w1 30) "ERROR" "Error processing request: "))
  /\ (forall t, Main.finishes_after job = Some t -> (t <= 30)%Q ->
        clock (snd (Main.chat redis request w)) = (clock w1 + t)%Q).
Proof.
  intros Henq. split.
  - intros Hlate.
    apply (chat_catches redis request w (later w1 30) TimeoutError).
    + now apply (chat_body_too_late _ _ _ _ job).
    + reflexivity.
  - intros t Hfin Hle.
    rewrite chat_clock, (chat_body_in_time _ _ _ _ _ _ Henq Hfin Hle).
    destruct (Main.final job) as [result|e|]; try reflexivity.
    destruct (is_None result); reflexivity.
Qed.

(** C3, as the code has it.  When the job has executed successfully within
    the wait of 30 seconds and its output [r] is not [None], [chat] returns
    the object with the one key [result] bound to [r]; when the block fails
    with an [Exception] [e], [chat] gives an error object with status 500
    whose message is the rendering of [e]. *)
Theorem chat_result_on_success
    (redis : Main.ArqRedis) (request : Main.ChatRequest) (w : world) :
  (forall w1 job t r,
     Main.enqueue_job redis "process_langchain_request"
       [("messages", VList (map Main.dump_message (Main.messages request)))] w
     = (Return (Some job), w1) ->
     Main.finishes_after job = Some t ->
     (t <= 30)%Q ->
     Main.final job = Main.Succeeded r ->
     is_None r = false ->
     Main.chat redis request w = (Return (VDict [("result", r)]), later w1 t))
  /\ (forall e w',
        Main.chat_body redis request w = (Raise e, w') ->
        is_Exception e = true ->
        exists message,
          fst (Main.chat redis request w) = Raise (HTTPException 500 message)
          /\ message = str e).
Proof.
  split.
  - intros w1 job t r Henq Hfin Hle Hok Hnone.
    apply chat_returns.
    rewrite (chat_body_in_time _ _ _ _ _ _ Henq Hfin Hle), Hok, Hnone.
    reflexivity.
  - intros e w' Hbody Hexc.
    exists (str e). split; [|reflexivity].
    now rewrite (chat_catches _ _ _ _ _ Hbody Hexc).
Qed.

(** C9, as the code has it.  Every exception raised in the [try] block of
    [chat] that is an instance of [Exception] is caught by the generic
    branch, logged and wrapped again: the caller gets status 500 with the
    rendering of the caught exception as detail.  This includes the
    [HTTPException] that the block itself raises when the result of the wait
    is [None]: its detail "Processing timed out" reaches the caller as
    "500: Processing timed out". *)
Theorem chat_rewraps_every_exception
    (redis : Main.ArqRedis) (request : Main.ChatRequest) (w : world) :
  (forall e w',
     Main.chat_body redis request w = (Raise e, w') ->
     is_Exception e = true ->
     Main.chat redis request w
     = (Raise (HTTPException 500 (str e)),
        logged w' "ERROR" ("Error processing request: " ++ str e)))
  /\ (forall w1 job t,
        Main.enqueue_job redis "process_langchain_request"
          [("messages", VList (map Main.dump_message (Main.messages request)))] w
        = (Return (Some job), w1) ->
        Main.finishes_after job = Some t ->
        (t <= 30)%Q ->
        Main.final job = Main.Succeeded VNone ->
        Main.chat_body redis request w
        = (Raise (HTTPException 500 "Processing timed out"), later w1 t)
        /\ fst (Main.chat redis request w)
           = Raise (HTTPException 500 "500: Processing timed out")).
Proof.
  split.
  - intros e w' Hbody Hexc. now apply chat_catches.
  - intros w1 job t Henq Hfin Hle Hnone.
    assert (Hbody : Main.chat_body redis request w
                    = (Raise (HTTPException 500 "Processing timed out"), later w1 t)).
    { rewrite (chat_body_in_time _ _ _ _ _ _ Henq Hfin Hle), Hnone. reflexivity. }
    split; [exact Hbody|].
    now rewrite (chat_catches _ _ _ _ _ Hbody eq_refl).
Qed.

Lemma two_within_30 : (2 <= 30)%Q.
Proof. unfold Qle; simpl; lia. Defined.

Lemma chat_timeout_at_30_seconds_witness :
  Main.chat (Main.redis_with slow_job) hello midnight
  = (Raise (HTTPException 500 ""),
     logged (later midnight 30) "ERROR" "Error processing request: ")
  /\ clock (snd (Main.chat (Main.redis_with quick_job) hello midnight)) = (0 + 2)%Q.
Proof.
  split.
  - apply (proj1 (chat_timeout_at_30_seconds (Main.redis_with slow_job) hello
                    midnight midnight slow_job eq_refl)).
    reflexivity.
  - apply (proj2 (chat_timeout_at_30_seconds (Main.redis_with quick_job) hello
                    midnight midnight quick_job eq_refl) 2%Q eq_refl two_within_30).
Defined.

Lemma chat_result_on_success_witness :
  Main.chat (Main.redis_with quick_job) hello midnight
  = (Return (VDict [("result", VStr "world")]), later midnight 2)
  /\ exists message,
       fst (Main.chat (Main.redis_with loud_failure) hello midnight)
       = Raise (HTTPException 500 message)
       /\ message = "quota exceeded".
Proof.
  split.
  - apply (proj1 (chat_result_on_success (Main.redis_with quick_job) hello midnight)
             midnight quick_job 2%Q (VStr "world") eq_refl eq_refl two_within_30
             eq_refl eq_refl).
  - apply (proj2 (chat_result_on_success (Main.redis_with loud_failure) hello midnight)
             (Foreign "ValueError" true "quota exceeded") (later midnight 2)
             eq_refl eq_refl).
Defined.

Lemma chat_rewraps_every_exception_witness :
  Main.chat (Main.redis_with loud_failure) hello midnight
  = (Raise (HTTPException 500 "quota exceeded"),
     logged (later midnight 2) "ERROR" "Error processing request: quota exceeded")
  /\ Main.chat_body (Main.redis_with none_job) hello midnight
     = (Raise (HTTPException 500 "Processing timed out"), later midnight 2)
  /\ fst (Main.chat (Main.redis_with none_job) hello midnight)
     = Raise (HTTPException 500 "500: Processing timed out").
Proof.
  split.
  - apply (proj1 (chat_rewraps_every_exception (Main.redis_with loud_failure) hello
                    midnight)
             (Foreign "ValueError" true "quota exceeded") (later midnight 2)
             eq_refl eq_refl).
  - apply (proj2 (chat_rewraps_every_exception (Main.redis_with none_job) hello
                    midnight)
             midnight none_job 2%Q eq_refl eq_refl two_within_30 eq_refl).
Defined.

(** C2.  The code at a wait that runs into its bound, and at a job that
    failed: the request whose job is not done within 30 seconds gets status
    500 with the empty detail, which is also the response to a job that
    failed with an exception without a message, so the two outcomes do not
    have distinct responses; the response that the handler prepares for the
    timeout, with the detail "Processing timed out", is not the one that the
    caller of the timed-out request gets. *)
Theorem chat_timeout_has_no_response_of_its_own :
  not_within 30 stuck_job
  /\ Main.final silent_failure = Main.ExecutionFailed (Foreign "RuntimeError" true "")
  /\ Main.chat_body (Main.redis_with stuck_job) hello midnight
     = (Raise TimeoutError, later midnight 30)
  /\ Main.chat (Main.redis_with stuck_job) hello midnight
     = (Raise (HTTPException 500 ""),
        logged (later midnight 30) "ERROR" "Error processing request: ")
  /\ Main.chat (Main.redis_with silent_failure) hello midnight
     = (Raise (HTTPException 500 ""),
        logged (later midnight 2) "ERROR" "Error processing request: ")
  /\ fst (Main.chat (Main.redis_with stuck_job) hello midnight)
     = fst (Main.chat (Main.redis_with silent_failure) hello midnight)
  /\ fst (Main.chat (Main.redis_with stuck_job) hello midnight)
     <> Raise (HTTPException 500 "Processing timed out").
Proof.
  repeat split. discriminate.
Qed.

(** C3, as the specification words it, fails: a job that executes
    successfully with the output "world", but after 45 seconds, makes [chat]
    raise an error and not return the object with the result; so does a job
    that executes successfully in time with the output [None]; and a job
    that failed with a cancellation makes [chat] raise the cancellation
    itself, which is no error object with a message. *)
Lemma chat_success_without_result :
  Main.final slow_job = Main.Succeeded (VStr "world")
  /\ Main.chat (Main.redis_with slow_job) hello midnight
     = (Raise (HTTPException 500 ""),
        logged (later midnight 30) "ERROR" "Error processing request: ")
  /\ fst (Main.chat (Main.redis_with slow_job) hello midnight)
     <> Return (VDict [("result", VStr "world")])
  /\ Main.final none_job = Main.Succeeded VNone
  /\ fst (Main.chat (Main.redis_with none_job) hello midnight)
     = Raise (HTTPException 500 "500: Processing timed out")
  /\ fst (Main.chat (Main.redis_with none_job) hello midnight)
     <> Return (VDict [("result", VNone)])
  /\ Main.final aborted_job = Main.ExecutionFailed CancelledError
  /\ fst (Main.chat (Main.redis_with aborted_job) hello midnight)
     = Raise CancelledError
  /\ (forall status message,
        fst (Main.chat (Main.redis_with aborted_job) hello midnight)
        <> Raise (HTTPException status message)).
Proof.
  repeat split; discriminate.
Qed.

(** C9, as the specification words it, fails: the cancellation of an
    aborted job is raised in the [try] block of [chat] and is not an
    [Exception]; the generic branch does not catch it, nothing is logged,
    and the caller gets the cancellation and not status 500 with its
    rendering. *)
Lemma chat_cancellation_is_not_rewrapped :
  Main.chat_body (Main.redis_with aborted_job) hello midnight
  = (Raise CancelledError, later midnight 2)
  /\ is_Exception CancelledError = false
  /\ fst (Main.chat (Main.redis_with aborted_job) hello midnight)
     <> Raise (HTTPException 500 (str CancelledError))
  /\ log (snd (Main.chat (Main.redis_with aborted_job) hello midnight)) = []
  /\ ~ (forall e w',
          Main.chat_body (Main.redis_with aborted_job) hello midnight = (Raise e, w') ->
          Main.chat (Main.redis_with aborted_job) hello midnight
          = (Raise (HTTPException 500 (str e)),
             logged w' "ERROR" ("Error processing request: " ++ str e))).
Proof.
  repeat split; try discriminate.
  intros H. specialize (H CancelledError (later midnight 2) eq_refl). discriminate.
Qed.

(* ================================================================== *)
(** * Properties of the worker function *)
(* ================================================================== *)

(** The record that the function logs first. *)
Lemma process_logs_first {LLM Msgs : Type}
    (settings : Config.Settings) (lc : Worker.LangChain LLM Msgs)
    (messages : list value) (w : world) :
  Worker.process_langchain_request settings lc messages w
  = except_ is_Exception Worker.log_and_reraise
      ((llm <- Worker.ChatGoogleGenerativeAI lc (Worker.llm_arguments settings) ;;
        messages' <- Worker.convert_to_messages lc messages ;;
        response <- Worker.ainvoke lc llm messages' ;;
        logger "INFO" "LangChain processing completed" ;;;
        ret (Worker.content response))%py
         (logged w "INFO"
            ("Processing LangChain request with "
             ++ str_int (Z.of_nat (length messages)) ++ " messages"))).
Proof. reflexivity. Qed.

(** [log_and_reraise] hands on the exception it was given. *)
Lemma reraise_keeps_exception {A : Type} (e : exn) (w : world) :
  @Worker.log_and_reraise A e w
  = (Raise e, logged w "ERROR" ("Error in LangChain processing: " ++ str e)).
Proof. reflexivity. Qed.

(** C10.  When the model invocation raises [e], [process_langchain_request]
    raises the same [e] to its caller, after logging it if it is an
    [Exception]; it does not return a value. *)
Theorem process_langchain_request_reraises {LLM Msgs : Type}
    (settings : Config.Settings) (lc : Worker.LangChain LLM Msgs)
    (messages : list value) (w w1 w2 w3 : world)
    (llm : LLM) (msgs : Msgs) (e : exn) :
  Worker.ChatGoogleGenerativeAI lc (Worker.llm_arguments settings)
    (logged w "INFO"
       ("Processing LangChain request with "
        ++ str_int (Z.of_nat (length messages)) ++ " messages"))
  = (Return llm, w1) ->
  Worker.convert_to_messages lc messages w1 = (Return msgs, w2) ->
  Worker.ainvoke lc llm msgs w2 = (Raise e, w3) ->
  Worker.process_langchain_request settings lc messages w
  = (Raise e,
     if is_Exception e
     then logged w3 "ERROR" ("Error in LangChain processing: " ++ str e)
     else w3)
  /\ forall v, fst (Worker.process_langchain_request settings lc messages w) <> Return v.
Proof.
  intros Hnew Hconv Hcall.
  assert (H : Worker.process_langchain_request settings lc messages w
              = (Raise e,
                 if is_Exception e
                 then logged w3 "ERROR" ("Error in LangChain processing: " ++ str e)
                 else w3)).
  { rewrite process_logs_first. unfold bind at 1. rewrite Hnew.
    unfold bind at 1. rewrite Hconv. unfold bind at 1. rewrite Hcall.
    unfold except_. destruct (is_Exception e); [apply reraise_keeps_exception | reflexivity]. }
  split; [exact H|].
  intros v. rewrite H. discriminate.
Qed.

Lemma process_langchain_request_reraises_witness :
  let e := Foreign "ResourceExhausted" true "429 quota exceeded" in
  let settings := Config.mkSettings "secret" "gemini-2.0-flash" "output_1" 10 8192
                    "your-api-key-here" None (VInt 3600) "redis" 6379 10 in
  fst (Worker.process_langchain_request settings (failing e) one_message midnight)
  = Raise e.
Proof.
  intros e settings.
  pose proof (proj1 (process_langchain_request_reraises settings (failing e)
                       one_message midnight _ _ _ tt one_message e
                       eq_refl eq_refl eq_refl)) as H.
  rewrite H. reflexivity.
Defined.

(* ================================================================== *)
(** * Properties of the configuration *)
(* ================================================================== *)

Section ConfigFacts.
Variables py_int pydantic_int : string -> option Z.

(** A name that no item of the source bears is not found. *)
Lemma lookup_absent (name : string) (src : Config.environ) :
  absent name src ->
  Config.lookup (Config.lower name) (Config.env_vars src) = None.
Proof.
  induction src as [|[k v] rest IH]; intros Habs; [reflexivity|].
  simpl. rewrite IH.
  - destruct (String.eqb_spec (Config.lower name) (Config.lower k)) as [Heq|Hne];
      [|reflexivity].
    exfalso. apply (Habs k v); [now left | now symmetry].
  - intros k' v' Hin. apply (Habs k' v'). now right.
Qed.

Lemma source_value_absent (name : string) (env dotenv : Config.environ) :
  absent name env -> absent name dotenv ->
  Config.source_value env dotenv name = None.
Proof.
  intros He Hd. unfold Config.source_value.
  now rewrite (lookup_absent _ _ He), (lookup_absent _ _ Hd).
Qed.

(** What [os.getenv] finds under a name, pydantic-settings finds too, under
    the name without case. *)
Lemma lookup_lower (name : string) (src : Config.environ) (v : string) :
  Config.lookup name src = Some v ->
  exists v', Config.lookup (Config.lower name) (Config.env_vars src) = Some v'.
Proof.
  revert v. induction src as [|[k x] rest IH]; intros v; simpl; [discriminate|].
  destruct (Config.lookup name rest) as [y|] eqn:Hrest.
  - intros _. destruct (IH y eq_refl) as [v' Hv']. rewrite Hv'. now exists v'.
  - destruct (String.eqb_spec name k) as [->|Hne]; [|discriminate].
    intros _.
    destruct (Config.lookup (Config.lower k) (Config.env_vars rest)) as [y|];
      [now exists y|].
    rewrite String.eqb_refl. now exists x.
Qed.

Lemma getenv_unset (name : string) (env dotenv : Config.environ) :
  Config.source_value env dotenv name = None ->
  Config.getenv env name = None.
Proof.
  unfold Config.source_value, Config.getenv. intros Hsrc.
  destruct (Config.lookup name env) as [v|] eqn:Hget; [|reflexivity].
  destruct (lookup_lower _ _ _ Hget) as [v' Hv']. rewrite Hv' in Hsrc. discriminate.
Qed.

(** The fields of a settings object that was built, one by one. *)
Lemma Settings_new_fields (d : Config.class_defaults) (env dotenv : Config.environ)
    (s : Config.Settings) :
  Config.Settings_new pydantic_int d env dotenv = inr s ->
  Config.str_field env dotenv "GOOGLE_API_KEY" None = inr (Config.GOOGLE_API_KEY s)
  /\ Config.str_field env dotenv "MODEL_NAME" (Some "gemini-2.0-flash")
     = inr (Config.MODEL_NAME s)
  /\ Config.int_field pydantic_int env dotenv "MAX_OUTPUT_TOKENS" 8192
     = inr (Config.MAX_OUTPUT_TOKENS s)
  /\ Config.str_field env dotenv "REDIS_HOST" (Some (Config.d_REDIS_HOST d))
     = inr (Config.REDIS_HOST s)
  /\ Config.int_field pydantic_int env dotenv "REDIS_PORT" (Config.d_REDIS_PORT d)
     = inr (Config.REDIS_PORT s)
  /\ Config.int_field pydantic_int env dotenv "API_CONCURRENCY_LIMIT"
       (Config.d_API_CONCURRENCY_LIMIT d)
     = inr (Config.API_CONCURRENCY_LIMIT s).
Proof.
  unfold Config.Settings_new.
  destruct (Config.str_field env dotenv "GOOGLE_API_KEY" None); [discriminate|].
  destruct (Config.str_field env dotenv "MODEL_NAME" _); [discriminate|].
  destruct (Config.str_field env dotenv "OUTPUT_FOLDER" _); [discriminate|].
  destruct (Config.int_field pydantic_int env dotenv "MAX_CONCURRENCY" _); [discriminate|].
  destruct (Config.int_field pydantic_int env dotenv "MAX_OUTPUT_TOKENS" _); [discriminate|].
  destruct (Config.opt_str_field env dotenv "API_BASE_URL" _); [discriminate|].
  destruct (Config.str_field env dotenv "FASTAPI_KEY" _); [discriminate|].
  destruct (Config.int_field_raw_default pydantic_int env dotenv "MAX_TASK_RUNTIME" _);
    [discriminate|].
  destruct (Config.str_field env dotenv "REDIS_HOST" _); [discriminate|].
  destruct (Config.int_field pydantic_int env dotenv "REDIS_PORT" _); [discriminate|].
  destruct (Config.int_field pydantic_int env dotenv "API_CONCURRENCY_LIMIT" _);
    [discriminate|].
  destruct (map _ (Config.extra_inputs dotenv)); [|discriminate].
  intros H. injection H as <-. simpl. repeat split.
Qed.

(** The defaults of the class body when the variables are not set. *)
Lemma class_body_unset (env dotenv : Config.environ) (d : Config.class_defaults) :
  Config.class_body py_int env = inr d ->
  (Config.source_value env dotenv "REDIS_HOST" = None -> Config.d_REDIS_HOST d = "redis")
  /\ (Config.source_value env dotenv "REDIS_PORT" = None -> Config.d_REDIS_PORT d = 6379)
  /\ (Config.source_value env dotenv "API_CONCURRENCY_LIMIT" = None ->
      Config.d_API_CONCURRENCY_LIMIT d = 10).
Proof.
  unfold Config.class_body, Config.int_getenv. intros H.
  repeat split; intros Hnone; apply getenv_unset in Hnone;
    destruct (Config.getenv env "REDIS_PORT") as [p|] eqn:Hp;
    destruct (Config.getenv env "API_CONCURRENCY_LIMIT") as [c|] eqn:Hc;
    try discriminate;
    repeat match type of H with
           | context [py_int ?x] => destruct (py_int x); try discriminate
           end;
    injection H as <-; simpl; try rewrite Hnone; reflexivity.
Qed.

(** A string field is its source value, if there is one. *)
Lemma str_field_set (env dotenv : Config.environ) (name : string)
    (dflt : option string) (v x : string) :
  Config.str_field env dotenv name dflt = inr x ->
  Config.source_value env dotenv name = Some v -> x = v.
Proof. unfold Config.str_field. intros H Hv. rewrite Hv in H. now injection H. Qed.

Lemma str_field_unset (env dotenv : Config.environ) (name : string)
    (dflt x : string) :
  Config.str_field env dotenv name (Some dflt) = inr x ->
  Config.source_value env dotenv name = None -> x = dflt.
Proof. unfold Config.str_field. intros H Hv. rewrite Hv in H. now injection H. Qed.

(** An integer field is what pydantic reads in its source value. *)
Lemma int_field_set (env dotenv : Config.environ) (name : string)
    (dflt x : Z) (v : string) :
  Config.int_field pydantic_int env dotenv name dflt = inr x ->
  Config.source_value env dotenv name = Some v -> pydantic_int v = Some x.
Proof.
  unfold Config.int_field. intros H Hv. rewrite Hv in H.
  destruct (pydantic_int v); [now injection H as -> | discriminate].
Qed.

Lemma int_field_unset (env dotenv : Config.environ) (name : string) (dflt x : Z) :
  Config.int_field pydantic_int env dotenv name dflt = inr x ->
  Config.source_value env dotenv name = None -> x = dflt.
Proof. unfold Config.int_field. intros H Hv. rewrite Hv in H. now injection H. Qed.

End ConfigFacts.

(** Without its source value, the credential field is reported missing and
    no settings object is built. *)
Lemma Settings_new_missing_key (pydantic_int : string -> option Z)
    (d : Config.class_defaults) (env dotenv : Config.environ) :
  Config.source_value env dotenv "GOOGLE_API_KEY" = None ->
  exists errors,
    Config.Settings_new pydantic_int d env dotenv = inl (Config.ValidationError errors)
    /\ In ("GOOGLE_API_KEY", Config.missing) errors.
Proof.
  intros Hnone.
  unfold Config.Settings_new.
  assert (H1 : Config.str_field env dotenv "GOOGLE_API_KEY" None = inl Config.missing).
  { unfold Config.str_field. now rewrite Hnone. }
  rewrite H1. eexists. split; [reflexivity|]. now left.
Qed.

(** C7.  The settings are built when the module is imported, and without a
    value for [GOOGLE_API_KEY] (in the process environment or in the [.env]
    file, under any spelling of its case) building them fails: [get_settings]
    ends in an error, and so does the import of the worker module.  When the
    class body got through, the error is the validation error that reports
    the field as missing.  A settings object that was built holds the
    credential that its source gave. *)
Theorem get_settings_requires_credentials
    (py_int pydantic_int : string -> option Z) (env dotenv : Config.environ) :
  (absent "GOOGLE_API_KEY" env ->
   absent "GOOGLE_API_KEY" dotenv ->
   exists e,
     Config.get_settings py_int pydantic_int env dotenv = inl e
     /\ Worker.import_worker py_int pydantic_int env dotenv = inl e
     /\ (forall d, Config.class_body py_int env = inr d ->
           exists errors,
             e = Config.ValidationError errors
             /\ In ("GOOGLE_API_KEY", Config.missing) errors))
  /\ (forall s,
        Config.get_settings py_int pydantic_int env dotenv = inr s ->
        Config.source_value env dotenv "GOOGLE_API_KEY" = Some (Config.GOOGLE_API_KEY s)).
Proof.
  split.
  - intros He Hd.
    pose proof (source_value_absent _ _ _ He Hd) as Hnone.
    unfold Worker.import_worker, Config.get_settings.
    destruct (Config.class_body py_int env) as [e|d] eqn:Hbody.
    + exists e. repeat split. intros d Hd'. discriminate.
    + destruct (Settings_new_missing_key pydantic_int d env dotenv Hnone)
        as [errors [Hnew Hin]].
      exists (Config.ValidationError errors). rewrite Hnew. repeat split.
      intros d' Hd'. injection Hd' as <-. now exists errors.
  - intros s Hs. unfold Config.get_settings in Hs.
    destruct (Config.class_body py_int env) as [e|d]; [discriminate|].
    destruct (Settings_new_fields _ _ _ _ _ Hs) as [Hkey _].
    unfold Config.str_field in Hkey.
    destruct (Config.source_value env dotenv "GOOGLE_API_KEY"); [|discriminate].
    now injection Hkey as ->.
Qed.

Lemma bare_env_has_no_key : absent "GOOGLE_API_KEY" bare_env.
Proof.
  intros k v [H|[]]. injection H as <- <-. simpl. discriminate.
Defined.

Lemma no_dotenv_has_no_key : absent "GOOGLE_API_KEY" [].
Proof. intros k v []. Defined.

Lemma get_settings_requires_credentials_witness :
  (exists e,
     Config.get_settings Config.decimal Config.decimal bare_env [] = inl e
     /\ Worker.import_worker Config.decimal Config.decimal bare_env [] = inl e
     /\ (forall d, Config.class_body Config.decimal bare_env = inr d ->
           exists errors,
             e = Config.ValidationError errors
             /\ In ("GOOGLE_API_KEY", Config.missing) errors))
  /\ Config.source_value tuned_env [] "GOOGLE_API_KEY" = Some "secret".
Proof.
  split.
  - apply (proj1 (get_settings_requires_credentials Config.decimal Config.decimal
                    bare_env [])).
    + exact bare_env_has_no_key.
    + exact no_dotenv_has_no_key.
  - apply (proj2 (get_settings_requires_credentials Config.decimal Config.decimal
                    tuned_env [])
             (Config.mkSettings "secret" "gemini-pro" "output_1" 10 256
                "your-api-key-here" (Some "https://api-dev.maverickcosts.com")
                (VInt 3600) "redis" 6379 10)).
    reflexivity.
Defined.

(** C6, as the code has it.  Of the settings of the worker, the host and the
    port of the queue backend and the concurrency limit come from the
    environment ([REDIS_HOST], [REDIS_PORT], [API_CONCURRENCY_LIMIT], with
    "redis", 6379 and 10 when they are not set); the timeout of a job, the
    retention of results and the number of tries are the constants 60, 300
    and 3 in every environment. *)
Theorem worker_settings_sources
    (py_int pydantic_int : string -> option Z) (env dotenv : Config.environ)
    (ws : Worker.WorkerSettings_attrs) :
  Worker.import_worker py_int pydantic_int env dotenv = inr ws ->
  ((forall h, Config.source_value env dotenv "REDIS_HOST" = Some h ->
      Worker.host (Worker.redis_settings ws) = h)
   /\ (Config.source_value env dotenv "REDIS_HOST" = None ->
       Worker.host (Worker.redis_settings ws) = "redis"))
  /\ ((forall v, Config.source_value env dotenv "REDIS_PORT" = Some v ->
         pydantic_int v = Some (Worker.port (Worker.redis_settings ws)))
      /\ (Config.source_value env dotenv "REDIS_PORT" = None ->
          Worker.port (Worker.redis_settings ws) = 6379))
  /\ ((forall v, Config.source_value env dotenv "API_CONCURRENCY_LIMIT" = Some v ->
         pydantic_int v = Some (Worker.max_jobs ws))
      /\ (Config.source_value env dotenv "API_CONCURRENCY_LIMIT" = None ->
          Worker.max_jobs ws = 10))
  /\ Worker.job_timeout ws = 60
  /\ Worker.keep_result ws = 300
  /\ Worker.max_tries ws = 3.
Proof.
  unfold Worker.import_worker, Config.get_settings.
  destruct (Config.class_body py_int env) as [e|d] eqn:Hbody; [discriminate|].
  destruct (Config.Settings_new pydantic_int d env dotenv) as [e|s] eqn:Hnew;
    [discriminate|].
  intros H. injection H as <-. simpl.
  destruct (Settings_new_fields _ _ _ _ _ Hnew) as (_ & _ & _ & Hhost & Hport & Hlimit).
  destruct (class_body_unset py_int env dotenv d Hbody) as (Dhost & Dport & Dlimit).
  repeat split.
  - intros h Hh. exact (str_field_set _ _ _ _ _ _ Hhost Hh).
  - intros Hnone. rewrite (str_field_unset _ _ _ _ _ Hhost Hnone). now apply Dhost.
  - intros v Hv. exact (int_field_set _ _ _ _ _ _ _ Hport Hv).
  - intros Hnone. rewrite (int_field_unset _ _ _ _ _ _ Hport Hnone). now apply Dport.
  - intros v Hv. exact (int_field_set _ _ _ _ _ _ _ Hlimit Hv).
  - intros Hnone. rewrite (int_field_unset _ _ _ _ _ _ Hlimit Hnone). now apply Dlimit.
Qed.

Lemma worker_settings_sources_witness :
  let ws := Worker.WorkerSettings
              (Config.mkSettings "secret" "gemini-2.0-flash" "output_1" 10 8192
                 "your-api-key-here" (Some "https://api-dev.maverickcosts.com")
                 (VInt 3600) "queue.internal" 6380 4) in
  Worker.import_worker Config.decimal Config.decimal queue_env [] = inr ws
  /\ Worker.host (Worker.redis_settings ws) = "queue.internal"
  /\ Config.decimal "6380" = Some (Worker.port (Worker.redis_settings ws))
  /\ Config.decimal "4" = Some (Worker.max_jobs ws)
  /\ Worker.job_timeout ws = 60
  /\ Worker.keep_result ws = 300
  /\ Worker.max_tries ws = 3.
Proof.
  intros ws.
  destruct (worker_settings_sources Config.decimal Config.decimal queue_env [] ws
              eq_refl)
    as ((Hhost & _) & (Hport & _) & (Hlimit & _) & Htimeout & Hkeep & Htries).
  split; [reflexivity|].
  split; [exact (Hhost "queue.internal" eq_refl)|].
  split; [exact (Hport "6380" eq_refl)|].
  split; [exact (Hlimit "4" eq_refl)|].
  split; [exact Htimeout|]. split; [exact Hkeep | exact Htries].
Defined.

(** C6, as the specification words it, fails: an environment that asks for a
    job timeout of 120 seconds, 5 tries and a retention of 600 seconds gets
    a worker with 60, 3 and 300. *)
Lemma worker_limits_ignore_environment :
  Config.getenv queue_env "JOB_TIMEOUT" = Some "120"
  /\ Config.getenv queue_env "MAX_TRIES" = Some "5"
  /\ Config.getenv queue_env "KEEP_RESULT" = Some "600"
  /\ exists ws,
       Worker.import_worker Config.decimal Config.decimal queue_env [] = inr ws
       /\ Worker.job_timeout ws = 60 /\ Worker.job_timeout ws <> 120
       /\ Worker.max_tries ws = 3 /\ Worker.max_tries ws <> 5
       /\ Worker.keep_result ws = 300 /\ Worker.keep_result ws <> 600.
Proof.
  repeat split.
  eexists. split; [reflexivity|]. simpl. repeat split; discriminate.
Qed.

(** What the stand-in reports is what the model was built with. *)
Lemma echo_reports_arguments (settings : Config.Settings) (messages : list value)
    (w : world) :
  fst (Worker.process_langchain_request settings Worker.echo messages w)
  = Return (VDict [("model", VStr (Worker.model (Worker.llm_arguments settings)));
                   ("temperature", VFloat (Worker.temperature (Worker.llm_arguments settings)));
                   ("max_tokens", VInt (Worker.max_tokens (Worker.llm_arguments settings)))]).
Proof. reflexivity. Qed.

(** C5, as the code has it.  The model identifier and the cap on output
    tokens reach the executor as the configuration gives them ([MODEL_NAME]
    and [MAX_OUTPUT_TOKENS] of the environment, "gemini-2.0-flash" and 8192
    when they are not set); the temperature is the constant 0.0 whatever the
    configuration says. *)
Theorem executor_configuration
    (py_int pydantic_int : string -> option Z) (env dotenv : Config.environ)
    (settings : Config.Settings) (messages : list value) (w : world) :
  Config.get_settings py_int pydantic_int env dotenv = inr settings ->
  fst (Worker.process_langchain_request settings Worker.echo messages w)
  = Return (VDict [("model", VStr (Config.MODEL_NAME settings));
                   ("temperature", VFloat 0);
                   ("max_tokens", VInt (Config.MAX_OUTPUT_TOKENS settings))])
  /\ (forall m, Config.source_value env dotenv "MODEL_NAME" = Some m ->
        Config.MODEL_NAME settings = m)
  /\ (Config.source_value env dotenv "MODEL_NAME" = None ->
      Config.MODEL_NAME settings = "gemini-2.0-flash")
  /\ (forall v, Config.source_value env dotenv "MAX_OUTPUT_TOKENS" = Some v ->
        pydantic_int v = Some (Config.MAX_OUTPUT_TOKENS settings))
  /\ (Config.source_value env dotenv "MAX_OUTPUT_TOKENS" = None ->
      Config.MAX_OUTPUT_TOKENS settings = 8192).
Proof.
  unfold Config.get_settings.
  destruct (Config.class_body py_int env) as [e|d]; [discriminate|].
  intros Hnew.
  destruct (Settings_new_fields _ _ _ _ _ Hnew) as (_ & Hmodel & Htokens & _).
  split; [apply echo_reports_arguments|].
  repeat split.
  - intros m Hm. exact (str_field_set _ _ _ _ _ _ Hmodel Hm).
  - intros Hnone. exact (str_field_unset _ _ _ _ _ Hmodel Hnone).
  - intros v Hv. exact (int_field_set _ _ _ _ _ _ _ Htokens Hv).
  - intros Hnone. exact (int_field_unset _ _ _ _ _ _ Htokens Hnone).
Qed.

Lemma executor_configuration_witness :
  let settings := Config.mkSettings "secret" "gemini-pro" "output_1" 10 256
                    "your-api-key-here" (Some "https://api-dev.maverickcosts.com")
                    (VInt 3600) "redis" 6379 10 in
  fst (Worker.process_langchain_request settings Worker.echo one_message midnight)
  = Return (VDict [("model", VStr "gemini-pro");
                   ("temperature", VFloat 0);
                   ("max_tokens", VInt 256)])
  /\ Config.MODEL_NAME settings = "gemini-pro"
  /\ Config.decimal "256" = Some (Config.MAX_OUTPUT_TOKENS settings).
Proof.
  intros settings.
  destruct (executor_configuration Config.decimal Config.decimal tuned_env []
              settings one_message midnight eq_refl)
    as (Hrun & Hmodel & _ & Htokens & _).
  split; [exact Hrun|].
  split; [exact (Hmodel "gemini-pro" eq_refl) | exact (Htokens "256" eq_refl)].
Defined.

(** C5, as the specification words it, fails for the temperature: with a
    configuration that asks for 0.7, the executor is built with 0.0. *)
Lemma temperature_ignores_configuration :
  Config.source_value tuned_env [] "TEMPERATURE" = Some "0.7"
  /\ exists settings,
       Config.get_settings Config.decimal Config.decimal tuned_env [] = inr settings
       /\ fst (Worker.process_langchain_request settings Worker.echo one_message midnight)
          = Return (VDict [("model", VStr "gemini-pro");
                           ("temperature", VFloat 0);
                           ("max_tokens", VInt 256)])
       /\ ~ (Worker.temperature (Worker.llm_arguments settings) == 7 # 10)%Q.
Proof.
  split; [reflexivity|].
  eexists. split; [reflexivity|]. split; [reflexivity|].
  simpl. unfold Qeq. simpl. discriminate.
Qed.

(* ================================================================== *)
(** * Properties of the worker pool *)
(* ================================================================== *)

Section PoolFacts.
Variable max_attempts : Z.
Hypothesis at_least_one : 1 <= max_attempts.
Variable executor : Z -> Pool.attempt_result.

(** A pass through a slot counts one attempt. *)
Lemma attempt_counts (j : Pool.Job) :
  Pool.attempts (Pool.attempt max_attempts executor j) = Pool.attempts j + 1.
Proof.
  unfold Pool.attempt, Pool.settle, Pool.claim; simpl.
  destruct (executor (Pool.attempts j + 1)); simpl; try reflexivity;
    destruct (Pool.attempts j + 1 <? max_attempts); reflexivity.
Qed.

(** A job comes back to the queue only with attempts left. *)
Lemma attempt_requeues (j : Pool.Job) :
  Pool.terminal (Pool.job_status (Pool.attempt max_attempts executor j)) = false ->
  Pool.attempts j + 1 < max_attempts.
Proof.
  unfold Pool.attempt, Pool.settle, Pool.claim; simpl.
  destruct (executor (Pool.attempts j + 1)); simpl; try discriminate;
    destruct (Z.ltb_spec (Pool.attempts j + 1) max_attempts); simpl;
    try discriminate; intros _; assumption.
Qed.

(** The invariant of the job record: the attempts are within the bound, and
    a job that is not terminal has attempts left. *)
Lemma attempts_bounded (j : Pool.Job) :
  Pool.reachable max_attempts executor j ->
  0 <= Pool.attempts j <= max_attempts
  /\ (Pool.terminal (Pool.job_status j) = false -> Pool.attempts j < max_attempts).
Proof.
  induction 1 as [|j j' Hreach [IHle IHlt] Hstep].
  - simpl. split; [lia|]. intros _. lia.
  - destruct Hstep as [j Hopen].
    specialize (IHlt Hopen).
    rewrite attempt_counts. split; [lia|].
    apply attempt_requeues.
Qed.

(** A failure on the last attempt is final. *)
Lemma last_failure_is_final (j : Pool.Job) (err : string) :
  max_attempts <= Pool.attempts j + 1 ->
  executor (Pool.attempts j + 1) = Pool.Failed err ->
  Pool.job_status (Pool.attempt max_attempts executor j) = Pool.failed
  /\ Pool.error (Pool.attempt max_attempts executor j) = Some err.
Proof.
  intros Hlast Hfail.
  unfold Pool.attempt, Pool.settle, Pool.claim; simpl. rewrite Hfail.
  destruct (Z.ltb_spec (Pool.attempts j + 1) max_attempts); [lia|].
  now split.
Qed.

End PoolFacts.

(** C4.  With the [max_tries] of [WorkerSettings], which is 3, a job whose
    executor fails at every invocation ends in [failed] after three
    invocations of the executor: three turns of the slot are enough, fewer
    leave it unfinished, and more change nothing.  For every executor the
    attempts of a job stay within the bound, a job that used them up is
    terminal, and a failure on the last attempt makes it [failed]. *)
Theorem always_failing_job_fails_after_three
    (settings : Config.Settings) (executor : Z -> Pool.attempt_result) :
  (forall n, exists err, executor n = Pool.Failed err) ->
  let max_attempts := Worker.max_tries (Worker.WorkerSettings settings) in
  (forall fuel, (3 <= fuel)%nat ->
     exists j,
       Pool.run max_attempts fuel executor Pool.new_job 0 = Some (j, 3%nat)
       /\ Pool.job_status j = Pool.failed
       /\ Pool.attempts j = 3)
  /\ (forall fuel, (fuel < 3)%nat ->
        Pool.run max_attempts fuel executor Pool.new_job 0 = None)
  /\ (forall (any : Z -> Pool.attempt_result) j,
        Pool.reachable max_attempts any j ->
        Pool.attempts j <= max_attempts
        /\ (Pool.attempts j = max_attempts -> Pool.terminal (Pool.job_status j) = true)
        /\ (forall err,
              Pool.terminal (Pool.job_status j) = false ->
              max_attempts <= Pool.attempts j + 1 ->
              any (Pool.attempts j + 1) = Pool.Failed err ->
              Pool.job_status (Pool.attempt max_attempts any j) = Pool.failed)).
Proof.
  intros Hfails max_attempts.
  destruct (Hfails 1) as [e1 H1], (Hfails 2) as [e2 H2], (Hfails 3) as [e3 H3].
  split; [|split].
  - intros fuel Hfuel.
    destruct fuel as [|[|[|fuel]]]; try lia.
    exists (Pool.mkJob Pool.failed 3 None (Some e3)).
    split; [|split; reflexivity].
    simpl. unfold Pool.attempt, Pool.claim, Pool.settle; simpl.
    rewrite H1; simpl. rewrite H2; simpl. rewrite H3; simpl.
    destruct fuel; reflexivity.
  - intros fuel Hfuel.
    destruct fuel as [|[|[|fuel]]]; try lia; simpl;
      unfold Pool.attempt, Pool.claim, Pool.settle; simpl;
      try rewrite H1; simpl; try rewrite H2; simpl; reflexivity.
  - intros any j Hreach.
    assert (Hone : 1 <= max_attempts) by (unfold max_attempts; simpl; lia).
    destruct (attempts_bounded max_attempts Hone any j Hreach) as [Hle Hopen].
    split; [lia|]. split.
    + intros Hfull.
      destruct (Pool.terminal (Pool.job_status j)); [reflexivity|].
      specialize (Hopen eq_refl). lia.
    + intros err _ Hlast Hfail.
      exact (proj1 (last_failure_is_final max_attempts any j err Hlast Hfail)).
Qed.

Lemma always_failing_job_fails_after_three_witness :
  let settings := Config.mkSettings "secret" "gemini-2.0-flash" "output_1" 10 8192
                    "your-api-key-here" None (VInt 3600) "redis" 6379 10 in
  exists j,
    Pool.run 3 5 (always_fails "boom") Pool.new_job 0 = Some (j, 3%nat)
    /\ Pool.job_status j = Pool.failed
    /\ Pool.attempts j = 3.
Proof.
  intros settings.
  assert (Hfails : forall n : Z, exists err, always_fails "boom" n = Pool.Failed err)
    by (intros n; now exists "boom").
  apply (proj1 (always_failing_job_fails_after_three settings (always_fails "boom")
                  Hfails) 5%nat).
  lia.
Defined.

(* ================================================================== *)
(** * Properties of the monitor *)
(* ================================================================== *)

(** The five parts of [tame]. *)
Ltac tame_parts :=
  refine (conj _ (conj _ (conj _ (conj _ _)))); try exact (fun _ _ => I).

Lemma tame_ret {A : Type} (post : A -> Prop) (a : A) :
  post a -> tame post (ret a).
Proof.
  intros Hpost s Hs. simpl.
  tame_parts; try assumption; try discriminate; try apply Qle_refl; try reflexivity.
  intros a' H. now injection H as <-.
Qed.

Lemma tame_bind {A B : Type} (P : A -> Prop) (Q : B -> Prop)
    (m : Monitor.Self A) (k : A -> Monitor.Self B) :
  tame P m -> (forall a, P a -> tame Q (k a)) -> tame Q (bind m k).
Proof.
  intros Hm Hk s Hs.
  destruct (Hm s Hs) as (Hhang & Hmon & Hclock & Hout & Hpost).
  unfold bind.
  destruct (m s) as [[a|e|] s1]; simpl in *.
  - destruct (Hk a (Hpost a eq_refl) s1 Hmon) as (Hh2 & Hm2 & Hc2 & Ho2 & Hp2).
    tame_parts; try assumption.
    + eapply Qle_trans; eassumption.
    + now rewrite Ho2.
  - tame_parts; try assumption; discriminate.
  - now elim Hhang.
Qed.

Lemma tame_weaken {A : Type} (P Q : A -> Prop) (m : Monitor.Self A) :
  (forall a, P a -> Q a) -> tame P m -> tame Q m.
Proof.
  intros HPQ Hm s Hs.
  destruct (Hm s Hs) as (Hhang & Hmon & Hclock & Hout & Hpost).
  tame_parts; try assumption. intros a Ha. auto.
Qed.

Lemma tame_lift {A : Type} (P : A -> Prop) (m : IO A) :
  well_behaved m ->
  (forall w a, fst (m w) = Return a -> P a) ->
  tame P (lift (T := Monitor.ArqMonitor) m).
Proof.
  intros Hm Hpost [self w] Hs.
  destruct (Hm w) as (Hhang & Hclock & Hout).
  specialize (Hpost w).
  unfold lift; simpl in *.
  destruct (m w) as [o w1]; simpl in *.
  tame_parts; assumption.
Qed.

(** ** The format of a row *)

Lemma length_append (a b : string) :
  String.length (a ++ b) = (String.length a + String.length b)%nat.
Proof. induction a as [|c a IH]; simpl; [reflexivity | now rewrite IH]. Qed.

Lemma length_blanks (n : nat) : String.length (repeat_string " " n) = n.
Proof. induction n as [|n IH]; simpl; [reflexivity | now rewrite IH]. Qed.

(** A text of at most [width] characters is centred to exactly [width]. *)
Lemma center_width (width : nat) (s : string) :
  (String.length s <= width)%nat -> String.length (center width s) = width.
Proof.
  intros Hle. unfold center.
  rewrite !length_append, !length_blanks.
  pose proof (Nat.Div0.mul_div_le (width - String.length s) 2).
  lia.
Qed.

Lemma strftime_width (t : Z) : String.length (Monitor.strftime_HMS t) = 8%nat.
Proof. reflexivity. Qed.

(** A row whose counts fit is 62 characters wide, as the header is. *)
Lemma row_width (st : Monitor.Stats) (t : Z) :
  Monitor.timestamp st = Monitor.strftime_HMS t ->
  fits st ->
  String.length (Monitor.row st) = 62%nat.
Proof.
  intros Hts (H1 & H2 & H3 & H4).
  unfold Monitor.row.
  rewrite !length_append, !center_width; try assumption; [reflexivity|].
  rewrite Hts, strftime_width. lia.
Qed.

(** Readings that are spaced from a time are spaced from any earlier time. *)
Lemma spaced_earlier (interval a b : Q) (times : list Q) :
  (b <= a)%Q -> spaced interval a times -> spaced interval b times.
Proof.
  destruct times as [|t rest]; simpl; [trivial|].
  intros Hba [Hat Hrest]. split; [|exact Hrest].
  eapply Qle_trans; eassumption.
Qed.

(** Every number is below some multiple of a positive step. *)
Lemma multiple_beyond (x step : Q) :
  (0 < step)%Q -> exists k : nat, (x < inject_Z (Z.of_nat k) * step)%Q.
Proof.
  intros Hstep.
  set (z := (Qfloor (x / step) + 1)%Z).
  exists (Z.to_nat z).
  assert (Hx : (x < inject_Z z * step)%Q).
  { assert (H : (x / step < inject_Z z)%Q) by apply Qlt_floor.
    apply (Qmult_lt_r _ _ step Hstep) in H.
    assert (Heq : (x / step * step == x)%Q).
    { field. intros H0. rewrite H0 in Hstep. discriminate. }
    now rewrite Heq in H. }
  eapply Qlt_le_trans; [exact Hx|].
  apply Qmult_le_compat_r; [|now apply Qlt_le_weak].
  rewrite <- Zle_Qle. lia.
Qed.

Lemma inject_succ (k : nat) :
  (inject_Z (Z.of_nat (S k)) == inject_Z (Z.of_nat k) + 1)%Q.
Proof.
  rewrite Nat2Z.inj_succ. unfold Z.succ. now rewrite inject_Z_plus.
Qed.

(** ** What a reading is, and what it leaves of the monitor *)

Lemma keeps_ret {A : Type} (a : A) : keeps_self (ret a).
Proof. intros s. reflexivity. Qed.

Lemma keeps_bind {A B : Type} (m : Monitor.Self A) (k : A -> Monitor.Self B) :
  keeps_self m -> (forall a, keeps_self (k a)) -> keeps_self (bind m k).
Proof.
  intros Hm Hk s. specialize (Hm s). unfold bind.
  destruct (m s) as [[a|e|] s1]; simpl in *; try assumption.
  now rewrite (Hk a s1).
Qed.

Lemma keeps_lift {A : Type} (m : IO A) : keeps_self (lift (T := Monitor.ArqMonitor) m).
Proof. intros [self w]. unfold lift. simpl. now destruct (m w). Qed.

Lemma keeps_on_redis {A : Type} (f : Monitor.Redis -> IO A) :
  keeps_self (Monitor.on_redis f).
Proof.
  intros s. unfold Monitor.on_redis.
  destruct (Monitor.redis (fst s)); [apply keeps_lift | reflexivity].
Qed.

(** A first step that returns without a change hands over to the rest. *)
Lemma bind_first {A B : Type} (m : Monitor.Self A) (k : A -> Monitor.Self B)
    (s : Monitor.ArqMonitor * world) (a : A) :
  m s = (Return a, s) -> bind m k s = k a s.
Proof. intros H. unfold bind. now rewrite H. Qed.

Section Reads.
Variable create_pool : Worker.RedisSettings -> IO Monitor.Redis.
Variable utc_offset : Z.

(** The rest of [get_queue_stats] once the monitor holds a connection. *)
Lemma get_queue_stats_connected (self : Monitor.ArqMonitor) (w : world)
    (r : Monitor.Redis) (st : Monitor.Stats) (s' : Monitor.ArqMonitor * world) :
  Monitor.redis self = Some r ->
  Monitor.get_queue_stats create_pool utc_offset (self, w) = (Return st, s') ->
  fst s' = self
  /\ reading utc_offset r (Monitor.queue_name self) w (snd s') st
  /\ Monitor.timestamp st = Monitor.strftime_HMS (Qfloor (clock (snd s')) + utc_offset).
Proof.
  intros Hr.
  unfold Monitor.get_queue_stats, bind, Monitor.on_redis, lift, Monitor.now_HMS, ret.
  simpl. rewrite Hr. simpl. rewrite Hr.
  destruct (Monitor.llen r (Monitor.queue_name self) w) as [[a|e|] w1] eqn:H1;
    simpl; try discriminate.
  rewrite Hr.
  destruct (Monitor.hlen r (Monitor.queue_name self ++ ":processing") w1)
    as [[b|e|] w2] eqn:H2; simpl; try discriminate.
  rewrite Hr.
  destruct (Monitor.keys r (Monitor.queue_name self ++ ":result:*") w2)
    as [[ks|e|] w3] eqn:H3; simpl; try discriminate.
  rewrite Hr.
  destruct (Monitor.zcard r (Monitor.queue_name self ++ ":failed") w3)
    as [[f|e|] w4] eqn:H4; simpl; try discriminate.
  intros H. injection H as <- <-. simpl.
  split; [reflexivity|]. split; [|reflexivity].
  exists w1, w2, w3, ks. simpl. repeat split; assumption.
Qed.

(** A monitor without a connection takes the one that the pool gives it and
    reads on. *)
Lemma get_queue_stats_connects (self : Monitor.ArqMonitor) (w w1 : world)
    (r : Monitor.Redis) :
  Monitor.redis self = None ->
  create_pool (Monitor.redis_settings self) w = (Return r, w1) ->
  Monitor.get_queue_stats create_pool utc_offset (self, w)
  = Monitor.get_queue_stats create_pool utc_offset
      (Monitor.mkArqMonitor (Monitor.queue_name self) (Monitor.redis_settings self)
         (Some r), w1).
Proof.
  intros Hnone Hpool.
  unfold Monitor.get_queue_stats. unfold bind at 1 7. simpl.
  rewrite Hnone. unfold Monitor.connect. rewrite Hpool. reflexivity.
Qed.

(** With a connection the reading leaves the monitor object as it is. *)
Lemma get_queue_stats_keeps_self (self : Monitor.ArqMonitor) (w : world)
    (r : Monitor.Redis) :
  Monitor.redis self = Some r ->
  fst (snd (Monitor.get_queue_stats create_pool utc_offset (self, w))) = self.
Proof.
  intros Hr.
  unfold Monitor.get_queue_stats.
  rewrite (bind_first _ _ (self, w) tt) by (simpl; now rewrite Hr).
  change self with (fst (self, w)) at 2.
  generalize (self, w).
  repeat (apply keeps_bind; [try apply keeps_on_redis; try apply keeps_lift|intros ?]);
    try apply keeps_ret.
  intros s. reflexivity.
Qed.

Lemma same_monitor_refl (self : Monitor.ArqMonitor) : same_monitor self self.
Proof. split; [reflexivity | trivial]. Qed.

Lemma same_monitor_trans (a b c : Monitor.ArqMonitor) :
  same_monitor a b -> same_monitor b c -> same_monitor a c.
Proof.
  intros [Hn1 Hr1] [Hn2 Hr2]. split; [congruence | auto].
Qed.

(** However a reading ends, the monitor watches the same queue and holds
    the connection it held. *)
Lemma get_queue_stats_same_monitor (s : Monitor.ArqMonitor * world) :
  same_monitor (fst s) (fst (snd (Monitor.get_queue_stats create_pool utc_offset s))).
Proof.
  destruct s as [self w]. simpl.
  destruct (Monitor.redis self) as [r|] eqn:Hr.
  - rewrite (get_queue_stats_keeps_self self w r Hr). apply same_monitor_refl.
  - destruct (create_pool (Monitor.redis_settings self) w) as [[r|e|] w1] eqn:Hpool.
    + rewrite (get_queue_stats_connects self w w1 r Hr Hpool).
      rewrite (get_queue_stats_keeps_self
                 (Monitor.mkArqMonitor (Monitor.queue_name self)
                    (Monitor.redis_settings self) (Some r)) w1 r eq_refl).
      split; [reflexivity|]. intros r0 H0. congruence.
    + unfold Monitor.get_queue_stats. unfold bind at 1. simpl.
      rewrite Hr. unfold Monitor.connect. rewrite Hpool. apply same_monitor_refl.
    + unfold Monitor.get_queue_stats. unfold bind at 1. simpl.
      rewrite Hr. unfold Monitor.connect. rewrite Hpool. apply same_monitor_refl.
Qed.

(** A reading that returns was taken on the connection that the monitor
    holds afterwards. *)
Lemma get_queue_stats_reads (s s' : Monitor.ArqMonitor * world) (st : Monitor.Stats) :
  Monitor.get_queue_stats create_pool utc_offset s = (Return st, s') ->
  shows_reading utc_offset (Monitor.queue_name (fst s)) (fst s') (clock (snd s'), st).
Proof.
  destruct s as [self w]. simpl.
  destruct (Monitor.redis self) as [r|] eqn:Hr.
  - intros H.
    destruct (get_queue_stats_connected self w r st s' Hr H) as (Hself & Hread & _).
    exists r, w, (snd s'). rewrite Hself. now repeat split.
  - destruct (create_pool (Monitor.redis_settings self) w) as [[r|e|] w1] eqn:Hpool.
    + rewrite (get_queue_stats_connects self w w1 r Hr Hpool). intros H.
      destruct (get_queue_stats_connected
                  (Monitor.mkArqMonitor (Monitor.queue_name self)
                     (Monitor.redis_settings self) (Some r)) w1 r st s' eq_refl H)
        as (Hself & Hread & _).
      exists r, w1, (snd s'). rewrite Hself. now repeat split.
    + unfold Monitor.get_queue_stats. unfold bind at 1. simpl.
      rewrite Hr. unfold Monitor.connect. rewrite Hpool. discriminate.
    + unfold Monitor.get_queue_stats. unfold bind at 1. simpl.
      rewrite Hr. unfold Monitor.connect. rewrite Hpool. discriminate.
Qed.

(** A row that shows a reading still does when the monitor has gone on. *)
Lemma shows_reading_later (name : string) (self self' : Monitor.ArqMonitor)
    (r : Q * Monitor.Stats) :
  same_monitor self self' ->
  shows_reading utc_offset name self r -> shows_reading utc_offset name self' r.
Proof.
  intros [_ Hkeep] (redis & w0 & w4 & Hr & Hread & Ht).
  exists redis, w0, w4. repeat split; auto.
Qed.

End Reads.

Section MonitorFacts.
Variable create_pool : Worker.RedisSettings -> IO Monitor.Redis.
Variable sleep : Q -> IO unit.
Variable utc_offset : Z.
Hypothesis surroundings : surroundings_behave create_pool sleep.

Lemma tame_on_redis {A : Type} (f : Monitor.Redis -> IO A) :
  (forall r, redis_behaves r -> well_behaved (f r)) ->
  tame (fun _ => True) (Monitor.on_redis f).
Proof.
  intros Hf [self w] Hs.
  unfold Monitor.on_redis. unfold monitor_behaves in Hs. simpl in *.
  destruct (Monitor.redis self) as [r|] eqn:Hr.
  - assert (Hself : monitor_behaves self) by (unfold monitor_behaves; now rewrite Hr).
    apply (tame_lift (fun _ => True) (f r) (Hf r Hs) (fun _ _ _ => I) (self, w) Hself).
  - simpl. tame_parts; try discriminate; try apply Qle_refl; try reflexivity.
    unfold monitor_behaves. now rewrite Hr.
Qed.

Lemma tame_connect : tame (fun _ => True) (Monitor.connect create_pool).
Proof.
  intros [self w] Hs.
  destruct surroundings as (Hpool & Hconn & _).
  destruct (Hpool (Monitor.redis_settings self) w) as (Hhang & Hclock & Hout).
  pose proof (Hconn (Monitor.redis_settings self) w) as Hnew.
  unfold Monitor.connect; simpl in *.
  destruct (create_pool (Monitor.redis_settings self) w) as [[r|e|] w1]; simpl in *.
  - tame_parts; try assumption; try discriminate.
    unfold monitor_behaves; simpl. now apply (Hnew r w1).
  - tame_parts; try assumption; discriminate.
  - now elim Hhang.
Qed.

(** Taking a reading is tame, and its timestamp is a time of day. *)
Lemma tame_get_queue_stats :
  tame (fun st => exists t, Monitor.timestamp st = Monitor.strftime_HMS t)
    (Monitor.get_queue_stats create_pool utc_offset).
Proof.
  unfold Monitor.get_queue_stats.
  apply (tame_bind (fun _ => True)).
  { intros [self w] Hs. simpl.
    destruct (Monitor.redis self) eqn:Hr.
    - simpl. tame_parts; try assumption; try discriminate; try reflexivity.
      apply Qle_refl.
    - apply (tame_connect (self, w) Hs). }
  intros _ _.
  apply (tame_bind (fun _ => True)).
  { intros s Hs. simpl.
    tame_parts; try assumption; try discriminate; try reflexivity; apply Qle_refl. }
  intros name _.
  apply (tame_bind (fun _ => True)).
  { apply tame_on_redis. intros r Hr. apply Hr. }
  intros queue_length _.
  apply (tame_bind (fun _ => True)).
  { apply tame_on_redis. intros r Hr. apply Hr. }
  intros processing_jobs _.
  apply (tame_bind (fun _ => True)).
  { apply tame_on_redis. intros r Hr. apply Hr. }
  intros complete_keys _.
  apply (tame_bind (fun _ => True)).
  { apply tame_on_redis. intros r Hr. apply Hr. }
  intros failed_jobs _.
  apply (tame_bind (fun ts => exists t, ts = Monitor.strftime_HMS t)).
  { apply tame_lift.
    - intros w. simpl. repeat split; try discriminate; apply Qle_refl.
    - intros w a H. simpl in H. injection H as <-. eexists; reflexivity. }
  intros ts Hts.
  apply tame_ret. exact Hts.
Qed.


Section LoopFacts.
Variable interval : Q.
Variable duration : option Z.
Variable start_time : Q.

(** Whether the time is up, as a formula. *)
Lemma expired_spec (s : Monitor.ArqMonitor * world) :
  Monitor.expired duration start_time s
  = (Return match duration with
            | Some d =>
                negb (d =? 0)
                && negb (Qle_bool (clock (snd s) - start_time) (inject_Z d))
            | None => false
            end, s).
Proof.
  unfold Monitor.expired. destruct duration as [d|]; [|reflexivity].
  destruct (d =? 0); [reflexivity|].
  destruct s as [self w]. reflexivity.
Qed.

(** The loop goes on while the elapsed time is within the duration, and ends
    at the first check that finds it beyond. *)
Lemma expired_iff (s : Monitor.ArqMonitor * world) (d : Z) :
  duration = Some d -> d <> 0 ->
  (fst (Monitor.expired duration start_time s) = Return true
   <-> (inject_Z d < clock (snd s) - start_time)%Q).
Proof.
  intros Hd Hnz. rewrite expired_spec, Hd. simpl.
  destruct (Z.eqb_spec d 0) as [|_]; [contradiction|]. simpl.
  destruct (Qle_bool (clock (snd s) - start_time) (inject_Z d)) eqn:Hle; simpl.
  - apply Qle_bool_iff in Hle. split; [discriminate|].
    intros Hlt. exfalso. exact (Qlt_not_le _ _ Hlt Hle).
  - split; [|reflexivity]. intros _.
    apply Qnot_le_lt. intros Hle'. apply Qle_bool_iff in Hle'. congruence.
Qed.

(** What one turn of the loop does. *)
Lemma turn_spec (s s' : Monitor.ArqMonitor * world) (o : outcome bool) :
  monitor_behaves (fst s) ->
  Monitor.turn create_pool sleep utc_offset interval duration start_time s = (o, s') ->
  o <> Hang
  /\ monitor_behaves (fst s')
  /\ (clock (snd s) <= clock (snd s'))%Q
  /\ (o = Return true ->
      s' = s
      /\ exists d, duration = Some d /\ d <> 0
                   /\ (inject_Z d < clock (snd s) - start_time)%Q)
  /\ (o = Return false ->
      exists t st,
        stdout (snd s') = (stdout (snd s) ++ [(t, Monitor.row st)])%list
        /\ (clock (snd s) <= t)%Q
        /\ (t + interval <= clock (snd s'))%Q
        /\ (exists z, Monitor.timestamp st = Monitor.strftime_HMS z)
        /\ shows_reading utc_offset (Monitor.queue_name (fst s)) (fst s') (t, st))
  /\ (forall e, o = Raise e ->
      stdout (snd s') = stdout (snd s)
      \/ exists t st,
           stdout (snd s') = (stdout (snd s) ++ [(t, Monitor.row st)])%list
           /\ (clock (snd s) <= t)%Q
           /\ (exists z, Monitor.timestamp st = Monitor.strftime_HMS z)
           /\ shows_reading utc_offset (Monitor.queue_name (fst s)) (fst s') (t, st)).
Proof.
  intros Hs.
  unfold Monitor.turn. unfold bind at 1. rewrite expired_spec.
  destruct (match duration with
            | Some d => negb (d =? 0)
                        && negb (Qle_bool (clock (snd s) - start_time) (inject_Z d))
            | None => false
            end) eqn:Hexp.
  - (* break *)
    intros Hturn. injection Hturn as <- <-.
    refine (conj _ (conj Hs (conj (Qle_refl _) (conj _ (conj _ _)))));
      try discriminate.
    intros _. split; [reflexivity|].
    destruct duration as [d|]; [|discriminate].
    exists d. split; [reflexivity|].
    apply andb_prop in Hexp. destruct Hexp as [Hnz Hgt].
    split.
    + intros ->. discriminate.
    + apply Qnot_le_lt. intros Hle. apply Qle_bool_iff in Hle.
      rewrite Hle in Hgt. discriminate.
  - (* a reading *)
    destruct (tame_get_queue_stats s Hs) as (Hhang & Hmon & Hclock & Hout & Hpost).
    pose proof (get_queue_stats_reads create_pool utc_offset s) as Hreads.
    unfold bind at 1.
    destruct (Monitor.get_queue_stats create_pool utc_offset s) as [[st|e|] [self1 w1]];
      simpl in Hhang, Hmon, Hclock, Hout, Hpost.
    + specialize (Hreads (self1, w1) st eq_refl). simpl in Hreads.
      destruct surroundings as (_ & _ & Hsleep & Hslept).
      destruct (Hsleep interval
                  (mkWorld (clock w1) (log w1) (stdout w1 ++ [(clock w1, Monitor.row st)])))
        as (Hh3 & Hc3 & Ho3).
      pose proof (Hslept interval
                    (mkWorld (clock w1) (log w1) (stdout w1 ++ [(clock w1, Monitor.row st)])))
        as Hlong.
      unfold bind, lift, print; simpl in *.
      destruct (sleep interval
                  (mkWorld (clock w1) (log w1) (stdout w1 ++ [(clock w1, Monitor.row st)])))
        as [[u|e|] w3]; simpl in *; intros Hturn; injection Hturn as <- <-; simpl.
      * refine (conj _ (conj Hmon (conj _ (conj _ (conj _ _))))); try discriminate.
        -- eapply Qle_trans; eassumption.
        -- intros _. exists (clock w1), st.
           rewrite Ho3, Hout. split; [reflexivity|]. split; [assumption|].
           split; [exact (Hlong u w3 eq_refl)|].
           split; [exact (Hpost st eq_refl) | exact Hreads].
      * refine (conj _ (conj Hmon (conj _ (conj _ (conj _ _))))); try discriminate.
        -- eapply Qle_trans; eassumption.
        -- intros e' _. right. exists (clock w1), st.
           rewrite Ho3, Hout. split; [reflexivity|]. split; [assumption|].
           split; [exact (Hpost st eq_refl) | exact Hreads].
      * now elim Hh3.
    + intros Hturn; injection Hturn as <- <-; simpl.
      refine (conj _ (conj Hmon (conj Hclock (conj _ (conj _ _)))));
        try discriminate.
      intros e' _. now left.
    + now elim Hhang.
Qed.

(** However a turn ends, the monitor watches the same queue and holds the
    connection it held. *)
Lemma turn_same_monitor (s : Monitor.ArqMonitor * world) :
  same_monitor (fst s)
    (fst (snd (Monitor.turn create_pool sleep utc_offset interval duration start_time s))).
Proof.
  unfold Monitor.turn. unfold bind at 1. rewrite expired_spec.
  destruct (match duration with
            | Some d => negb (d =? 0)
                        && negb (Qle_bool (clock (snd s) - start_time) (inject_Z d))
            | None => false
            end); [apply same_monitor_refl|].
  pose proof (get_queue_stats_same_monitor create_pool utc_offset s) as Hsame.
  unfold bind at 1.
  destruct (Monitor.get_queue_stats create_pool utc_offset s) as [[st|e|] [self1 w1]];
    simpl in Hsame; try exact Hsame.
  unfold bind, lift, print; simpl.
  destruct (sleep interval
              (mkWorld (clock w1) (log w1) (stdout w1 ++ [(clock w1, Monitor.row st)])))
    as [[u|e|] w3]; exact Hsame.
Qed.

(** Beyond the duration, the turn is the [break]. *)
Lemma turn_breaks (s : Monitor.ArqMonitor * world) (d : Z) :
  duration = Some d -> d <> 0 ->
  (inject_Z d < clock (snd s) - start_time)%Q ->
  Monitor.turn create_pool sleep utc_offset interval duration start_time s
  = (Return true, s).
Proof.
  intros Hd Hnz Hlt.
  unfold Monitor.turn. unfold bind at 1. rewrite expired_spec, Hd.
  destruct (Z.eqb_spec d 0) as [|_]; [contradiction|]. simpl.
  destruct (Qle_bool (clock (snd s) - start_time) (inject_Z d)) eqn:Hle; [|reflexivity].
  apply Qle_bool_iff in Hle. exfalso. exact (Qlt_not_le _ _ Hlt Hle).
Qed.

(** A turn that is not the [break] found the elapsed time within the
    duration. *)
Lemma turn_within (s s' : Monitor.ArqMonitor * world) (o : outcome bool) (d : Z) :
  duration = Some d -> d <> 0 ->
  Monitor.turn create_pool sleep utc_offset interval duration start_time s = (o, s') ->
  o <> Return true ->
  (clock (snd s) - start_time <= inject_Z d)%Q.
Proof.
  intros Hd Hnz Hturn Hgo.
  destruct (Qlt_le_dec (inject_Z d) (clock (snd s) - start_time)) as [Hlt|Hle];
    [|exact Hle].
  rewrite (turn_breaks s d Hd Hnz Hlt) in Hturn.
  injection Hturn as <- _. now elim Hgo.
Qed.

(** However the loop ends, the monitor watches the same queue and holds the
    connection it held. *)
Lemma while_True_same_monitor (fuel : nat) :
  forall (iteration : Z) (s s' : Monitor.ArqMonitor * world) (o : outcome Z),
    Monitor.while_True create_pool sleep utc_offset interval duration start_time
      fuel iteration s = Some (o, s') ->
    same_monitor (fst s) (fst s').
Proof.
  induction fuel as [|fuel IH]; intros iteration s s' o; simpl; [discriminate|].
  pose proof (turn_same_monitor s) as Hsame.
  destruct (Monitor.turn create_pool sleep utc_offset interval duration start_time s)
    as [[[|]|e|] s1]; simpl in Hsame; intros H.
  - injection H as <- <-. exact Hsame.
  - exact (same_monitor_trans _ _ _ Hsame (IH _ _ _ _ H)).
  - injection H as <- <-. exact Hsame.
  - injection H as <- <-. exact Hsame.
Qed.

(** What the loop has done when it is over: the rows it has printed, one
    for each turn that it counted, each a reading of the queue; without a
    row it has ended by itself only when the time was up at its start. *)
Lemma while_True_spec (fuel : nat) :
  forall (iteration : Z) (s s' : Monitor.ArqMonitor * world) (o : outcome Z),
    monitor_behaves (fst s) ->
    Monitor.while_True create_pool sleep utc_offset interval duration start_time
      fuel iteration s = Some (o, s') ->
    o <> Hang
    /\ monitor_behaves (fst s')
    /\ (clock (snd s) <= clock (snd s'))%Q
    /\ (exists rows,
          stdout (snd s') = (stdout (snd s) ++ map row_line rows)%list
          /\ spaced interval (clock (snd s)) (map fst rows)
          /\ Forall (fun r => exists z, Monitor.timestamp (snd r) = Monitor.strftime_HMS z)
               rows
          /\ (forall n, o = Return n -> n = iteration + Z.of_nat (length rows))
          /\ Forall (shows_reading utc_offset (Monitor.queue_name (fst s)) (fst s')) rows
          /\ (forall n, o = Return n -> rows = [] ->
              exists d, duration = Some d /\ d <> 0
                        /\ (inject_Z d < clock (snd s) - start_time)%Q)
          /\ (forall d, duration = Some d -> d <> 0 ->
              rows = []
              \/ (clock (snd s) - start_time
                  + (inject_Z (Z.of_nat (length rows)) - 1) * interval
                  <= inject_Z d)%Q))
    /\ (forall n, o = Return n ->
          exists d, duration = Some d /\ d <> 0
                    /\ (inject_Z d < clock (snd s') - start_time)%Q).
Proof.
  induction fuel as [|fuel IH]; intros iteration s s' o Hs; simpl; [discriminate|].
  destruct (Monitor.turn create_pool sleep utc_offset interval duration start_time s)
    as [o1 s1] eqn:Hturn.
  destruct (turn_spec s s1 o1 Hs Hturn) as (Hhang & Hmon & Hclock & Hbreak & Hrow & Hexc).
  pose proof (turn_same_monitor s) as Hsame. rewrite Hturn in Hsame. simpl in Hsame.
  destruct o1 as [[|]|e|].
  - (* break *)
    intros H. injection H as <- <-.
    destruct (Hbreak eq_refl) as (-> & d & Hd & Hnz & Hlt).
    refine (conj _ (conj Hs (conj (Qle_refl _) (conj _ _)))); try discriminate.
    + exists []. simpl. rewrite app_nil_r.
      split; [reflexivity|]. split; [exact I|]. split; [constructor|].
      split; [intros n Hn; injection Hn as <-; lia|].
      split; [constructor|].
      split; [intros n _ _; now exists d|].
      intros d' _ _. now left.
    + intros n _. now exists d.
  - (* one more row *)
    intros H.
    destruct (IH _ _ _ _ Hmon H)
      as (Hh2 & Hm2 & Hc2 & (rows & Hout & Hsp & Hts & Hn & Hread & _ & Hmany) & Hend).
    destruct (Hrow eq_refl) as (t & st & Hout1 & Ht & Hslept & Hstamp & Hshown).
    pose proof (while_True_same_monitor _ _ _ _ _ H) as Hlater.
    refine (conj Hh2 (conj Hm2 (conj _ (conj _ Hend)))).
    + exact (Qle_trans _ _ _ Hclock Hc2).
    + exists ((t, st) :: rows). simpl.
      split; [rewrite Hout, Hout1, <- app_assoc; reflexivity|].
      split; [split; [exact Ht | exact (spaced_earlier _ _ _ _ Hslept Hsp)]|].
      split; [constructor; assumption|].
      split; [intros n Ho; rewrite (Hn n Ho); lia|].
      split.
      { constructor.
        - exact (shows_reading_later utc_offset _ _ _ _ Hlater Hshown).
        - destruct Hsame as [Hname _]. now rewrite <- Hname. }
      split; [intros n _ Hnil; discriminate|].
      intros d Hd Hnz. right.
      assert (Hin : (clock (snd s) - start_time <= inject_Z d)%Q)
        by (apply (turn_within s s1 (Return false) d Hd Hnz Hturn); discriminate).
      rewrite (inject_succ (length rows)).
      destruct (Hmany d Hd Hnz) as [-> | Hbound].
      * simpl. change (inject_Z 0) with 0%Q.
        set (x := inject_Z d) in *. lra.
      * set (x := inject_Z d) in *. set (y := inject_Z (Z.of_nat (length rows))) in *.
        lra.
  - (* an exception *)
    intros H. injection H as <- <-.
    refine (conj _ (conj Hmon (conj Hclock (conj _ _)))); try discriminate.
    destruct (Hexc e eq_refl) as [Hout | (t & st & Hout & Ht & Hstamp & Hshown)].
    + exists []. simpl. rewrite app_nil_r.
      split; [exact Hout|]. split; [exact I|]. split; [constructor|].
      split; [discriminate|]. split; [constructor|].
      split; [discriminate|].
      intros d _ _. now left.
    + exists [(t, st)]. simpl.
      split; [exact Hout|]. split; [split; [exact Ht | exact I]|].
      split; [constructor; [assumption | constructor]|].
      split; [discriminate|].
      split; [constructor; [exact Hshown | constructor]|].
      split; [discriminate|].
      intros d Hd Hnz. right.
      assert (Hin : (clock (snd s) - start_time <= inject_Z d)%Q)
        by (apply (turn_within s s1 (Raise e) d Hd Hnz Hturn); discriminate).
      change (inject_Z 1) with 1%Q.
      set (x := inject_Z d) in *. lra.
  - now elim Hhang.
Qed.

(** With a duration and a positive interval the loop is over after finitely
    many turns. *)
Lemma while_True_ends (d : Z) (k : nat) :
  duration = Some d -> d <> 0 -> (0 < interval)%Q ->
  forall (iteration : Z) (s : Monitor.ArqMonitor * world),
    monitor_behaves (fst s) ->
    (inject_Z d - (clock (snd s) - start_time) < inject_Z (Z.of_nat k) * interval)%Q ->
    exists o s',
      forall fuel, (k < fuel)%nat ->
        Monitor.while_True create_pool sleep utc_offset interval duration start_time
          fuel iteration s = Some (o, s').
Proof.
  intros Hd Hnz Hpos.
  induction k as [|k IH]; intros iteration s Hs Hleft.
  - exists (Return iteration), s. intros fuel Hfuel.
    destruct fuel as [|fuel]; [lia|]. simpl.
    rewrite (turn_breaks s d Hd Hnz); [reflexivity|].
    change (inject_Z (Z.of_nat 0)) with 0%Q in Hleft.
    set (x := inject_Z d) in *. lra.
  - destruct (Monitor.turn create_pool sleep utc_offset interval duration start_time s)
      as [o1 s1] eqn:Hturn.
    destruct (turn_spec s s1 o1 Hs Hturn) as (Hhang & Hmon & Hclock & _ & Hrow & _).
    destruct o1 as [[|]|e|].
    + exists (Return iteration), s1. intros fuel Hfuel.
      destruct fuel as [|fuel]; [lia|]. simpl. now rewrite Hturn.
    + destruct (Hrow eq_refl) as (t & st & _ & Ht & Hslept & _).
      destruct (IH (iteration + 1) s1 Hmon) as (o & s' & Hrun).
      { rewrite (inject_succ k) in Hleft.
        set (x := inject_Z d) in *. set (y := inject_Z (Z.of_nat k)) in *. lra. }
      exists o, s'. intros fuel Hfuel.
      destruct fuel as [|fuel]; [lia|]. simpl. rewrite Hturn.
      apply Hrun. lia.
    + exists (Raise e), s1. intros fuel Hfuel.
      destruct fuel as [|fuel]; [lia|]. simpl. now rewrite Hturn.
    + now elim Hhang.
Qed.

End LoopFacts.

(** The cleanup is tame. *)
Lemma tame_cleanup : tame (fun _ => True) Monitor.cleanup.
Proof.
  intros [self w] Hs. unfold Monitor.cleanup; simpl.
  destruct (Monitor.redis self) as [r|] eqn:Hr.
  - apply (tame_lift (fun _ => True) (Monitor.close r)); [|trivial|exact Hs].
    unfold monitor_behaves in Hs; simpl in Hs. rewrite Hr in Hs. apply Hs.
  - simpl. tame_parts; try assumption; try discriminate; try reflexivity.
    apply Qle_refl.
Qed.

(** What [finally] makes of a block that ended. *)
Lemma finally_spec (o o' : outcome unit) (s s2 : Monitor.ArqMonitor * world) :
  o <> Hang -> monitor_behaves (fst s) ->
  finally_ Monitor.cleanup (o, s) = (o', s2) ->
  o' <> Hang
  /\ (clock (snd s) <= clock (snd s2))%Q
  /\ stdout (snd s2) = stdout (snd s)
  /\ (o' = Return tt -> o = Return tt).
Proof.
  intros Hhang Hs.
  destruct (tame_cleanup s Hs) as (Hh & _ & Hc & Ho & _).
  unfold finally_.
  destruct o as [[]|e|]; [| |now elim Hhang];
    destruct (Monitor.cleanup s) as [[u|e'|] s3]; simpl in *;
    try (now elim Hh); intros H; injection H as <- <-;
    repeat split; try assumption; try discriminate.
Qed.

(** The cleanup does not touch the monitor object. *)
Lemma finally_keeps_self (o o' : outcome unit) (s s2 : Monitor.ArqMonitor * world) :
  finally_ Monitor.cleanup (o, s) = (o', s2) -> fst s2 = fst s.
Proof.
  assert (Hkeep : fst (snd (Monitor.cleanup s)) = fst s).
  { unfold Monitor.cleanup.
    destruct (Monitor.redis (fst s)); [apply keeps_lift | reflexivity]. }
  unfold finally_.
  destruct o as [[]|e|]; [| |intros H; now injection H as _ <-];
    destruct (Monitor.cleanup s) as [[u|e'|] s3]; simpl in Hkeep;
    intros H; injection H as _ <-; exact Hkeep.
Qed.

Lemma print_stats_unfold (fuel : nat) (interval : Q) (duration : option Z)
    (s : Monitor.ArqMonitor * world) :
  Monitor.print_stats create_pool sleep utc_offset fuel interval duration s
  = match Monitor.while_True create_pool sleep utc_offset interval duration
            (clock (snd s)) fuel 0 (with_header s) with
    | Some (Return _, s1) => Some (finally_ Monitor.cleanup (Return tt, s1))
    | Some (Raise e, s1) =>
        Some (finally_ Monitor.cleanup
                (if is_KeyboardInterrupt e
                 then (Return tt,
                       (fst s1,
                        mkWorld (clock (snd s1)) (log (snd s1))
                          (stdout (snd s1) ++ [(clock (snd s1), stopped_line)])))
                 else (Raise e, s1)))
    | Some (Hang, s1) => Some (Hang, s1)
    | None => None
    end.
Proof.
  unfold Monitor.print_stats, Monitor.print_table.
  destruct s as [self w].
  change ((lift (print Monitor.header) ;;; lift (print Monitor.rule))%py (self, w))
    with (@Return unit tt, with_header (self, w)).
  cbv iota beta.
  destruct (Monitor.while_True create_pool sleep utc_offset interval duration
              (clock (snd (self, w))) fuel 0 (with_header (self, w)))
    as [[[n|e|] [self1 w1]]|]; reflexivity.
Qed.

(** What [print_stats] has printed when it is over, and why it is over. *)
Lemma print_stats_spec (fuel : nat) (interval : Q) (duration : option Z)
    (self : Monitor.ArqMonitor) (w : world) (o : outcome unit)
    (s' : Monitor.ArqMonitor * world) :
  monitor_behaves self ->
  Monitor.print_stats create_pool sleep utc_offset fuel interval duration (self, w)
  = Some (o, s') ->
  o <> Hang
  /\ exists rows tail,
       stdout (snd s')
       = (stdout w ++ (clock w, Monitor.header) :: (clock w, Monitor.rule)
            :: map row_line rows ++ tail)%list
       /\ spaced interval (clock w) (map fst rows)
       /\ Forall (fun r => fits (snd r) -> String.length (Monitor.row (snd r)) = 62%nat)
            rows
       /\ (tail = [] \/ exists t, tail = [(t, stopped_line)])
       /\ (o = Return tt -> tail = [] ->
           exists d, duration = Some d /\ d <> 0
                     /\ (inject_Z d < clock (snd s') - clock w)%Q)
       /\ Forall (shows_reading utc_offset (Monitor.queue_name self) (fst s')) rows
       /\ (starts duration -> o = Return tt -> tail = [] -> rows <> [])
       /\ (forall d, duration = Some d -> d <> 0 ->
           rows = []
           \/ ((inject_Z (Z.of_nat (length rows)) - 1) * interval <= inject_Z d)%Q).
Proof.
  intros Hs. rewrite print_stats_unfold.
  destruct (Monitor.while_True create_pool sleep utc_offset interval duration
              (clock (snd (self, w))) fuel 0 (with_header (self, w)))
    as [[o1 s1]|] eqn:Hloop; [|destruct o; discriminate].
  destruct (while_True_spec interval duration (clock (snd (self, w))) fuel 0
              (with_header (self, w)) s1 o1 Hs Hloop)
    as (Hhang & Hmon & Hclock
        & (rows & Hout & Hsp & Hts & _ & Hread & Hnone & Hmany) & Hend).
  simpl in Hclock, Hout, Hsp, Hend, Hread, Hnone, Hmany.
  assert (Hrows : Forall (fun r => fits (snd r) ->
                                   String.length (Monitor.row (snd r)) = 62%nat) rows).
  { eapply Forall_impl; [|exact Hts].
    intros r [z Hz] Hfit. exact (row_width _ z Hz Hfit). }
  assert (Hprefix : forall tail,
             (stdout (snd s1) ++ tail
              = stdout w ++ (clock w, Monitor.header) :: (clock w, Monitor.rule)
                  :: map row_line rows ++ tail)%list).
  { intros tail. rewrite Hout, <- !app_assoc. reflexivity. }
  assert (Hcount : forall d, duration = Some d -> d <> 0 ->
             rows = []
             \/ ((inject_Z (Z.of_nat (length rows)) - 1) * interval <= inject_Z d)%Q).
  { intros d Hd Hnz. destruct (Hmany d Hd Hnz) as [Hnil | Hbound]; [now left | right].
    set (x := inject_Z d) in *. set (y := inject_Z (Z.of_nat (length rows))) in *. lra. }
  assert (Hsome : starts duration -> forall n, o1 = Return n -> rows <> []).
  { intros Hstart n Hn Hnil.
    destruct (Hnone n Hn Hnil) as (d & Hd & _ & Hlt).
    rewrite Hd in Hstart. simpl in Hstart.
    assert (Hq : (0 <= inject_Z d)%Q) by (now rewrite (Zle_Qle 0 d) in Hstart).
    set (x := inject_Z d) in *. lra. }
  destruct o1 as [n|e|]; [| |now elim Hhang].
  - (* the loop ended by itself *)
    intros H. injection H as H.
    assert (Hlive : @Return unit tt <> Hang) by discriminate.
    destruct (finally_spec (Return tt) o s1 s' Hlive Hmon H) as (Hh & Hc & Ho & Hret).
    rewrite (finally_keeps_self (Return tt) o s1 s' H).
    split; [exact Hh|].
    exists rows, []. rewrite Ho, <- (Hprefix []), app_nil_r.
    split; [reflexivity|]. split; [exact Hsp|]. split; [exact Hrows|].
    split; [now left|].
    split.
    { intros _ _. destruct (Hend n eq_refl) as (d & Hd & Hnz & Hlt).
      exists d. split; [exact Hd|]. split; [exact Hnz|]. lra. }
    split; [exact Hread|].
    split; [intros Hstart _ _; exact (Hsome Hstart n eq_refl) | exact Hcount].
  - destruct (is_KeyboardInterrupt e) eqn:Hki.
    + (* the interrupt *)
      intros H. injection H as H.
      assert (Hlive : @Return unit tt <> Hang) by discriminate.
      destruct (finally_spec (Return tt) o
                  (fst s1,
                   mkWorld (clock (snd s1)) (log (snd s1))
                     (stdout (snd s1) ++ [(clock (snd s1), stopped_line)]))
                  s' Hlive Hmon H) as (Hh & Hc & Ho & Hret).
      rewrite (finally_keeps_self (Return tt) o
                 (fst s1,
                  mkWorld (clock (snd s1)) (log (snd s1))
                    (stdout (snd s1) ++ [(clock (snd s1), stopped_line)]))
                 s' H).
      simpl fst at 1.
      simpl in Hc, Ho.
      split; [exact Hh|].
      exists rows, [(clock (snd s1), stopped_line)]. rewrite Ho, Hprefix.
      split; [reflexivity|]. split; [exact Hsp|]. split; [exact Hrows|].
      split; [right; now eexists|].
      split; [intros _ Hnil; discriminate|].
      split; [exact Hread|].
      split; [intros _ _ Hnil; discriminate | exact Hcount].
    + (* another exception *)
      intros H. injection H as H.
      assert (Hlive : @Raise unit e <> Hang) by discriminate.
      destruct (finally_spec (Raise e) o s1 s' Hlive Hmon H) as (Hh & Hc & Ho & Hret).
      rewrite (finally_keeps_self (Raise e) o s1 s' H).
      split; [exact Hh|].
      exists rows, []. rewrite Ho, <- (Hprefix []), app_nil_r.
      split; [reflexivity|]. split; [exact Hsp|]. split; [exact Hrows|].
      split; [now left|].
      split; [intros Hret' _; specialize (Hret Hret'); discriminate|].
      split; [exact Hread|].
      split; [intros _ Hret' _; specialize (Hret Hret'); discriminate | exact Hcount].
Qed.

(** The counter [iteration] of the loop, when the loop ends by itself, is
    the number of the rows that it has printed. *)
Lemma while_True_counts (fuel : nat) (interval : Q) (duration : option Z)
    (self : Monitor.ArqMonitor) (w : world) (n : Z)
    (s1 : Monitor.ArqMonitor * world) :
  monitor_behaves self ->
  Monitor.while_True create_pool sleep utc_offset interval duration (clock w)
    fuel 0 (with_header (self, w)) = Some (Return n, s1) ->
  exists rows,
    stdout (snd s1)
    = (stdout w ++ (clock w, Monitor.header) :: (clock w, Monitor.rule)
         :: map row_line rows)%list
    /\ n = Z.of_nat (length rows).
Proof.
  intros Hs Hloop.
  destruct (while_True_spec interval duration (clock w) fuel 0
              (with_header (self, w)) s1 (Return n) Hs Hloop)
    as (_ & _ & _ & (rows & Hout & _ & _ & Hn & _) & _).
  exists rows. split.
  - rewrite Hout. simpl. rewrite <- !app_assoc. reflexivity.
  - rewrite (Hn n eq_refl). lia.
Qed.

(** With a positive duration and a positive interval, [print_stats] is over
    after finitely many turns of its loop. *)
Lemma print_stats_ends (interval : Q) (d : Z) (self : Monitor.ArqMonitor) (w : world) :
  monitor_behaves self -> (0 < interval)%Q -> 0 < d ->
  exists fuel o s',
    forall fuel', (fuel <= fuel')%nat ->
      Monitor.print_stats create_pool sleep utc_offset fuel' interval (Some d) (self, w)
      = Some (o, s').
Proof.
  intros Hs Hpos Hd.
  destruct (multiple_beyond (inject_Z d - (clock w - clock w)) interval Hpos) as [k Hk].
  destruct (while_True_ends interval (Some d) (clock w) d k eq_refl
              ltac:(lia) Hpos 0 (with_header (self, w)) Hs Hk)
    as (o1 & s1 & Hrun).
  exists (S k).
  destruct (Monitor.print_stats create_pool sleep utc_offset (S k) interval (Some d)
              (self, w)) as [[o s']|] eqn:Hone.
  - exists o, s'. intros fuel' Hfuel.
    rewrite print_stats_unfold in *.
    change (clock (snd (self, w))) with (clock w) in *.
    rewrite (Hrun fuel') by lia. rewrite (Hrun (S k)) in Hone by lia. exact Hone.
  - rewrite print_stats_unfold in Hone.
    change (clock (snd (self, w))) with (clock w) in Hone.
    rewrite (Hrun (S k)) in Hone by lia.
    destruct o1 as [n|e|]; discriminate.
Qed.

End MonitorFacts.


Lemma steady_surroundings : surroundings_behave steady_pool exact_sleep.
Proof.
  assert (Hstep : forall (A : Type) (a : A),
             well_behaved (elapse (1 # 10) ;;; ret a)%py).
  { intros A a w. simpl. repeat split; try discriminate. lra. }
  assert (Hsleep : forall d w,
             fst (exact_sleep d w) <> Hang
             /\ (clock w <= clock (snd (exact_sleep d w)))%Q
             /\ stdout (snd (exact_sleep d w)) = stdout w
             /\ (clock w + d <= clock (snd (exact_sleep d w)))%Q).
  { intros d w. unfold exact_sleep.
    destruct (Qle_bool 0 d) eqn:Hd; simpl.
    - apply Qle_bool_iff in Hd. repeat split; try discriminate; lra.
    - assert (Hneg : ~ (0 <= d)%Q)
        by (intros H; apply Qle_bool_iff in H; congruence).
      apply Qnot_le_lt in Hneg.
      repeat split; try discriminate; lra. }
  split; [|split; [|split]].
  - intros rs w. simpl. repeat split; try discriminate. lra.
  - intros rs w r w' H. injection H as <- <-.
    refine (conj _ (conj _ (conj _ (conj _ _)))); try (intros k; apply Hstep).
    intros w0. simpl. repeat split; try discriminate. lra.
  - intros d w. destruct (Hsleep d w) as (H1 & H2 & H3 & _). now repeat split.
  - intros d w u w' H. destruct (Hsleep d w) as (_ & _ & _ & H4).
    now rewrite H in H4.
Defined.

Lemma one_is_positive : (0 < 1)%Q.
Proof. reflexivity. Defined.

Lemma steady_run_is_over :
  Monitor.print_stats steady_pool exact_sleep 0 10 1 (Some 2) (fresh_monitor, midnight)
  = Some (fst steady_run, snd steady_run).
Proof. vm_compute. reflexivity. Defined.


(* ================================================================== *)
(** * Further properties of [chat] *)
(* ================================================================== *)

(** The run of [chat] on a job that is not done in time. *)
Lemma chat_too_late
    (redis : Main.ArqRedis) (request : Main.ChatRequest)
    (w w1 : world) (job : Main.Job) :
  chat_call redis request w = (Return (Some job), w1) ->
  not_within 30 job ->
  Main.chat redis request w
  = (Raise (HTTPException 500 ""),
     logged (later w1 30) "ERROR" "Error processing request: ").
Proof.
  intros Henq Hlate.
  apply (chat_catches redis request w (later w1 30) TimeoutError).
  - now apply (chat_body_too_late _ _ _ _ job).
  - reflexivity.
Qed.

(** X1.  Once the job is enqueued, [chat] comes back at most 30 seconds
    later, whatever the job does, and it does come back. *)
Theorem chat_returns_within_30_seconds
    (redis : Main.ArqRedis) (request : Main.ChatRequest)
    (w w1 : world) (job : Main.Job) :
  chat_call redis request w = (Return (Some job), w1) ->
  fst (Main.chat redis request w) <> Hang
  /\ (clock (snd (Main.chat redis request w)) <= clock w1 + 30)%Q.
Proof.
  intros Henq. unfold chat_call in Henq.
  assert (Hcases : not_within 30 job
                   \/ exists t, Main.finishes_after job = Some t /\ (t <= 30)%Q).
  { unfold not_within. destruct (Main.finishes_after job) as [t|]; [|now left].
    destruct (Qlt_le_dec 30 t); [now left | right; now exists t]. }
  destruct Hcases as [Hlate | (t & Hfin & Hle)].
  - rewrite (chat_too_late redis request w w1 job Henq Hlate). simpl.
    split; [discriminate | apply Qle_refl].
  - split.
    + unfold Main.chat, try_except_Exception, except_.
      rewrite (chat_body_in_time _ _ _ _ _ _ Henq Hfin Hle).
      destruct (Main.final job) as [result|e|]; simpl; try discriminate.
      * destruct (is_None result); simpl; discriminate.
      * destruct (is_Exception e); simpl; discriminate.
    + rewrite chat_clock, (chat_body_in_time _ _ _ _ _ _ Henq Hfin Hle).
      assert (Hclock : (clock (later w1 t) <= clock w1 + 30)%Q) by (simpl; lra).
      destruct (Main.final job) as [result|e|]; try exact Hclock.
      destruct (is_None result); exact Hclock.
Qed.

Lemma chat_returns_within_30_seconds_witness :
  fst (Main.chat (Main.redis_with stuck_job) hello midnight) <> Hang
  /\ (clock (snd (Main.chat (Main.redis_with stuck_job) hello midnight)) <= 0 + 30)%Q.
Proof.
  exact (chat_returns_within_30_seconds (Main.redis_with stuck_job) hello
           midnight midnight stuck_job eq_refl).
Defined.

(** X2.  When [enqueue_job] gives no handle ([None]: a job with the id is
    there already), the wait fails on [None] and [chat] answers with status
    500 and the text of the attribute error; nothing is waited for. *)
Theorem chat_without_handle
    (redis : Main.ArqRedis) (request : Main.ChatRequest) (w w1 : world) :
  chat_call redis request w = (Return None, w1) ->
  Main.chat redis request w
  = (Raise (HTTPException 500 "'NoneType' object has no attribute 'result'"),
     logged w1 "ERROR"
       "Error processing request: 'NoneType' object has no attribute 'result'").
Proof.
  intros Henq. unfold chat_call in Henq.
  apply (chat_catches redis request w w1
           (AttributeError "'NoneType' object has no attribute 'result'"));
    [|reflexivity].
  unfold Main.chat_body, bind. rewrite messages_argument, Henq. reflexivity.
Qed.

Lemma chat_without_handle_witness :
  fst (Main.chat redis_duplicate hello midnight)
  = Raise (HTTPException 500 "'NoneType' object has no attribute 'result'").
Proof.
  now rewrite (chat_without_handle redis_duplicate hello midnight midnight eq_refl).
Defined.

(** X3.  When [enqueue_job] itself raises an [Exception] (the queue backend
    cannot be reached), [chat] answers with status 500 and the text of that
    exception, logs one error record and does not wait: the clock is where
    [enqueue_job] left it. *)
Theorem chat_enqueue_failure
    (redis : Main.ArqRedis) (request : Main.ChatRequest) (w w1 : world) (e : exn) :
  chat_call redis request w = (Raise e, w1) ->
  is_Exception e = true ->
  Main.chat redis request w
  = (Raise (HTTPException 500 (str e)),
     logged w1 "ERROR" ("Error processing request: " ++ str e))
  /\ clock (snd (Main.chat redis request w)) = clock w1
  /\ log (snd (Main.chat redis request w))
     = app (log w1) [("ERROR", "Error processing request: " ++ str e)].
Proof.
  intros Henq Hexc. unfold chat_call in Henq.
  assert (H : Main.chat redis request w
              = (Raise (HTTPException 500 (str e)),
                 logged w1 "ERROR" ("Error processing request: " ++ str e))).
  { apply chat_catches; [|exact Hexc].
    unfold Main.chat_body, bind. rewrite messages_argument, Henq. reflexivity. }
  rewrite H. repeat split.
Qed.

Lemma chat_enqueue_failure_witness :
  Main.chat redis_down hello midnight
  = (Raise (HTTPException 500 "Connection refused"),
     logged midnight "ERROR" "Error processing request: Connection refused").
Proof.
  exact (proj1 (chat_enqueue_failure redis_down hello midnight midnight
                  (Foreign "ConnectionError" true "Connection refused")
                  eq_refl eq_refl)).
Defined.

(** X4.  An exception of the job that is not an [Exception] (the
    cancellation of an aborted job) is not caught by [chat]: it reaches the
    caller as it is, and no error record is logged. *)
Theorem chat_does_not_wrap_cancellation
    (redis : Main.ArqRedis) (request : Main.ChatRequest)
    (w w1 : world) (job : Main.Job) (t : Q) (e : exn) :
  chat_call redis request w = (Return (Some job), w1) ->
  Main.finishes_after job = Some t ->
  (t <= 30)%Q ->
  Main.final job = Main.ExecutionFailed e ->
  is_Exception e = false ->
  Main.chat redis request w = (Raise e, later w1 t)
  /\ log (snd (Main.chat redis request w)) = log w1.
Proof.
  intros Henq Hfin Hle Hfail Hexc. unfold chat_call in Henq.
  assert (H : Main.chat redis request w = (Raise e, later w1 t)).
  { apply chat_passes; [|exact Hexc].
    rewrite (chat_body_in_time _ _ _ _ _ _ Henq Hfin Hle), Hfail. reflexivity. }
  rewrite H. now split.
Qed.

Lemma chat_does_not_wrap_cancellation_witness :
  Main.chat (Main.redis_with aborted_job) hello midnight
  = (Raise CancelledError, later midnight 2).
Proof.
  exact (proj1 (chat_does_not_wrap_cancellation (Main.redis_with aborted_job) hello
                  midnight midnight aborted_job 2%Q CancelledError
                  eq_refl eq_refl two_within_30 eq_refl eq_refl)).
Defined.

(** X5.  [chat] uses the pool for one call only, [enqueue_job] of
    "process_langchain_request" with the dumped messages: two pools that
    answer this call alike make [chat] run alike.  The name is one of the
    functions that [WorkerSettings] registers. *)
Theorem chat_enqueues_registered_function
    (redis redis' : Main.ArqRedis) (request : Main.ChatRequest) (w : world)
    (settings : Config.Settings) :
  chat_call redis request w = chat_call redis' request w ->
  Main.chat redis request w = Main.chat redis' request w
  /\ In "process_langchain_request"
        (Worker.functions (Worker.WorkerSettings settings)).
Proof.
  intros Hsame. unfold chat_call in Hsame. split; [|now left].
  unfold Main.chat, try_except_Exception, Main.chat_body, bind.
  rewrite messages_argument, Hsame. reflexivity.
Qed.

Lemma chat_enqueues_registered_function_witness :
  Main.chat (Main.redis_with quick_job) hello midnight
  = Main.chat (Main.mkArqRedis (fun name _ =>
                 if String.eqb name "process_langchain_request"
                 then ret (Some quick_job)
                 else raise (Foreign "KeyError" true name))) hello midnight.
Proof.
  exact (proj1 (chat_enqueues_registered_function (Main.redis_with quick_job) _ hello
                  midnight default_settings eq_refl)).
Defined.

(* ================================================================== *)
(** * Further properties of the worker *)
(* ================================================================== *)

(** X6.  When the model is built, the messages are converted and the model
    answers, [process_langchain_request] returns the content of the answer
    and has logged two records and no more: the announcement with the number
    of messages, and the completion. *)
Theorem process_langchain_request_returns_content {LLM Msgs : Type}
    (settings : Config.Settings) (lc : Worker.LangChain LLM Msgs)
    (messages : list value) (w w1 w2 w3 : world)
    (llm : LLM) (msgs : Msgs) (response : Worker.AIMessage) :
  Worker.ChatGoogleGenerativeAI lc (Worker.llm_arguments settings) (announced w messages)
  = (Return llm, w1) ->
  Worker.convert_to_messages lc messages w1 = (Return msgs, w2) ->
  Worker.ainvoke lc llm msgs w2 = (Return response, w3) ->
  Worker.process_langchain_request settings lc messages w
  = (Return (Worker.content response),
     logged w3 "INFO" "LangChain processing completed").
Proof.
  intros Hnew Hconv Hcall. unfold announced in Hnew.
  rewrite process_logs_first. unfold bind at 1. rewrite Hnew.
  unfold bind at 1. rewrite Hconv. unfold bind at 1. rewrite Hcall.
  reflexivity.
Qed.

Lemma process_langchain_request_returns_content_witness :
  Worker.process_langchain_request default_settings Worker.echo one_message midnight
  = (Return (VDict [("model", VStr "gemini-2.0-flash");
                    ("temperature", VFloat 0);
                    ("max_tokens", VInt 8192)]),
     logged (announced midnight one_message) "INFO" "LangChain processing completed").
Proof.
  exact (process_langchain_request_returns_content default_settings Worker.echo
           one_message midnight _ _ _ _ _ _ eq_refl eq_refl eq_refl).
Defined.

(** X7.  When the model cannot be built, or the messages cannot be
    converted, the exception is raised to the caller (logged if it is an
    [Exception]) and the model is not invoked: the outcome does not depend
    on what the later calls would do. *)
Theorem process_langchain_request_setup_failure {LLM Msgs : Type}
    (settings : Config.Settings) (lc : Worker.LangChain LLM Msgs)
    (messages : list value) (w w1 : world) (e : exn) :
  (Worker.ChatGoogleGenerativeAI lc (Worker.llm_arguments settings) (announced w messages)
   = (Raise e, w1) ->
   Worker.process_langchain_request settings lc messages w
   = (Raise e,
      if is_Exception e
      then logged w1 "ERROR" ("Error in LangChain processing: " ++ str e)
      else w1))
  /\ (forall llm w2,
        Worker.ChatGoogleGenerativeAI lc (Worker.llm_arguments settings)
          (announced w messages) = (Return llm, w1) ->
        Worker.convert_to_messages lc messages w1 = (Raise e, w2) ->
        Worker.process_langchain_request settings lc messages w
        = (Raise e,
           if is_Exception e
           then logged w2 "ERROR" ("Error in LangChain processing: " ++ str e)
           else w2)).
Proof.
  unfold announced. split.
  - intros Hnew. rewrite process_logs_first. unfold bind at 1. rewrite Hnew.
    unfold except_. destruct (is_Exception e); reflexivity.
  - intros llm w2 Hnew Hconv. rewrite process_logs_first.
    unfold bind at 1. rewrite Hnew. unfold bind at 1. rewrite Hconv.
    unfold except_. destruct (is_Exception e); reflexivity.
Qed.

Lemma process_langchain_request_setup_failure_witness :
  let e := Foreign "ValueError" true "API key not valid" in
  Worker.process_langchain_request default_settings (unbuildable e) one_message midnight
  = (Raise e,
     logged (announced midnight one_message) "ERROR"
       "Error in LangChain processing: API key not valid").
Proof.
  intros e.
  exact (proj1 (process_langchain_request_setup_failure default_settings
                  (unbuildable e) one_message midnight _ e) eq_refl).
Defined.

(** X8.  [create_worker] gives the values of [WorkerSettings]: the same
    function, hooks, queue backend, concurrency limit, job timeout, result
    retention and number of tries, and in addition the "json" serializer; it
    logs one record. *)
Theorem create_worker_agrees_with_WorkerSettings
    (settings : Config.Settings) (w : world) :
  exists d,
    Worker.create_worker settings w
    = (Return d, logged w "INFO" "Creating ARQ worker using legacy dictionary approach")
    /\ Worker.wd_functions d = Worker.functions (Worker.WorkerSettings settings)
    /\ Worker.wd_startup d = Worker.on_startup (Worker.WorkerSettings settings)
    /\ Worker.wd_shutdown d = Worker.on_shutdown (Worker.WorkerSettings settings)
    /\ Worker.wd_redis_settings d = Worker.redis_settings (Worker.WorkerSettings settings)
    /\ Worker.wd_max_jobs d = Worker.max_jobs (Worker.WorkerSettings settings)
    /\ Worker.wd_job_timeout d = Worker.job_timeout (Worker.WorkerSettings settings)
    /\ Worker.wd_keep_result d = Worker.keep_result (Worker.WorkerSettings settings)
    /\ Worker.wd_max_tries d = Worker.max_tries (Worker.WorkerSettings settings)
    /\ Worker.wd_job_serializer d = "json".
Proof.
  eexists. split; [reflexivity|]. repeat split.
Qed.

(* ================================================================== *)
(** * Properties of the health check *)
(* ================================================================== *)

(** The outcome of the [try] block of [health_check] is never [False]. *)
Lemma probe_returns_true (create_pool : Worker.RedisSettings -> IO Health.Redis)
    (settings : Config.Settings) (w w' : world) (b : bool) :
  Health.probe create_pool settings w = (Return b, w') ->
  b = true
  /\ exists r w1 p w2,
       create_pool (backend settings) w = (Return r, w1)
       /\ Health.ping r w1 = (Return p, w2)
       /\ Health.close r w2 = (Return tt, w').
Proof.
  unfold Health.probe, bind, backend.
  destruct (create_pool _ w) as [[r|e|] w1]; try discriminate.
  destruct (Health.ping r w1) as [[p|e|] w2] eqn:Hping; try discriminate.
  destruct (Health.close r w2) as [[[]|e|] w3] eqn:Hclose; try discriminate.
  intros H. injection H as <- <-. split; [reflexivity|].
  exists r, w1, p, w2. now repeat split.
Qed.

(** X9.  [health_check] never raises an [Exception]: it returns.  It
    returns [True] only when the pool was created, the ping came back and
    the connection was closed. *)
Theorem health_check_never_raises_Exception
    (create_pool : Worker.RedisSettings -> IO Health.Redis)
    (settings : Config.Settings) (w : world) :
  (forall e, fst (Health.health_check create_pool settings w) = Raise e ->
             is_Exception e = false)
  /\ (fst (Health.health_check create_pool settings w) = Return true ->
      exists r w1 p w2 w3,
        create_pool (backend settings) w = (Return r, w1)
        /\ Health.ping r w1 = (Return p, w2)
        /\ Health.close r w2 = (Return tt, w3)).
Proof.
  unfold Health.health_check, try_except_Exception, except_.
  destruct (Health.probe create_pool settings w) as [[b|e|] w'] eqn:Hprobe; simpl.
  - split; [discriminate|]. intros _.
    destruct (probe_returns_true _ _ _ _ _ Hprobe) as (_ & r & w1 & p & w2 & H).
    now exists r, w1, p, w2, w'.
  - destruct (is_Exception e) eqn:Hexc; simpl.
    + split; discriminate.
    + split; [|discriminate]. intros e' H. now injection H as <-.
  - split; discriminate.
Qed.

Lemma health_check_never_raises_Exception_witness :
  (forall e, fst (Health.health_check no_pool default_settings midnight) = Raise e ->
             is_Exception e = false)
  /\ fst (Health.health_check healthy_pool default_settings midnight) = Return true.
Proof.
  split.
  - exact (proj1 (health_check_never_raises_Exception no_pool default_settings midnight)).
  - reflexivity.
Defined.

(** X10.  When the pool is created but the ping raises an [Exception],
    [health_check] logs it and returns [False]; the connection is left
    unclosed: the world is the one the ping left, with the error record. *)
Theorem health_check_ping_failure
    (create_pool : Worker.RedisSettings -> IO Health.Redis)
    (settings : Config.Settings) (w w1 w2 : world) (r : Health.Redis) (e : exn) :
  create_pool (backend settings) w = (Return r, w1) ->
  Health.ping r w1 = (Raise e, w2) ->
  is_Exception e = true ->
  Health.health_check create_pool settings w
  = (Return false, logged w2 "ERROR" ("Health check failed: " ++ str e)).
Proof.
  intros Hpool Hping Hexc. unfold backend in Hpool.
  unfold Health.health_check, try_except_Exception, except_, Health.probe, bind.
  rewrite Hpool, Hping, Hexc. reflexivity.
Qed.

Lemma health_check_ping_failure_witness :
  Health.health_check mute_pool default_settings midnight
  = (Return false,
     logged midnight "ERROR" "Health check failed: Timeout reading from socket").
Proof.
  exact (health_check_ping_failure mute_pool default_settings midnight midnight
           midnight _ _ eq_refl eq_refl eq_refl).
Defined.

(** X11.  When the pool cannot be created, [health_check] returns [False]
    with the error logged, and neither pings nor closes. *)
Theorem health_check_connection_failure
    (create_pool : Worker.RedisSettings -> IO Health.Redis)
    (settings : Config.Settings) (w w1 : world) (e : exn) :
  create_pool (backend settings) w = (Raise e, w1) ->
  is_Exception e = true ->
  Health.health_check create_pool settings w
  = (Return false, logged w1 "ERROR" ("Health check failed: " ++ str e)).
Proof.
  intros Hpool Hexc. unfold backend in Hpool.
  unfold Health.health_check, try_except_Exception, except_, Health.probe, bind.
  rewrite Hpool, Hexc. reflexivity.
Qed.

Lemma health_check_connection_failure_witness :
  Health.health_check no_pool default_settings midnight
  = (Return false, logged midnight "ERROR" "Health check failed: Connection refused").
Proof.
  exact (health_check_connection_failure no_pool default_settings midnight midnight
           _ eq_refl eq_refl).
Defined.

(* ================================================================== *)
(** * Further properties of the configuration *)
(* ================================================================== *)

(** X12.  A [REDIS_PORT] of the process environment that Python's [int]
    does not read ends the import with the [ValueError] of the class body,
    before any field is validated and whatever else is set; so does such an
    [API_CONCURRENCY_LIMIT] when the port is readable. *)
Theorem non_integer_port_fails_import
    (py_int pydantic_int : string -> option Z) (env dotenv : Config.environ)
    (v : string) :
  py_int v = None ->
  (Config.getenv env "REDIS_PORT" = Some v ->
   Config.get_settings py_int pydantic_int env dotenv = inl (Config.ValueError_int v)
   /\ Worker.import_worker py_int pydantic_int env dotenv = inl (Config.ValueError_int v))
  /\ (Config.getenv env "API_CONCURRENCY_LIMIT" = Some v ->
      reads_as_int py_int (Config.getenv env "REDIS_PORT") = true ->
      Config.get_settings py_int pydantic_int env dotenv = inl (Config.ValueError_int v)).
Proof.
  intros Hbad. split.
  - intros Hport.
    unfold Worker.import_worker, Config.get_settings, Config.class_body, Config.int_getenv.
    rewrite Hport, Hbad. now split.
  - intros Hlimit Hport.
    unfold Config.get_settings, Config.class_body, Config.int_getenv.
    unfold reads_as_int in Hport.
    destruct (Config.getenv env "REDIS_PORT") as [p|].
    + destruct (py_int p); [|discriminate]. now rewrite Hlimit, Hbad.
    + now rewrite Hlimit, Hbad.
Qed.

Lemma non_integer_port_fails_import_witness :
  Config.get_settings Config.decimal Config.decimal bad_port_env []
  = inl (Config.ValueError_int "six").
Proof.
  exact (proj1 (proj1 (non_integer_port_fails_import Config.decimal Config.decimal
                         bad_port_env [] "six" eq_refl) eq_refl)).
Defined.

(** The other fields of a settings object that was built. *)
Lemma Settings_new_other_fields (pydantic_int : string -> option Z)
    (d : Config.class_defaults) (env dotenv : Config.environ) (s : Config.Settings) :
  Config.Settings_new pydantic_int d env dotenv = inr s ->
  Config.str_field env dotenv "OUTPUT_FOLDER" (Some "output_1")
  = inr (Config.OUTPUT_FOLDER s)
  /\ Config.int_field pydantic_int env dotenv "MAX_CONCURRENCY" 10
     = inr (Config.MAX_CONCURRENCY s)
  /\ Config.opt_str_field env dotenv "API_BASE_URL" (Config.d_API_BASE_URL d)
     = inr (Config.API_BASE_URL s)
  /\ Config.str_field env dotenv "FASTAPI_KEY" (Some "your-api-key-here")
     = inr (Config.FASTAPI_KEY s)
  /\ Config.int_field_raw_default pydantic_int env dotenv "MAX_TASK_RUNTIME"
       (Config.d_MAX_TASK_RUNTIME d)
     = inr (Config.MAX_TASK_RUNTIME s).
Proof.
  unfold Config.Settings_new.
  destruct (Config.str_field env dotenv "GOOGLE_API_KEY" None); [discriminate|].
  destruct (Config.str_field env dotenv "MODEL_NAME" _); [discriminate|].
  destruct (Config.str_field env dotenv "OUTPUT_FOLDER" _); [discriminate|].
  destruct (Config.int_field pydantic_int env dotenv "MAX_CONCURRENCY" _); [discriminate|].
  destruct (Config.int_field pydantic_int env dotenv "MAX_OUTPUT_TOKENS" _); [discriminate|].
  destruct (Config.opt_str_field env dotenv "API_BASE_URL" _); [discriminate|].
  destruct (Config.str_field env dotenv "FASTAPI_KEY" _); [discriminate|].
  destruct (Config.int_field_raw_default pydantic_int env dotenv "MAX_TASK_RUNTIME" _);
    [discriminate|].
  destruct (Config.str_field env dotenv "REDIS_HOST" _); [discriminate|].
  destruct (Config.int_field pydantic_int env dotenv "REDIS_PORT" _); [discriminate|].
  destruct (Config.int_field pydantic_int env dotenv "API_CONCURRENCY_LIMIT" _);
    [discriminate|].
  destruct (map _ (Config.extra_inputs dotenv)); [|discriminate].
  intros H. injection H as <-. simpl. repeat split.
Qed.

(** X13.  In a settings object that was built, [MAX_TASK_RUNTIME] is an
    integer and [API_BASE_URL] is a string: the defaults that the class body
    reads with [os.environ.get], which would be unvalidated strings, are
    used only when the variable is not set, and then they are 3600 and the
    address of the development API. *)
Theorem built_settings_hold_typed_values
    (py_int pydantic_int : string -> option Z) (env dotenv : Config.environ)
    (s : Config.Settings) :
  Config.get_settings py_int pydantic_int env dotenv = inr s ->
  (exists z, Config.MAX_TASK_RUNTIME s = VInt z)
  /\ (exists url, Config.API_BASE_URL s = Some url)
  /\ (Config.source_value env dotenv "MAX_TASK_RUNTIME" = None ->
      Config.MAX_TASK_RUNTIME s = VInt 3600)
  /\ (Config.source_value env dotenv "API_BASE_URL" = None ->
      Config.API_BASE_URL s = Some "https://api-dev.maverickcosts.com").
Proof.
  unfold Config.get_settings.
  destruct (Config.class_body py_int env) as [e|d] eqn:Hbody; [discriminate|].
  intros Hnew.
  destruct (Settings_new_other_fields _ _ _ _ _ Hnew) as (_ & _ & Hurl & _ & Hrun).
  unfold Config.class_body in Hbody.
  destruct (Config.int_getenv py_int env "REDIS_PORT" 6379) as [e|port]; [discriminate|].
  destruct (Config.int_getenv py_int env "API_CONCURRENCY_LIMIT" 10) as [e|limit];
    [discriminate|].
  injection Hbody as <-. simpl in Hurl, Hrun.
  unfold Config.int_field_raw_default in Hrun. unfold Config.opt_str_field in Hurl.
  assert (Hrun_unset : Config.source_value env dotenv "MAX_TASK_RUNTIME" = None ->
                       Config.MAX_TASK_RUNTIME s = VInt 3600).
  { intros Hnone. rewrite Hnone in Hrun.
    rewrite (getenv_unset _ _ _ Hnone) in Hrun. now injection Hrun as <-. }
  assert (Hurl_unset : Config.source_value env dotenv "API_BASE_URL" = None ->
                       Config.API_BASE_URL s = Some "https://api-dev.maverickcosts.com").
  { intros Hnone. rewrite Hnone in Hurl.
    rewrite (getenv_unset _ _ _ Hnone) in Hurl. now injection Hurl as <-. }
  repeat split; try assumption.
  - destruct (Config.source_value env dotenv "MAX_TASK_RUNTIME") as [v|].
    + destruct (pydantic_int v) as [runtime|]; [|discriminate].
      injection Hrun as <-. now exists runtime.
    + exists 3600. now apply Hrun_unset.
  - destruct (Config.source_value env dotenv "API_BASE_URL") as [v|].
    + injection Hurl as <-. now exists v.
    + eexists. now apply Hurl_unset.
Qed.

Lemma built_settings_hold_typed_values_witness :
  exists z, Config.MAX_TASK_RUNTIME default_settings = VInt z.
Proof.
  exact (proj1 (built_settings_hold_typed_values Config.decimal Config.decimal
                  [("GOOGLE_API_KEY", "secret")] [] default_settings eq_refl)).
Defined.

(** X14.  With the credentials and no other field set, in the environment
    or in the [.env] file, and no extra input in the [.env] file (a variable
    with a value that names no field), the settings are the defaults of the
    class. *)
Theorem settings_default_to_class_defaults
    (py_int pydantic_int : string -> option Z) (env dotenv : Config.environ)
    (key : string) :
  Config.source_value env dotenv "GOOGLE_API_KEY" = Some key ->
  Forall (fun name => Config.source_value env dotenv name = None) optional_fields ->
  Config.extra_inputs dotenv = [] ->
  Config.get_settings py_int pydantic_int env dotenv
  = inr (Config.mkSettings key "gemini-2.0-flash" "output_1" 10 8192
           "your-api-key-here" (Some "https://api-dev.maverickcosts.com")
           (VInt 3600) "redis" 6379 10).
Proof.
  intros Hkey Hnone Hextra.
  assert (Hunset : forall name, In name optional_fields ->
                                Config.source_value env dotenv name = None)
    by (apply Forall_forall; exact Hnone).
  assert (Hgetenv : forall name, In name optional_fields ->
                                 Config.getenv env name = None)
    by (intros name Hin; exact (getenv_unset _ _ _ (Hunset name Hin))).
  unfold Config.get_settings, Config.class_body, Config.int_getenv.
  rewrite !Hgetenv by (simpl; tauto).
  unfold Config.Settings_new, Config.str_field, Config.int_field,
    Config.opt_str_field, Config.int_field_raw_default.
  rewrite Hkey, !Hunset, Hextra by (simpl; tauto).
  reflexivity.
Qed.

Lemma settings_default_to_class_defaults_witness :
  Config.get_settings Config.decimal Config.decimal [("GOOGLE_API_KEY", "secret")] []
  = inr default_settings.
Proof.
  apply (settings_default_to_class_defaults Config.decimal Config.decimal
           [("GOOGLE_API_KEY", "secret")] [] "secret" eq_refl).
  - repeat constructor.
  - reflexivity.
Defined.

(** A key that a source binds, and binds to one value only, is found with
    that value. *)
Lemma lookup_consistent (k v : string) (d : Config.environ) :
  (exists v0, In (k, v0) d) ->
  (forall v', In (k, v') d -> v' = v) ->
  Config.lookup k d = Some v.
Proof.
  induction d as [|[k0 v0] rest IH]; intros [x Hin] Hone; [destruct Hin|].
  simpl.
  destruct (Config.lookup k rest) as [y|] eqn:Hrest.
  - (* a later binding: it is [v] *)
    assert (Hy : In (k, y) rest).
    { clear - Hrest. induction rest as [|[k1 v1] rest IH]; [discriminate|].
      simpl in Hrest.
      destruct (Config.lookup k rest) as [z|].
      - injection Hrest as <-. right. now apply IH.
      - destruct (String.eqb_spec k k1) as [->|]; [|discriminate].
        injection Hrest as <-. now left. }
    f_equal. apply Hone. now right.
  - destruct Hin as [Hhead | Htail].
    + injection Hhead as -> ->. rewrite String.eqb_refl.
      f_equal. apply Hone. now left.
    + assert (Hfound : @None string = Some v).
      { apply IH; [now exists x|]. intros v' Hv'. apply Hone. now right. }
      discriminate.
Qed.

(** The same for a source read without regard to case. *)
Lemma source_lookup_consistent (name k v : string) (src : Config.environ) :
  In (k, v) src ->
  Config.lower k = Config.lower name ->
  (forall k' v', In (k', v') src -> Config.lower k' = Config.lower name -> v' = v) ->
  Config.lookup (Config.lower name) (Config.env_vars src) = Some v.
Proof.
  intros Hin Hk Hone. apply lookup_consistent.
  - exists v. unfold Config.env_vars. apply in_map_iff.
    exists (k, v). simpl. rewrite Hk. now split.
  - intros v' Hv'. unfold Config.env_vars in Hv'. apply in_map_iff in Hv'.
    destruct Hv' as [[k' x] [Heq Hin']]. simpl in Heq. injection Heq as Hk' ->.
    exact (Hone k' v' Hin' Hk').
Qed.

(** X15.  The host of the queue backend is the [REDIS_HOST] of the process
    environment, written in any case of letters, whatever the [.env] file
    says; the [.env] file decides when the process environment does not set
    it. *)
Theorem redis_host_precedence
    (py_int pydantic_int : string -> option Z) (env dotenv : Config.environ)
    (k v : string) (s : Config.Settings) :
  Config.get_settings py_int pydantic_int env dotenv = inr s ->
  Config.lower k = "redis_host" ->
  (In (k, v) env ->
   (forall k' v', In (k', v') env -> Config.lower k' = "redis_host" -> v' = v) ->
   Config.REDIS_HOST s = v)
  /\ (absent "REDIS_HOST" env ->
      In (k, v) dotenv ->
      (forall k' v', In (k', v') dotenv -> Config.lower k' = "redis_host" -> v' = v) ->
      Config.REDIS_HOST s = v).
Proof.
  intros Hs Hk.
  unfold Config.get_settings in Hs.
  destruct (Config.class_body py_int env) as [e|d]; [discriminate|].
  destruct (Settings_new_fields _ _ _ _ _ Hs) as (_ & _ & _ & Hhost & _).
  split.
  - intros Hin Hone.
    apply (str_field_set _ _ _ _ _ _ Hhost).
    unfold Config.source_value.
    now rewrite (source_lookup_consistent "REDIS_HOST" k v env Hin Hk Hone).
  - intros Habs Hin Hone.
    apply (str_field_set _ _ _ _ _ _ Hhost).
    unfold Config.source_value.
    rewrite (lookup_absent _ _ Habs).
    exact (source_lookup_consistent "REDIS_HOST" k v dotenv Hin Hk Hone).
Qed.

Lemma redis_host_precedence_witness :
  Config.REDIS_HOST
    (Config.mkSettings "secret" "gemini-2.0-flash" "output_1" 10 8192
       "your-api-key-here" (Some "https://api-dev.maverickcosts.com")
       (VInt 3600) "queue.internal" 6379 10)
  = "queue.internal".
Proof.
  apply (proj1 (redis_host_precedence Config.decimal Config.decimal lower_case_env
                  host_dotenv "redis_host" "queue.internal" _ eq_refl eq_refl)).
  - right. now left.
  - intros k' v' [H|[H|[]]] Hlow; injection H as <- <-; [discriminate | reflexivity].
Defined.

Section Loadable.
Variables py_int pydantic_int : string -> option Z.
Variables env dotenv : Config.environ.

Lemma int_getenv_reads (name : string) (dflt : Z) :
  (exists z, Config.int_getenv py_int env name dflt = inr z)
  <-> reads_as_int py_int (Config.getenv env name) = true.
Proof.
  unfold Config.int_getenv, reads_as_int.
  destruct (Config.getenv env name) as [v|].
  - destruct (py_int v) as [z|]; split; try discriminate; try reflexivity.
    + intros _. now exists z.
    + intros [z Hz]. discriminate.
  - split; [reflexivity | intros _; now exists dflt].
Qed.

Lemma int_field_reads (name : string) (dflt : Z) :
  (exists z, Config.int_field pydantic_int env dotenv name dflt = inr z)
  <-> reads_as_int pydantic_int (Config.source_value env dotenv name) = true.
Proof.
  unfold Config.int_field, reads_as_int.
  destruct (Config.source_value env dotenv name) as [v|].
  - destruct (pydantic_int v) as [z|]; split; try discriminate; try reflexivity.
    + intros _. now exists z.
    + intros [z Hz]. discriminate.
  - split; [reflexivity | intros _; now exists dflt].
Qed.

Lemma raw_field_reads (name : string) (dflt : value) :
  (exists x, Config.int_field_raw_default pydantic_int env dotenv name dflt = inr x)
  <-> reads_as_int pydantic_int (Config.source_value env dotenv name) = true.
Proof.
  unfold Config.int_field_raw_default, reads_as_int.
  destruct (Config.source_value env dotenv name) as [v|].
  - destruct (pydantic_int v) as [z|]; split; try discriminate; try reflexivity.
    + intros _. now exists (VInt z).
    + intros [z Hz]. discriminate.
  - split; [reflexivity | intros _; now exists dflt].
Qed.

(** X16.  The settings are built exactly when the environment gives the
    credentials and, wherever it sets an integer field, a text that reads as
    an integer ([REDIS_PORT] and [API_CONCURRENCY_LIMIT] of the process
    environment for Python's [int], and the five integer fields for the
    validation), and the [.env] file has no variable with a value that names
    no field. *)
Theorem get_settings_succeeds_iff :
  (exists s, Config.get_settings py_int pydantic_int env dotenv = inr s)
  <-> loadable py_int pydantic_int env dotenv = true.
Proof.
  unfold loadable. rewrite !andb_true_iff.
  rewrite <- (int_getenv_reads "REDIS_PORT" 6379).
  rewrite <- (int_getenv_reads "API_CONCURRENCY_LIMIT" 10).
  split.
  - intros [s Hs]. unfold Config.get_settings in Hs.
    destruct (Config.class_body py_int env) as [e|d] eqn:Hbody; [discriminate|].
    destruct (Settings_new_fields _ _ _ _ _ Hs) as (Hkey & _ & Htok & _ & Hport & Hlim).
    destruct (Settings_new_other_fields _ _ _ _ _ Hs) as (_ & Hconc & _ & _ & Hrun).
    unfold Config.class_body in Hbody.
    destruct (Config.int_getenv py_int env "REDIS_PORT" 6379) as [e|p]; [discriminate|].
    destruct (Config.int_getenv py_int env "API_CONCURRENCY_LIMIT" 10) as [e|c];
      [discriminate|].
    repeat split.
    + unfold Config.str_field in Hkey.
      destruct (Config.source_value env dotenv "GOOGLE_API_KEY"); [reflexivity|discriminate].
    + now exists p.
    + now exists c.
    + apply (int_field_reads "MAX_CONCURRENCY" 10). eexists; exact Hconc.
    + apply (int_field_reads "MAX_OUTPUT_TOKENS" 8192). eexists; exact Htok.
    + apply (raw_field_reads "MAX_TASK_RUNTIME" (Config.d_MAX_TASK_RUNTIME d)).
      eexists; exact Hrun.
    + apply (int_field_reads "REDIS_PORT" (Config.d_REDIS_PORT d)). eexists; exact Hport.
    + apply (int_field_reads "API_CONCURRENCY_LIMIT" (Config.d_API_CONCURRENCY_LIMIT d)).
      eexists; exact Hlim.
    + unfold no_extra_inputs. unfold Config.Settings_new in Hs.
      destruct (Config.extra_inputs dotenv) as [|x extras]; [reflexivity|].
      exfalso. simpl in Hs.
      repeat match type of Hs with
             | match ?f with inl _ => _ | inr _ => _ end = _ => destruct f
             end; discriminate.
  - intros ((((((((Hkey & [p Hp]) & [c Hc]) & Hconc) & Htok) & Hrun) & Hport) & Hlim)
            & Hextra).
    unfold no_extra_inputs in Hextra.
    destruct (Config.extra_inputs dotenv) as [|x extras] eqn:Hnone; [|discriminate].
    unfold Config.get_settings, Config.class_body. rewrite Hp, Hc.
    apply (int_field_reads "MAX_CONCURRENCY" 10) in Hconc. destruct Hconc as [x4 H4].
    apply (int_field_reads "MAX_OUTPUT_TOKENS" 8192) in Htok. destruct Htok as [x5 H5].
    apply (int_field_reads "REDIS_PORT" p) in Hport. destruct Hport as [x10 H10].
    apply (int_field_reads "API_CONCURRENCY_LIMIT" c) in Hlim. destruct Hlim as [x11 H11].
    match goal with
    | |- context [Config.Settings_new _ ?d _ _] =>
        apply (raw_field_reads "MAX_TASK_RUNTIME" (Config.d_MAX_TASK_RUNTIME d)) in Hrun
    end.
    destruct Hrun as [x8 H8].
    unfold Config.Settings_new. simpl Config.d_REDIS_PORT.
    simpl Config.d_API_CONCURRENCY_LIMIT. simpl Config.d_REDIS_HOST.
    simpl Config.d_API_BASE_URL. simpl Config.d_MAX_TASK_RUNTIME in *.
    rewrite H4, H5, H8, H10, H11, Hnone.
    unfold Config.str_field, Config.opt_str_field.
    destruct (Config.source_value env dotenv "GOOGLE_API_KEY"); [|discriminate].
    destruct (Config.source_value env dotenv "MODEL_NAME");
      destruct (Config.source_value env dotenv "OUTPUT_FOLDER");
      destruct (Config.source_value env dotenv "API_BASE_URL");
      destruct (Config.source_value env dotenv "FASTAPI_KEY");
      destruct (Config.source_value env dotenv "REDIS_HOST");
      eexists; reflexivity.
Qed.

End Loadable.

(** A [.env] file with a variable that names no field is refused, whatever
    else is set. *)
Lemma stray_variable_is_refused :
  Config.get_settings Config.decimal Config.decimal tuned_env stray_dotenv
  = inl (Config.ValidationError [("temperature", Config.extra_forbidden)]).
Proof. reflexivity. Qed.

Lemma get_settings_succeeds_iff_witness :
  (exists s, Config.get_settings Config.decimal Config.decimal tuned_env [] = inr s)
  /\ loadable Config.decimal Config.decimal bad_port_env [] = false
  /\ ~ (exists s, Config.get_settings Config.decimal Config.decimal tuned_env
                    stray_dotenv = inr s).
Proof.
  split; [|split].
  - apply (proj2 (get_settings_succeeds_iff Config.decimal Config.decimal tuned_env [])).
    reflexivity.
  - reflexivity.
  - intros H.
    apply (proj1 (get_settings_succeeds_iff Config.decimal Config.decimal tuned_env
                    stray_dotenv)) in H.
    discriminate H.
Defined.

(* ================================================================== *)
(** * Further properties of the monitor *)
(* ================================================================== *)

Section MonitorEdges.
Variable create_pool : Worker.RedisSettings -> IO Monitor.Redis.
Variable sleep : Q -> IO unit.
Variable utc_offset : Z.

Lemma while_True_zero (interval start_time : Q) (fuel : nat) :
  forall iteration s,
    Monitor.while_True create_pool sleep utc_offset interval (Some 0) start_time
      fuel iteration s
    = Monitor.while_True create_pool sleep utc_offset interval None start_time
        fuel iteration s.
Proof.
  induction fuel as [|fuel IH]; intros iteration s; [reflexivity|].
  simpl.
  change (Monitor.turn create_pool sleep utc_offset interval (Some 0) start_time s)
    with (Monitor.turn create_pool sleep utc_offset interval None start_time s).
  destruct (Monitor.turn create_pool sleep utc_offset interval None start_time s)
    as [[[|]|e|] s1]; reflexivity.
Qed.

(** One turn of the loop, unfolded. *)
Lemma while_True_step (interval : Q) (duration : option Z) (start_time : Q)
    (fuel : nat) (iteration : Z) (s : Monitor.ArqMonitor * world) :
  Monitor.while_True create_pool sleep utc_offset interval duration start_time
    (S fuel) iteration s
  = match Monitor.turn create_pool sleep utc_offset interval duration start_time s with
    | (Return true, s') => Some (Return iteration, s')
    | (Return false, s') =>
        Monitor.while_True create_pool sleep utc_offset interval duration start_time
          fuel (iteration + 1) s'
    | (Raise e, s') => Some (Raise e, s')
    | (Hang, s') => Some (Hang, s')
    end.
Proof. reflexivity. Qed.

(** X17.  A duration of 0 does not end the monitor at once: [duration and
    ...] takes 0 for no duration, and [print_stats] runs as it does without
    one. *)
Theorem print_stats_zero_duration_is_no_duration
    (fuel : nat) (interval : Q) (s : Monitor.ArqMonitor * world) :
  Monitor.print_stats create_pool sleep utc_offset fuel interval (Some 0) s
  = Monitor.print_stats create_pool sleep utc_offset fuel interval None s.
Proof.
  rewrite !print_stats_unfold. now rewrite while_True_zero.
Qed.

(** X18.  With a negative duration the first check of the loop ends it:
    [print_stats] prints the header and the rule and no row, and a monitor
    that holds no connection does not ask for one. *)
Theorem print_stats_negative_duration
    (fuel : nat) (interval : Q) (d : Z) (self : Monitor.ArqMonitor) (w : world) :
  d < 0 ->
  Monitor.print_stats create_pool sleep utc_offset (S fuel) interval (Some d) (self, w)
  = Some (finally_ Monitor.cleanup (Return tt, with_header (self, w)))
  /\ (Monitor.redis self = None ->
      Monitor.print_stats create_pool sleep utc_offset (S fuel) interval (Some d) (self, w)
      = Some (Return tt, with_header (self, w))).
Proof.
  intros Hd.
  assert (H : Monitor.print_stats create_pool sleep utc_offset (S fuel) interval
                (Some d) (self, w)
              = Some (finally_ Monitor.cleanup (Return tt, with_header (self, w)))).
  { rewrite print_stats_unfold, while_True_step.
    rewrite (turn_breaks create_pool sleep utc_offset interval (Some d)
               (clock (snd (self, w))) (with_header (self, w)) d eq_refl);
      [reflexivity | lia |].
    simpl. assert (Hq : (inject_Z d < 0)%Q) by (now rewrite (Zlt_Qlt d 0) in Hd).
    set (x := inject_Z d) in *. lra. }
  split; [exact H|].
  intros Hnone. rewrite H.
  unfold finally_, Monitor.cleanup, with_header. simpl. now rewrite Hnone.
Qed.

End MonitorEdges.

Lemma print_stats_negative_duration_witness :
  Monitor.print_stats unreachable_pool exact_sleep 0 1 1 (Some (-5))
    (fresh_monitor, midnight)
  = Some (Return tt, with_header (fresh_monitor, midnight)).
Proof.
  apply (proj2 (print_stats_negative_duration unreachable_pool exact_sleep 0 0 1 (-5)
                  fresh_monitor midnight ltac:(lia))).
  reflexivity.
Defined.



(* ================================================================== *)
(** * Properties of [get_queue_stats] *)
(* ================================================================== *)

(** X20.  A monitor that holds a connection takes its reading on it: the
    pool is not asked for another one, and the monitor keeps the connection
    it has, however the reading ends. *)
Theorem get_queue_stats_reuses_connection
    (create_pool create_pool' : Worker.RedisSettings -> IO Monitor.Redis)
    (utc_offset : Z) (self : Monitor.ArqMonitor) (w : world) (r : Monitor.Redis) :
  Monitor.redis self = Some r ->
  Monitor.get_queue_stats create_pool utc_offset (self, w)
  = Monitor.get_queue_stats create_pool' utc_offset (self, w)
  /\ fst (snd (Monitor.get_queue_stats create_pool utc_offset (self, w))) = self.
Proof.
  intros Hr.
  split; [|exact (get_queue_stats_keeps_self create_pool utc_offset self w r Hr)].
  assert (Hfirst : forall pool : Worker.RedisSettings -> IO Monitor.Redis,
             (fun s : Monitor.ArqMonitor * world =>
                match Monitor.redis (fst s) with
                | None => Monitor.connect pool s
                | Some _ => (Return tt, s)
                end) (self, w) = (Return tt, (self, w))).
  { intros pool. simpl. now rewrite Hr. }
  unfold Monitor.get_queue_stats.
  rewrite (bind_first _ _ (self, w) tt (Hfirst create_pool)).
  rewrite (bind_first _ _ (self, w) tt (Hfirst create_pool')).
  reflexivity.
Qed.

Lemma get_queue_stats_reuses_connection_witness :
  Monitor.get_queue_stats steady_pool 0 (connected_monitor, midnight)
  = Monitor.get_queue_stats unreachable_pool 0 (connected_monitor, midnight).
Proof.
  exact (proj1 (get_queue_stats_reuses_connection steady_pool unreachable_pool 0
                  connected_monitor midnight steady_redis eq_refl)).
Defined.

(** X21.  A monitor without a connection asks the pool for one before its
    reading.  When the pool cannot give it, the reading raises the
    exception of the pool and the monitor stays without a connection; and
    [print_stats], after the header and the rule, ends with that exception,
    having nothing to close. *)
Theorem monitor_connection_failure
    (create_pool : Worker.RedisSettings -> IO Monitor.Redis)
    (sleep : Q -> IO unit) (utc_offset : Z)
    (fuel : nat) (interval : Q) (duration : option Z)
    (self : Monitor.ArqMonitor) (w w' : world) (e : exn) :
  Monitor.redis self = None ->
  (create_pool (Monitor.redis_settings self) w = (Raise e, w') ->
   Monitor.get_queue_stats create_pool utc_offset (self, w) = (Raise e, (self, w')))
  /\ (create_pool (Monitor.redis_settings self) (snd (with_header (self, w)))
      = (Raise e, w') ->
      is_KeyboardInterrupt e = false ->
      starts duration ->
      Monitor.print_stats create_pool sleep utc_offset (S fuel) interval duration (self, w)
      = Some (Raise e, (self, w'))).
Proof.
  intros Hnone.
  assert (Hstats : forall w0 w1,
             create_pool (Monitor.redis_settings self) w0 = (Raise e, w1) ->
             Monitor.get_queue_stats create_pool utc_offset (self, w0)
             = (Raise e, (self, w1))).
  { intros w0 w1 Hpool.
    unfold Monitor.get_queue_stats. unfold bind at 1. simpl.
    rewrite Hnone. unfold Monitor.connect. now rewrite Hpool. }
  split; [apply Hstats|].
  intros Hpool Hki Hstart.
  rewrite print_stats_unfold, while_True_step.
  assert (Hturn : Monitor.turn create_pool sleep utc_offset interval duration
                    (clock (snd (self, w))) (with_header (self, w))
                  = (Raise e, (self, w'))).
  { unfold Monitor.turn. unfold bind at 1. rewrite expired_spec.
    assert (Hopen : match duration with
                    | Some d =>
                        (negb (d =? 0)
                         && negb (Qle_bool (clock (snd (with_header (self, w)))
                                            - clock (snd (self, w))) (inject_Z d)))%bool
                    | None => false
                    end = false).
    { destruct duration as [d|]; [|reflexivity].
      simpl in Hstart. simpl.
      assert (Hle : Qle_bool (clock w - clock w) (inject_Z d) = true).
      { apply Qle_bool_iff.
        assert (Hq : (0 <= inject_Z d)%Q) by (now rewrite (Zle_Qle 0 d) in Hstart).
        set (x := inject_Z d) in *. lra. }
      rewrite Hle. apply andb_false_r. }
    rewrite Hopen. unfold bind at 1.
    change (with_header (self, w)) with (self, snd (with_header (self, w))).
    now rewrite (Hstats _ _ Hpool). }
  rewrite Hturn, Hki.
  unfold finally_, Monitor.cleanup. simpl. now rewrite Hnone.
Qed.

Lemma unreachable_at_start :
  unreachable_pool (Monitor.redis_settings fresh_monitor)
    (snd (with_header (fresh_monitor, midnight)))
  = (Raise (Foreign "ConnectionError" true "Connection refused"),
     snd (with_header (fresh_monitor, midnight))).
Proof. reflexivity. Defined.

Lemma monitor_connection_failure_witness :
  Monitor.print_stats unreachable_pool exact_sleep 0 1 1 None (fresh_monitor, midnight)
  = Some (Raise (Foreign "ConnectionError" true "Connection refused"),
          with_header (fresh_monitor, midnight)).
Proof.
  exact (proj2 (monitor_connection_failure unreachable_pool exact_sleep 0 0 1 None
                  fresh_monitor midnight _ _ eq_refl)
           unreachable_at_start eq_refl I).
Defined.

(* ================================================================== *)
(** * Properties of the lifespan *)
(* ================================================================== *)

(** X22.  When the pool cannot be created at startup, [lifespan] ends with
    that exception: "Connected to Redis" is not logged, the application is
    not served and nothing is closed.  When it is created, the application
    is served after the record "Connected to Redis"; once it is over the
    pool is closed and "Disconnected from Redis" is logged. *)
Theorem lifespan_connects_and_disconnects {A : Type}
    (create_pool : Worker.RedisSettings -> IO Lifespan.Pool)
    (settings : Config.Settings) (serve : Lifespan.Pool -> IO A) (w w1 : world) :
  (forall e,
     create_pool (backend settings) w = (Raise e, w1) ->
     Lifespan.lifespan create_pool settings serve w = (Raise e, w1))
  /\ (forall pool result w2 w3,
        create_pool (backend settings) w = (Return pool, w1) ->
        serve pool (logged w1 "INFO" "Connected to Redis") = (Return result, w2) ->
        Lifespan.close pool w2 = (Return tt, w3) ->
        Lifespan.lifespan create_pool settings serve w
        = (Return result, logged w3 "INFO" "Disconnected from Redis")).
Proof.
  unfold backend. split.
  - intros e Hpool.
    unfold Lifespan.lifespan, Lifespan.startup, bind. now rewrite Hpool.
  - intros pool result w2 w3 Hpool Hserve Hclose.
    unfold Lifespan.lifespan, Lifespan.startup, Lifespan.shutdown, bind.
    rewrite Hpool. unfold logger at 1, ret at 1. unfold logged in Hserve.
    rewrite Hserve, Hclose. reflexivity.
Qed.

Lemma lifespan_connects_and_disconnects_witness :
  Lifespan.lifespan no_app_pool default_settings
    (fun pool => Main.chat (Lifespan.commands pool) hello) midnight
  = (Raise (Foreign "ConnectionError" true "Connection refused"), midnight)
  /\ fst (Lifespan.lifespan (app_pool quick_job) default_settings
            (fun pool => Main.chat (Lifespan.commands pool) hello) midnight)
     = Return (VDict [("result", VStr "world")]).
Proof.
  split.
  - exact (proj1 (lifespan_connects_and_disconnects no_app_pool default_settings
                    _ midnight midnight) _ eq_refl).
  - rewrite (proj2 (lifespan_connects_and_disconnects (app_pool quick_job)
                      default_settings
                      (fun pool => Main.chat (Lifespan.commands pool) hello)
                      midnight midnight)
               _ _ _ _ eq_refl eq_refl eq_refl).
    reflexivity.
Defined.

(* ================================================================== *)
(** * Properties of the load test *)
(* ================================================================== *)

Section Batches.
Variables concurrency total_requests : Z.

Lemma batches_concat (remaining : nat) :
  forall (i : Z) (tasks : list Z),
    i + Z.of_nat remaining = total_requests ->
    (remaining = O -> tasks = []) ->
    concat (LoadTest.batches_from concurrency total_requests remaining i tasks)
    = (tasks ++ ids i remaining)%list.
Proof.
  induction remaining as [|remaining IH]; intros i tasks Hend Hnone.
  - now rewrite (Hnone eq_refl).
  - simpl.
    destruct ((concurrency <=? Z.of_nat (length (tasks ++ [i + 1])))
              || (i =? total_requests - 1))%bool eqn:Hflush.
    + simpl. rewrite IH; [|lia|reflexivity].
      simpl. now rewrite <- app_assoc.
    + rewrite IH; [now rewrite <- app_assoc|lia|].
      intros ->. apply orb_false_elim in Hflush. destruct Hflush as [_ Hlast].
      apply Z.eqb_neq in Hlast. lia.
Qed.

Lemma batches_sizes (remaining : nat) :
  forall (i : Z) (tasks : list Z),
    i + Z.of_nat remaining = total_requests ->
    Z.of_nat (length tasks) < Z.max 1 concurrency ->
    Forall (fun batch =>
              batch <> []
              /\ (Z.of_nat (length batch) = Z.max 1 concurrency
                  \/ (Z.of_nat (length batch) <= Z.max 1 concurrency
                      /\ In total_requests batch)))
      (LoadTest.batches_from concurrency total_requests remaining i tasks).
Proof.
  induction remaining as [|remaining IH]; intros i tasks Hend Hroom; [constructor|].
  simpl.
  assert (Hlen : Z.of_nat (length (tasks ++ [i + 1])) = Z.of_nat (length tasks) + 1)
    by (rewrite length_app; simpl; lia).
  destruct ((concurrency <=? Z.of_nat (length (tasks ++ [i + 1])))
            || (i =? total_requests - 1))%bool eqn:Hflush.
  - constructor.
    + split; [now destruct tasks|].
      apply orb_true_iff in Hflush. destruct Hflush as [Hfull | Hlast].
      * apply Z.leb_le in Hfull. left. lia.
      * apply Z.eqb_eq in Hlast. right. split; [lia|].
        apply in_or_app. right. left. lia.
    + apply IH; [lia | simpl; lia].
  - apply orb_false_elim in Hflush. destruct Hflush as [Hfull _].
    apply Z.leb_gt in Hfull.
    apply IH; [lia | lia].
Qed.

End Batches.

(** X23.  The load test sends every request once and in order: the batches
    it gathers, put end to end, are the requests 1 to [total_requests] (none
    when that is not positive); no task is left ungathered. *)
Theorem load_test_sends_every_request_once (concurrency total_requests : Z) :
  concat (LoadTest.run_load_test concurrency total_requests)
  = ids 0 (Z.to_nat total_requests).
Proof.
  unfold LoadTest.run_load_test.
  destruct (Z.le_gt_cases 0 total_requests) as [Hpos | Hneg].
  - rewrite (batches_concat concurrency total_requests); [reflexivity | lia | reflexivity].
  - replace (Z.to_nat total_requests) with O by lia. reflexivity.
Qed.

(** X24.  No batch of the load test is empty, and every batch has
    [max(1, concurrency)] requests, except that the batch with the last
    request may have fewer; with a concurrency of 1 or less the requests go
    one by one. *)
Theorem load_test_batch_sizes (concurrency total_requests : Z) :
  Forall (fun batch =>
            batch <> []
            /\ (Z.of_nat (length batch) = Z.max 1 concurrency
                \/ (Z.of_nat (length batch) <= Z.max 1 concurrency
                    /\ In total_requests batch)))
    (LoadTest.run_load_test concurrency total_requests)
  /\ (concurrency <= 1 ->
      Forall (fun batch => length batch = 1%nat)
        (LoadTest.run_load_test concurrency total_requests)).
Proof.
  assert (H : Forall (fun batch =>
                        batch <> []
                        /\ (Z.of_nat (length batch) = Z.max 1 concurrency
                            \/ (Z.of_nat (length batch) <= Z.max 1 concurrency
                                /\ In total_requests batch)))
                (LoadTest.run_load_test concurrency total_requests)).
  { unfold LoadTest.run_load_test.
    destruct (Z.le_gt_cases 0 total_requests) as [Hpos | Hneg].
    - apply batches_sizes; [lia | simpl; lia].
    - replace (Z.to_nat total_requests) with O by lia. constructor. }
  split; [exact H|].
  intros Hone. eapply Forall_impl; [|exact H].
  intros batch [Hne Hsize]. simpl in Hsize.
  destruct batch as [|x rest]; [now elim Hne|].
  simpl in *. destruct Hsize as [Hs | [Hs _]]; lia.
Qed.

Lemma load_test_batch_sizes_witness :
  Forall (fun batch => length batch = 1%nat) (LoadTest.run_load_test 0 3)
  /\ LoadTest.run_load_test 2 5 = [[1; 2]; [3; 4]; [5]].
Proof.
  split.
  - apply (proj2 (load_test_batch_sizes 0 3)). lia.
  - reflexivity.
Defined.

(* ================================================================== *)
(** * Properties of [normalize_line_breaks] *)
(* ================================================================== *)

Lemma written_min (k run : nat) :
  TextNormalizer.written k run = TextNormalizer.newlines (Nat.min run k).
Proof.
  unfold TextNormalizer.written.
  destruct (Nat.leb_spec (k + 1) run).
  - now replace (Nat.min run k) with k by lia.
  - now replace (Nat.min run k) with run by lia.
Qed.

Lemma newlines_shift (n : nat) (s : string) :
  TextNormalizer.newlines n ++ String (ascii_of_nat 10) s
  = String (ascii_of_nat 10) (TextNormalizer.newlines n ++ s).
Proof.
  induction n as [|n IH]; [reflexivity|].
  change (TextNormalizer.newlines (S n))
    with (String (ascii_of_nat 10) (TextNormalizer.newlines n)).
  simpl. now rewrite IH.
Qed.

Lemma is_newline_eq (c : ascii) :
  TextNormalizer.is_newline c = true -> c = ascii_of_nat 10.
Proof. unfold TextNormalizer.is_newline. now rewrite Ascii.eqb_eq. Qed.

(** The substitution writes of each run its first [k] line breaks. *)
Lemma sub_runs_cut (k : nat) (text : string) :
  forall run,
    TextNormalizer.sub_runs k run text
    = TextNormalizer.newlines (Nat.min run k) ++ cut_runs k run text.
Proof.
  induction text as [|c rest IH]; intros run; simpl.
  - rewrite written_min.
    induction (Nat.min run k) as [|n IHn]; [reflexivity|].
    change (TextNormalizer.newlines (S n))
      with (String (ascii_of_nat 10) (TextNormalizer.newlines n)).
    simpl. now rewrite <- IHn.
  - destruct (TextNormalizer.is_newline c) eqn:Hc.
    + rewrite IH. apply is_newline_eq in Hc. subst c.
      destruct (Nat.ltb_spec run k).
      * replace (Nat.min (S run) k) with (S (Nat.min run k)) by lia.
        now rewrite newlines_shift.
      * now replace (Nat.min (S run) k) with (Nat.min run k) by lia.
    + rewrite written_min, IH. reflexivity.
Qed.

Lemma cut_runs_again (k : nat) (text : string) :
  forall seen, cut_runs k (Nat.min seen k) (cut_runs k seen text) = cut_runs k seen text.
Proof.
  induction text as [|c rest IH]; intros seen; simpl; [reflexivity|].
  destruct (TextNormalizer.is_newline c) eqn:Hc.
  - destruct (Nat.ltb_spec seen k).
    + simpl. rewrite Hc.
      replace (Nat.min seen k) with seen by lia.
      destruct (Nat.ltb_spec seen k); [|lia].
      f_equal. specialize (IH (S seen)).
      now replace (Nat.min (S seen) k) with (S seen) in IH by lia.
    + specialize (IH (S seen)).
      replace (Nat.min (S seen) k) with (Nat.min seen k) in IH by lia. exact IH.
  - simpl. rewrite Hc. f_equal. exact (IH 0%nat).
Qed.

Lemma cut_runs_bounded (k : nat) (text : string) :
  forall seen, runs_within k (Nat.min seen k) (cut_runs k seen text) = true.
Proof.
  induction text as [|c rest IH]; intros seen; simpl; [reflexivity|].
  destruct (TextNormalizer.is_newline c) eqn:Hc.
  - destruct (Nat.ltb_spec seen k).
    + simpl. rewrite Hc.
      replace (Nat.min seen k) with seen by lia.
      specialize (IH (S seen)).
      replace (Nat.min (S seen) k) with (S seen) in IH by lia.
      apply andb_true_intro. split; [|exact IH].
      apply (proj2 (Nat.leb_le (S seen) k)). lia.
    + specialize (IH (S seen)).
      replace (Nat.min (S seen) k) with (Nat.min seen k) in IH by lia. exact IH.
  - simpl. rewrite Hc. exact (IH 0%nat).
Qed.

Lemma cut_runs_keeps_text (k : nat) (text : string) :
  forall seen, without_newlines (cut_runs k seen text) = without_newlines text.
Proof.
  induction text as [|c rest IH]; intros seen; simpl; [reflexivity|].
  destruct (TextNormalizer.is_newline c) eqn:Hc.
  - destruct (Nat.ltb seen k); simpl; [rewrite Hc|]; apply IH.
  - simpl. rewrite Hc. f_equal. apply IH.
Qed.

Lemma cut_runs_fixes (k : nat) (text : string) :
  forall seen, runs_within k seen text = true -> cut_runs k seen text = text.
Proof.
  induction text as [|c rest IH]; intros seen; simpl; [reflexivity|].
  destruct (TextNormalizer.is_newline c) eqn:Hc.
  - intros H. apply andb_prop in H. destruct H as [Hle Hrest].
    apply (proj1 (Nat.leb_le (S seen) k)) in Hle.
    destruct (Nat.ltb_spec seen k); [|lia].
    f_equal. now apply IH.
  - intros H. f_equal. now apply IH.
Qed.

(** What [normalize_line_breaks] returns. *)
Lemma normalize_line_breaks_value (text : string) (k : nat) (w : world) :
  fst (TextNormalizer.normalize_line_breaks text k w) = Return (cut_runs k 0 text).
Proof.
  destruct text as [|c rest]; [reflexivity|].
  transitivity (Return (TextNormalizer.sub_runs k 0 (String c rest))); [reflexivity|].
  now rewrite sub_runs_cut.
Qed.

(** X25.  [normalize_line_breaks] returns a text in which no run of line
    breaks is longer than [max_consecutive], with the other characters as
    they were; normalizing its result again changes nothing. *)
Theorem normalize_line_breaks_bounds_runs (text : string) (max_consecutive : nat)
    (w : world) :
  exists result,
    fst (TextNormalizer.normalize_line_breaks text max_consecutive w) = Return result
    /\ runs_within max_consecutive 0 result = true
    /\ without_newlines result = without_newlines text
    /\ (forall w', fst (TextNormalizer.normalize_line_breaks result max_consecutive w')
                   = Return result).
Proof.
  exists (cut_runs max_consecutive 0 text).
  split; [apply normalize_line_breaks_value|].
  split; [exact (cut_runs_bounded max_consecutive text 0)|].
  split; [apply cut_runs_keeps_text|].
  intros w'. rewrite normalize_line_breaks_value. f_equal.
  exact (cut_runs_again max_consecutive text 0).
Qed.

(** X26.  A text whose runs of line breaks are all within [max_consecutive]
    is returned as it is. *)
Theorem normalize_line_breaks_keeps_short_runs (text : string) (max_consecutive : nat)
    (w : world) :
  runs_within max_consecutive 0 text = true ->
  fst (TextNormalizer.normalize_line_breaks text max_consecutive w) = Return text.
Proof.
  intros H. rewrite normalize_line_breaks_value. f_equal. now apply cut_runs_fixes.
Qed.

Lemma normalize_line_breaks_keeps_short_runs_witness :
  fst (TextNormalizer.normalize_line_breaks
         ("one" ++ TextNormalizer.newlines 2 ++ "two") 2 midnight)
  = Return ("one" ++ TextNormalizer.newlines 2 ++ "two")
  /\ fst (TextNormalizer.normalize_line_breaks spaced_out 2 midnight)
     = Return ("one" ++ TextNormalizer.newlines 2 ++ "two" ++ TextNormalizer.newlines 1).
Proof.
  split.
  - apply normalize_line_breaks_keeps_short_runs. reflexivity.
  - reflexivity.
Defined.
